(** * mem0mind: markdown-to-memory extraction and retrieval-augmented chat

    A shallow embedding of [markdown_processor.py] (class
    [MarkdownProcessor]) and [memory_manager.py] (class [MemoryManager]),
    and the properties of the pipeline proved on it.

    Conventions.
    - A Python [str] is a [text]: the list of its code points.  Code points
      are [ascii] values, that is, the range 0..255; within that range the
      character classes below are those of CPython ([str.isspace], the
      [\s] and [\d] of [re] on [str] patterns).
    - [re] is embedded as a backtracking matcher over a small regex syntax
      (module [Re]); each pattern of the source is written out in that
      syntax next to its source text.
    - Code that talks to the outside (the mem0 backend, the HTTP call to
      the LLM, the file system, logging, [time.sleep]) runs in the monad
      [M], which threads a [World] and an exception outcome. *)

From Stdlib Require Import List Ascii String Bool Arith ZArith Lia.
Import ListNotations.

Set Implicit Arguments.
Set Warnings "-abstract-large-number".

(* ===================================================================== *)
(** * Text: Python strings as lists of code points *)
(* ===================================================================== *)

Module Text.

Definition text := list ascii.

(** A literal: [txt "abc"] is the Python string ['abc']. *)
Definition txt (s : string) : text := list_ascii_of_string s.

Definition NL : ascii := "010"%char.

Definition code (c : ascii) : nat := nat_of_ascii c.

Definition in_range (lo hi : nat) (c : ascii) : bool :=
  (lo <=? code c) && (code c <=? hi).

(** [str.isspace] on one character, which is also [\s] of [re]:
    TAB..CR, FS..US, SPACE, NEL (0x85) and NBSP (0xA0). *)
Definition is_space (c : ascii) : bool :=
  in_range 9 13 c || in_range 28 32 c || (code c =? 133) || (code c =? 160).

(** [\d] of [re]: the decimal digits. *)
Definition is_digit (c : ascii) : bool := in_range 48 57 c.

Definition is_lower (c : ascii) : bool := in_range 97 122 c.
Definition is_upper (c : ascii) : bool := in_range 65 90 c.

Definition is_char (a c : ascii) : bool := Ascii.eqb a c.

Definition is_newline (c : ascii) : bool := is_char NL c.

(** [str.lower] on one character (ASCII letters). *)
Definition lower (c : ascii) : ascii :=
  if is_upper c then ascii_of_nat (code c + 32) else c.

Fixpoint text_eqb (a b : text) : bool :=
  match a, b with
  | [], [] => true
  | x :: a', y :: b' => Ascii.eqb x y && text_eqb a' b'
  | _, _ => false
  end.

(** [s.lstrip()], [s.rstrip()], [s.strip()]. *)
Fixpoint lstrip (s : text) : text :=
  match s with
  | [] => []
  | c :: s' => if is_space c then lstrip s' else s
  end.

Definition rstrip (s : text) : text := rev (lstrip (rev s)).

Definition strip (s : text) : text := rstrip (lstrip s).

(** Truthiness of a string or of a list: [bool(s)]. *)
Definition nonempty (A : Type) (s : list A) : bool :=
  match s with [] => false | _ => true end.

(** [s.split('\n')]: never empty; [''.split('\n') == ['']]. *)
Fixpoint split_nl (s : text) : list text :=
  match s with
  | [] => [[]]
  | c :: s' =>
      if is_newline c then [] :: split_nl s'
      else match split_nl s' with
           | l :: ls => (c :: l) :: ls
           | [] => [[c]]
           end
  end.

(** ['\n'.join(ls)]. *)
Fixpoint join_nl (ls : list text) : text :=
  match ls with
  | [] => []
  | [l] => l
  | l :: ls' => l ++ NL :: join_nl ls'
  end.

(** [c * n] for a one-character string [c]. *)
Definition replicate (n : nat) (c : ascii) : text := repeat c n.

End Text.
Export Text.

(* ===================================================================== *)
(** * Re: the fragment of Python's [re] the program uses *)
(* ===================================================================== *)

Module Re.

(** Regular expressions.  Repetition is only ever applied to a single
    character class in the program's patterns ([\d{1,2}], [\s+], [.*?],
    [#{1,3}], [[a-z]*]), so [Rep] takes a class; [?] on a group is
    [Opt]. *)
Inductive regex : Type :=
| Eps : regex
| Cls : (ascii -> bool) -> regex                 (* one character of a class *)
| Seq : regex -> regex -> regex
| Alt : regex -> regex -> regex                  (* r1|r2, left first *)
| Rep : bool -> nat -> option nat -> (ascii -> bool) -> regex
    (* [Rep greedy lo hi p]: p{lo,hi}, [hi = None] unbounded *)
| Group : nat -> regex -> regex                  (* capturing group n *)
| Look : regex -> regex                          (* (?=r) *)
| Bol : regex                                    (* ^ (no MULTILINE) *)
| Eol : regex.                                   (* $ (no MULTILINE) *)

Definition Lit (c : ascii) : regex := Cls (is_char c).
Definition Opt (r : regex) : regex := Alt r Eps.
Definition Star (p : ascii -> bool) : regex := Rep true 0 None p.
Definition Plus (p : ascii -> bool) : regex := Rep true 1 None p.
Definition LazyStar (p : ascii -> bool) : regex := Rep false 0 None p.
Definition Count (lo hi : nat) (p : ascii -> bool) : regex :=
  Rep true lo (Some hi) p.

Fixpoint seq_of (rs : list regex) : regex :=
  match rs with
  | [] => Eps
  | [r] => r
  | r :: rs' => Seq r (seq_of rs')
  end.

Fixpoint alt_of (rs : list regex) : regex :=
  match rs with
  | [] => Eps
  | [r] => r
  | r :: rs' => Alt r (alt_of rs')
  end.

(** A literal word, e.g. [Word (txt "Jan")]. *)
Definition Word (w : text) : regex := seq_of (map Lit w).

(** Case-insensitive literal word (flag IGNORECASE). *)
Definition LitI (c : ascii) : regex := Cls (fun x => is_char (lower c) (lower x)).
Definition WordI (w : text) : regex := seq_of (map LitI w).

(** The matcher's state: the position reached, the text still to read,
    and the groups captured so far (latest first). *)
Record mstate : Type := MState {
  m_pos : nat;
  m_rest : text;
  m_groups : list (nat * text)
}.

Definition has_more (hi : option nat) : bool :=
  match hi with Some 0 => false | _ => true end.

Definition dec_hi (hi : option nat) : option nat :=
  match hi with Some n => Some (pred n) | None => None end.

Section Matcher.
Variable A : Type.

(** Greedy [p{lo,hi}]: take as many as allowed, give back one at a time. *)
Fixpoint rep_greedy (p : ascii -> bool) (lo : nat) (hi : option nat)
    (pos : nat) (s : text) (gs : list (nat * text))
    (k : mstate -> option A) : option A :=
  let stop := if lo =? 0 then k (MState pos s gs) else None in
  match s with
  | c :: s' =>
      if p c && has_more hi then
        match rep_greedy p (pred lo) (dec_hi hi) (S pos) s' gs k with
        | Some r => Some r
        | None => stop
        end
      else stop
  | [] => stop
  end.

(** Lazy [p{lo,hi}?]: take as few as allowed, extend one at a time. *)
Fixpoint rep_lazy (p : ascii -> bool) (lo : nat) (hi : option nat)
    (pos : nat) (s : text) (gs : list (nat * text))
    (k : mstate -> option A) : option A :=
  let more :=
    match s with
    | c :: s' =>
        if p c && has_more hi
        then rep_lazy p (pred lo) (dec_hi hi) (S pos) s' gs k
        else None
    | [] => None
    end in
  if lo =? 0 then
    match k (MState pos s gs) with
    | Some r => Some r
    | None => more
    end
  else more.

End Matcher.

(** [$] without MULTILINE: at the end, or just before a final newline. *)
Definition at_eol (s : text) : bool :=
  match s with
  | [] => true
  | [c] => is_newline c
  | _ => false
  end.

(** The backtracking matcher, in continuation-passing style: [run r st k]
    is the first way, in Python's priority order, to match [r] from [st]
    so that the rest of the pattern [k] succeeds. *)
Fixpoint run (A : Type) (r : regex) (st : mstate) (k : mstate -> option A)
    : option A :=
  match r with
  | Eps => k st
  | Cls p =>
      match m_rest st with
      | c :: s' => if p c then k (MState (S (m_pos st)) s' (m_groups st)) else None
      | [] => None
      end
  | Seq r1 r2 => run r1 st (fun st1 => run r2 st1 k)
  | Alt r1 r2 =>
      match run r1 st k with
      | Some res => Some res
      | None => run r2 st k
      end
  | Rep greedy lo hi p =>
      if greedy
      then rep_greedy p lo hi (m_pos st) (m_rest st) (m_groups st) k
      else rep_lazy p lo hi (m_pos st) (m_rest st) (m_groups st) k
  | Group n r1 =>
      run r1 st (fun st1 =>
        k (MState (m_pos st1) (m_rest st1)
             ((n, firstn (m_pos st1 - m_pos st) (m_rest st)) :: m_groups st1)))
  | Look r1 =>
      match run r1 st (fun st1 => Some st1) with
      | Some st1 => k (MState (m_pos st) (m_rest st) (m_groups st1))
      | None => None
      end
  | Bol => if m_pos st =? 0 then k st else None
  | Eol => if at_eol (m_rest st) then k st else None
  end.

(** A match object: [m.start()], [m.end()] and the groups. *)
Record rmatch : Type := RMatch {
  m_start : nat;
  m_end : nat;
  m_caps : list (nat * text)
}.

(** [m.group(n)] for a group that took part in the match. *)
Fixpoint lookup_group (n : nat) (gs : list (nat * text)) : option text :=
  match gs with
  | [] => None
  | (i, t) :: gs' => if i =? n then Some t else lookup_group n gs'
  end.

Definition group (m : rmatch) (n : nat) : text :=
  match lookup_group n (m_caps m) with Some t => t | None => [] end.

(** One attempt at position [pos], the text from there being [rest].
    [must_advance] refuses an empty match (the scanner sets it after an
    empty match, see [finditer]). *)
Definition try_at (r : regex) (must_advance : bool) (pos : nat) (rest : text)
    : option rmatch :=
  run r (MState pos rest [])
    (fun st =>
       if must_advance && (m_pos st =? pos) then None
       else Some (RMatch pos (m_pos st) (m_groups st))).

(** [re.match(r, s)]: at the start of [s] only. *)
Definition re_match (r : regex) (s : text) : option rmatch :=
  try_at r false 0 s.

(** Leftmost match at or after [pos]. *)
Fixpoint search_from (r : regex) (pos : nat) (rest : text) : option rmatch :=
  match try_at r false pos rest with
  | Some m => Some m
  | None =>
      match rest with
      | [] => None
      | _ :: rest' => search_from r (S pos) rest'
      end
  end.

(** [re.search(r, s)]. *)
Definition re_search (r : regex) (s : text) : option rmatch :=
  search_from r 0 s.

(** [re.finditer(r, s)]: successive non-overlapping matches, left to
    right.  [skip] counts the characters still covered by the previous
    match.  After an empty match the scanner searches again from the same
    position and refuses an empty match there. *)
Fixpoint finditer_from (r : regex) (pos : nat) (rest : text) (skip : nat)
    : list rmatch :=
  let next k :=
    match rest with
    | [] => []
    | _ :: rest' => finditer_from r (S pos) rest' k
    end in
  match skip with
  | S k => next k
  | O =>
      match try_at r false pos rest with
      | None => next 0
      | Some m =>
          if m_end m =? pos then
            match try_at r true pos rest with
            | Some m2 => m :: m2 :: next (m_end m2 - pos - 1)
            | None => m :: next 0
            end
          else m :: next (m_end m - pos - 1)
      end
  end.

Definition finditer (r : regex) (s : text) : list rmatch :=
  finditer_from r 0 s 0.

(** [re.split(r, s, 1)] for a pattern without capturing groups: the text
    before and after the leftmost match, or [[s]] when there is none. *)
Definition split1 (r : regex) (s : text) : list text :=
  match re_search r s with
  | Some m => [firstn (m_start m) s; skipn (m_end m) s]
  | None => [s]
  end.

End Re.

(* ===================================================================== *)
(** * MarkdownProcessor.extract_sections *)
(* ===================================================================== *)

Module Sections.
Import Re.

(** A section dictionary: [{'level': .., 'header': .., 'content': ..}]. *)
Record section : Type := MkSection {
  level : nat;
  header : text;
  content : text
}.

(** [header_pattern = r'^(#{1,3})\s+(.+)$'] *)
Definition header_pattern : regex :=
  seq_of [ Bol;
           Group 1 (Count 1 3 (is_char "#"));
           Plus is_space;
           Group 2 (Plus (fun c => negb (is_newline c)));
           Eol ].

(** The loop variables of [extract_sections].  [current_section] holds
    the pending ['level'] (the run of [#], still a string) and ['header']. *)
Record loop_state : Type := LoopState {
  sections : list section;
  current_section : option (text * text);
  current_content : list text
}.

Definition initial : loop_state := LoopState [] None [].

(** [sections.append({...})] for the pending section, if there is one. *)
Definition flush (st : loop_state) : list section :=
  match current_section st with
  | Some (lv, hd) =>
      sections st ++ [MkSection (List.length lv) hd (join_nl (current_content st))]
  | None => sections st
  end.

(** One iteration of [for line in lines]. *)
Definition step (st : loop_state) (line : text) : loop_state :=
  match re_match header_pattern line with
  | Some header_match =>
      LoopState (flush st)
                (Some (group header_match 1, strip (group header_match 2)))
                []
  | None =>
      match current_section st with
      | Some _ => LoopState (sections st) (current_section st)
                            (current_content st ++ [line])
      | None => st
      end
  end.

Definition general_header : text := txt "General Facts from File".

Definition extract_sections (markdown_text : text) : list section :=
  let lines := split_nl markdown_text in
  let st := fold_left step lines initial in
  match current_section st with
  | Some _ => flush st
  | None =>
      if negb (nonempty (sections st)) && nonempty (strip markdown_text)
      then sections st ++ [MkSection 0 general_header (strip markdown_text)]
      else sections st
  end.

(** A line is a heading line when [header_pattern] matches it. *)
Definition is_heading (line : text) : bool :=
  match re_match header_pattern line with Some _ => true | None => false end.

End Sections.

(* ===================================================================== *)
(** * Py: exceptions and outcomes *)
(* ===================================================================== *)

Module Py.

(** The exception classes that occur; every one is a subclass of
    [Exception]. *)
Inductive exn_class : Type :=
| ValueError
| KeyError
| AttributeError
| OSError
| RequestException
| OtherException.

Definition exn_class_eqb (a b : exn_class) : bool :=
  match a, b with
  | ValueError, ValueError | KeyError, KeyError
  | AttributeError, AttributeError | OSError, OSError
  | RequestException, RequestException
  | OtherException, OtherException => true
  | _, _ => false
  end.

(** An exception object: its class and [str(e)]. *)
Record exn : Type := Exn {
  exn_cls : exn_class;
  exn_msg : text
}.

(** What a call does: return a value or raise. *)
Inductive outcome (A : Type) : Type :=
| Ok : A -> outcome A
| Raise : exn -> outcome A.

Arguments Ok {A} _.
Arguments Raise {A} _.

Definition raises (A : Type) (o : outcome A) : bool :=
  match o with Ok _ => false | Raise _ => true end.

(** [x or d] for an optional string: [None] and [''] are falsy. *)
Definition or_else (x : option text) (d : text) : text :=
  match x with
  | Some (c :: t) => c :: t
  | _ => d
  end.

End Py.
Export Py.

(* ===================================================================== *)
(** * Datetime: [datetime.datetime] and [datetime.strptime] *)
(* ===================================================================== *)

Module Datetime.
Import Re.

Record datetime : Type := MkDatetime {
  year : nat;
  month : nat;
  day : nat;
  hour : nat;
  minute : nat;
  second : nat
}.

Definition is_leap (y : nat) : bool :=
  ((y mod 4 =? 0) && negb (y mod 100 =? 0)) || (y mod 400 =? 0).

Definition days_in_month (y m : nat) : nat :=
  match m with
  | 1 | 3 | 5 | 7 | 8 | 10 | 12 => 31
  | 4 | 6 | 9 | 11 => 30
  | 2 => if is_leap y then 29 else 28
  | _ => 0
  end.

(** The checks of the [datetime(...)] constructor (MINYEAR = 1,
    MAXYEAR = 9999); a failed check is a [ValueError]. *)
Definition valid (d : datetime) : bool :=
  (1 <=? year d) && (year d <=? 9999) &&
  (1 <=? month d) && (month d <=? 12) &&
  (1 <=? day d) && (day d <=? days_in_month (year d) (month d)) &&
  (hour d <=? 23) && (minute d <=? 59) && (second d <=? 59).

(** [int(s)] on a string of digits, surrounding blanks allowed. *)
Definition to_int (s : text) : nat :=
  fold_left (fun n c => 10 * n + (code c - 48)) (strip s) 0.

(** The directives of [strptime] formats that the program uses. *)
Inductive directive : Type :=
| Dd | DH | DI | Dm | DM | DS | Dy | DY | Dp | Db | DB.

(** A format string, item by item: a directive, a run of whitespace, or
    any other character. *)
Inductive fmt_item : Type :=
| FDir : directive -> fmt_item
| FSpace : fmt_item
| FChar : ascii -> fmt_item.

(** Group numbers standing for the named groups [(?P<d>..)] etc. *)
Definition group_of (d : directive) : nat :=
  match d with
  | Dd => 1 | DH => 2 | DI => 3 | Dm => 4 | DM => 5 | DS => 6
  | Dy => 7 | DY => 8 | Dp => 9 | Db => 10 | DB => 11
  end.

Definition a_month : list text :=
  map txt ["jan"; "feb"; "mar"; "apr"; "may"; "jun";
           "jul"; "aug"; "sep"; "oct"; "nov"; "dec"]%string.

Definition f_month : list text :=
  map txt ["january"; "february"; "march"; "april"; "may"; "june"; "july";
           "august"; "september"; "october"; "november"; "december"]%string.

(** [f_month] sorted by decreasing length, as [__seqToRE] does (stable). *)
Definition f_month_by_length : list text :=
  map txt ["september"; "february"; "november"; "december"; "january";
           "october"; "august"; "march"; "april"; "june"; "july"; "may"]%string.

Definition digit_in (lo hi : nat) (c : ascii) : bool :=
  in_range (48 + lo) (48 + hi) c.

(** The regular expression of each directive ([TimeRE.__init__] of
    CPython's [_strptime], English/C locale; compiled with IGNORECASE). *)
Definition directive_regex (d : directive) : regex :=
  Group (group_of d)
    match d with
    | Dd => (* 3[0-1]|[1-2]\d|0[1-9]|[1-9]| [1-9] *)
        alt_of [ Seq (Lit "3") (Cls (digit_in 0 1));
                 Seq (Cls (digit_in 1 2)) (Cls is_digit);
                 Seq (Lit "0") (Cls (digit_in 1 9));
                 Cls (digit_in 1 9);
                 Seq (Lit " ") (Cls (digit_in 1 9)) ]
    | DH => (* 2[0-3]|[0-1]\d|\d *)
        alt_of [ Seq (Lit "2") (Cls (digit_in 0 3));
                 Seq (Cls (digit_in 0 1)) (Cls is_digit);
                 Cls is_digit ]
    | DI | Dm => (* 1[0-2]|0[1-9]|[1-9] *)
        alt_of [ Seq (Lit "1") (Cls (digit_in 0 2));
                 Seq (Lit "0") (Cls (digit_in 1 9));
                 Cls (digit_in 1 9) ]
    | DM => (* [0-5]\d|\d *)
        alt_of [ Seq (Cls (digit_in 0 5)) (Cls is_digit); Cls is_digit ]
    | DS => (* 6[0-1]|[0-5]\d|\d *)
        alt_of [ Seq (Lit "6") (Cls (digit_in 0 1));
                 Seq (Cls (digit_in 0 5)) (Cls is_digit);
                 Cls is_digit ]
    | Dy => (* \d\d *)
        Seq (Cls is_digit) (Cls is_digit)
    | DY => (* \d\d\d\d *)
        seq_of [Cls is_digit; Cls is_digit; Cls is_digit; Cls is_digit]
    | Dp => (* am|pm *)
        alt_of [WordI (txt "am"); WordI (txt "pm")]
    | Db => alt_of (map WordI a_month)
    | DB => alt_of (map WordI f_month_by_length)
    end.

(** [TimeRE.pattern]: whitespace in the format stands for [\s+]. *)
Definition item_regex (i : fmt_item) : regex :=
  match i with
  | FDir d => directive_regex d
  | FSpace => Plus is_space
  | FChar c => Lit c
  end.

Definition format_regex (fmt : list fmt_item) : regex :=
  seq_of (map item_regex fmt).

(** [list.index]. *)
Fixpoint index_of (x : text) (l : list text) : option nat :=
  match l with
  | [] => None
  | y :: l' =>
      if text_eqb x y then Some 0
      else match index_of x l' with Some n => Some (S n) | None => None end
  end.

Definition month_index (names : list text) (found : text) : nat :=
  match index_of (map lower found) names with
  | Some i => S i
  | None => 0
  end.

Definition value_error (msg : string) : exn := Exn ValueError (txt msg).

(** [datetime.strptime(data_string, format)].  The groups found are
    converted as [_strptime] does: a two-digit year is 20xx up to 68 and
    19xx above; [%I] is read with the AM/PM mark, no mark meaning AM. *)
Definition strptime (data_string : text) (fmt : list fmt_item)
    : outcome datetime :=
  match re_match (format_regex fmt) data_string with
  | None => Raise (value_error "time data does not match format")
  | Some found =>
      if negb (m_end found =? List.length data_string)
      then Raise (value_error "unconverted data remains")
      else
        let get d := lookup_group (group_of d) (m_caps found) in
        let num d dflt :=
          match get d with Some t => to_int t | None => dflt end in
        let year :=
          match get Dy, get DY with
          | Some t, _ => if to_int t <=? 68 then to_int t + 2000 else to_int t + 1900
          | None, Some t => to_int t
          | None, None => 1900
          end in
        let month :=
          match get Dm, get DB, get Db with
          | Some t, _, _ => to_int t
          | None, Some t, _ => month_index f_month t
          | None, None, Some t => month_index a_month t
          | None, None, None => 1
          end in
        let ampm := match get Dp with Some t => map lower t | None => [] end in
        let hour :=
          match get DH, get DI with
          | Some t, _ => to_int t
          | None, Some t =>
              let h := to_int t in
              if text_eqb ampm (txt "pm")
              then (if h =? 12 then 12 else h + 12)
              else (if h =? 12 then 0 else h)
          | None, None => 0
          end in
        let d := MkDatetime year month (num Dd 1) hour (num DM 0) (num DS 0) in
        if valid d then Ok d
        else Raise (value_error "date value out of range")
  end.

(** Two decimal digits, and four, zero-padded. *)
Definition digit (n : nat) : ascii := ascii_of_nat (48 + n mod 10).
Definition pad2 (n : nat) : text := [digit (n / 10); digit n].
Definition pad4 (n : nat) : text :=
  [digit (n / 1000); digit (n / 100); digit (n / 10); digit n].

(** [d.isoformat()] (no microseconds): [YYYY-MM-DDTHH:MM:SS]. *)
Definition isoformat (d : datetime) : text :=
  pad4 (year d) ++ "-"%char :: pad2 (month d) ++ "-"%char :: pad2 (day d)
  ++ "T"%char :: pad2 (hour d) ++ ":"%char :: pad2 (minute d)
  ++ ":"%char :: pad2 (second d).

End Datetime.

(* ===================================================================== *)
(** * Runtime: the world outside, and the monad the methods run in *)
(* ===================================================================== *)

Module Runtime.
Import Datetime.

(** ** Values exchanged with the mem0 backend *)

(** One entry of [result['results']]: mem0 returns ['id'], ['memory'] and
    ['event'] for each record. *)
Record memory_record : Type := MkRecord {
  rec_id : text;
  rec_memory : text;
  rec_event : text
}.

(** A result dictionary; the key ['results'] may be absent. *)
Record result_dict : Type := MkResult {
  results : option (list memory_record)
}.

(** What [memory.add] / [memory.search] hand back: a dictionary or
    [None]. *)
Definition pyresult : Type := option result_dict.

(** [result and result.get('results')], as a truth value. *)
Definition has_results (r : pyresult) : bool :=
  match r with
  | Some (MkResult (Some (_ :: _))) => true
  | _ => false
  end.

(** [result['results']] when [has_results] holds. *)
Definition results_of (r : pyresult) : list memory_record :=
  match r with
  | Some (MkResult (Some l)) => l
  | _ => []
  end.

(** [memory.add(fact, user_id=.., metadata=..)]. *)
Record add_call : Type := AddCall {
  ac_fact : text;
  ac_user_id : text;
  ac_metadata : option (list (text * text))
}.

(** [memory.search(query, user_id=.., limit=..)]. *)
Record search_call : Type := SearchCall {
  sc_query : text;
  sc_user_id : text;
  sc_limit : Z
}.

(** ** Prompts and the HTTP call to Ollama *)

(** The context block of the chat prompt:
    [f"No specific information available about {user_id}."] or
    [f"Facts about {user_id}:\n"] followed by one bullet line per fact. *)
Inductive chat_context : Type :=
| NoInformation : text -> chat_context
| FactsAbout : text -> list text -> chat_context.

(** A prompt: the chat template of [chat] filled with [user_id], the
    context block and the query, or a plain string. *)
Inductive prompt : Type :=
| ChatPrompt : text -> chat_context -> text -> prompt
| TextPrompt : text -> prompt.

Record http_request : Type := HttpRequest {
  req_url : text;
  req_model : text;
  req_prompt : prompt;
  req_temperature : text;       (* the JSON number, as written *)
  req_num_predict : Z;
  req_timeout : Z
}.

(** The JSON object of an Ollama answer; the key ['response'] may be
    absent. *)
Record json_body : Type := JsonBody {
  response_field : option text
}.

Record http_response : Type := HttpResponse {
  status_code : nat;
  json : outcome json_body      (* [response.json()] *)
}.

(** ** Configuration *)

(** [config['memory_config']['llm']['config']]. *)
Record llm_config : Type := LlmConfig {
  ollama_base_url : option text;
  model : option text;
  max_tokens : option Z
}.

Record Config : Type := MkConfig {
  processing_user_id : option text;         (* processing_options.user_id *)
  chat_max_context_memories : option Z;     (* chat_options.max_context_memories *)
  chat_temperature : option text;           (* chat_options.temperature *)
  chat_response_timeout : option Z;         (* chat_options.response_timeout *)
  memory_llm_config : option llm_config     (* absent: a key on the path is missing *)
}.

(** ** Logging *)

Inductive log_level : Type := DEBUG | INFO | WARNING | ERROR.

(** One constructor for each logging statement, with the values its
    message is formatted from. *)
Inductive log_msg : Type :=
(* MemoryManager.add_fact *)
| AddingFact : nat -> text -> log_msg            (* Adding fact (attempt n): 'fact' *)
| Added : text -> log_msg                        (* Added: memory *)
| NoMemoryCreated : text -> log_msg              (* No memory created from: 'fact' *)
| AttemptFailed : nat -> exn -> log_msg          (* Attempt n failed: e *)
| Retrying : log_msg                             (* Retrying in 2 seconds... *)
| FailedAfter : Z -> log_msg                     (* Failed after n attempts *)
(* MemoryManager.search_memories, chat, _call_ollama_api *)
| SearchReturned : text -> nat -> log_msg        (* Search for 'q' returned n results *)
| SearchFailed : exn -> log_msg                  (* Search failed: e *)
| SearchingFor : text -> log_msg                 (* Searching for memories relevant to: 'q' *)
| NoRelevantMemories : log_msg                   (* No relevant memories found *)
| FoundMemories : nat -> log_msg                 (* Found n relevant memories *)
| ChatError : exn -> log_msg                     (* Chat error: e *)
| OllamaApiError : exn -> log_msg                (* Ollama API error: e *)
(* MarkdownProcessor *)
| FailedToParseDate : text -> exn -> log_msg     (* Failed to parse date 'text': e *)
| NoBulletEntries : nat -> log_msg               (* No bullet-point entries found; processed n lines ... *)
| FailedToLoadPrompt : exn -> log_msg            (* Failed to load extraction prompt: e *)
| ErrorExtractingFacts : exn -> log_msg          (* Error extracting facts with LLM: e *)
| ProcessingFile : text -> log_msg               (* Processing file: path *)
| FoundSections : nat -> log_msg                 (* Found n sections *)
| ProcessingSection : text -> log_msg            (* Processing section: header *)
| FoundEntries : nat -> log_msg                  (* Found n entries in section *)
| CompletedFile : text -> log_msg                (* Completed processing file: path *)
| TotalFacts : nat -> log_msg                    (* Total facts extracted: n *)
| AddedFacts : nat -> log_msg                    (* Successfully added facts: n *)
| ErrorProcessingFile : text -> exn -> log_msg.  (* Error processing file path: e *)

(** ** The world *)

(** The calls made to the collaborators so far, oldest first, each with
    what it returned or raised. *)
Record History : Type := MkHistory {
  add_calls : list (add_call * outcome pyresult);
  search_calls : list (search_call * outcome pyresult);
  posts : list (http_request * outcome http_response);
  reads : list (text * outcome text)
}.

(** Everything the program has done to the outside so far.  Sleeps are
    in milliseconds. *)
Record World : Type := MkWorld {
  logs : list (log_level * log_msg);
  sleeps : list nat;
  history : History
}.

Definition empty_world : World := MkWorld [] [] (MkHistory [] [] [] []).

(** The collaborators.  Each answers a call given the calls made so far,
    by returning or by raising. *)
Record Env : Type := MkEnv {
  memory_add : History -> add_call -> outcome pyresult;
  memory_search : History -> search_call -> outcome pyresult;
  requests_post : History -> http_request -> outcome http_response;
  read_file : History -> text -> outcome text;
  (* prompt_manager.get_prompt('extraction', 'markdown_facts', context=..,
     time_context=.., content=..); the time context is the sentence
     rendering the timestamp, or empty *)
  get_prompt : text -> option datetime -> text -> outcome text;
  strptime : text -> list fmt_item -> outcome datetime
}.

(** ** The monad *)

Definition M (A : Type) : Type := World -> outcome A * World.

Definition ret (A : Type) (a : A) : M A := fun w => (Ok a, w).

Definition bind (A B : Type) (m : M A) (f : A -> M B) : M B :=
  fun w =>
    match m w with
    | (Ok a, w') => f a w'
    | (Raise e, w') => (Raise e, w')
    end.

Definition raise (A : Type) (e : exn) : M A := fun w => (Raise e, w).
Arguments raise {A} e.

(** A library call that returns or raises and leaves the world alone. *)
Definition lift (A : Type) (o : outcome A) : M A := fun w => (o, w).

(** [try: m  except Exception as e: h e]. *)
Definition try_except (A : Type) (m : M A) (h : exn -> M A) : M A :=
  fun w =>
    match m w with
    | (Ok a, w') => (Ok a, w')
    | (Raise e, w') => h e w'
    end.

(** [try: m  except cls as e: h e]: other classes pass through. *)
Definition try_except_cls (A : Type) (cls : exn_class) (m : M A)
    (h : exn -> M A) : M A :=
  try_except m (fun e => if exn_class_eqb (exn_cls e) cls then h e else raise e).

Declare Scope monad_scope.
Delimit Scope monad_scope with monad.
Notation "x <- m ;; k" := (bind m (fun x => k))
  (at level 61, m at next level, right associativity) : monad_scope.
Notation "m ;; k" := (bind m (fun _ => k))
  (at level 61, right associativity) : monad_scope.
Open Scope monad_scope.

(** How a loop body ends: [return v] from the function, or on to the
    next iteration. *)
Inductive flow (A : Type) : Type :=
| Return : A -> flow A
| Continue : flow A.

Arguments Return {A} _.
Arguments Continue {A}.

(** ** Primitive effects *)

Definition log (lv : log_level) (msg : log_msg) : M unit :=
  fun w => (Ok tt, MkWorld (logs w ++ [(lv, msg)]) (sleeps w) (history w)).

(** [time.sleep], in milliseconds. *)
Definition sleep (ms : nat) : M unit :=
  fun w => (Ok tt, MkWorld (logs w) (sleeps w ++ [ms]) (history w)).

Section Calls.
Variable env : Env.

Definition call_memory_add (c : add_call) : M pyresult :=
  fun w =>
    let h := history w in
    let o := memory_add env h c in
    (o, MkWorld (logs w) (sleeps w)
          (MkHistory (add_calls h ++ [(c, o)]) (search_calls h) (posts h) (reads h))).

Definition call_memory_search (c : search_call) : M pyresult :=
  fun w =>
    let h := history w in
    let o := memory_search env h c in
    (o, MkWorld (logs w) (sleeps w)
          (MkHistory (add_calls h) (search_calls h ++ [(c, o)]) (posts h) (reads h))).

Definition call_requests_post (r : http_request) : M http_response :=
  fun w =>
    let h := history w in
    let o := requests_post env h r in
    (o, MkWorld (logs w) (sleeps w)
          (MkHistory (add_calls h) (search_calls h) (posts h ++ [(r, o)]) (reads h))).

Definition call_read_file (path : text) : M text :=
  fun w =>
    let h := history w in
    let o := read_file env h path in
    (o, MkWorld (logs w) (sleeps w)
          (MkHistory (add_calls h) (search_calls h) (posts h) (reads h ++ [(path, o)]))).

End Calls.

End Runtime.

(* ===================================================================== *)
(** * MemoryManager *)
(* ===================================================================== *)

Module MemoryManager.
Import Runtime.

(** [range(n)]: empty when [n <= 0]. *)
Definition range (n : Z) : list nat := seq 0 (Z.to_nat n).

Section Manager.
Variable env : Env.
Variable config : Config.

(** [self.user_id], set in [__init__] from
    [config.get('processing_options', {}).get('user_id', 'default')]. *)
Definition self_user_id : text :=
  match processing_user_id config with
  | Some u => u
  | None => txt "default"
  end.

(** [result['results'][0]['memory']]. *)
Definition first_memory (result : pyresult) : text :=
  match results_of result with
  | r :: _ => rec_memory r
  | [] => []
  end.

(** The body of [for attempt in range(max_retries)] in [add_fact]. *)
Definition add_attempt (fact user_id : text)
    (metadata : option (list (text * text))) (max_retries : Z)
    (attempt : nat) : M (flow pyresult) :=
  try_except
    (log DEBUG (AddingFact (attempt + 1) fact) ;;
     result <- call_memory_add env (AddCall fact user_id metadata) ;;
     if has_results result then
       log INFO (Added (first_memory result)) ;;
       ret (Return result)
     else
       log WARNING (NoMemoryCreated fact) ;;
       ret (Return result))
    (fun e =>
       log ERROR (AttemptFailed (attempt + 1) e) ;;
       if (Z.of_nat attempt <? max_retries - 1)%Z then
         log INFO Retrying ;;
         sleep 2000 ;;
         ret Continue
       else
         log ERROR (FailedAfter max_retries) ;;
         ret (Return None)).

(** The [for] loop; running off its end is the implicit [return None]. *)
Fixpoint add_fact_loop (fact user_id : text)
    (metadata : option (list (text * text))) (max_retries : Z)
    (attempts : list nat) : M pyresult :=
  match attempts with
  | [] => ret None
  | attempt :: rest =>
      r <- add_attempt fact user_id metadata max_retries attempt ;;
      match r with
      | Return v => ret v
      | Continue => add_fact_loop fact user_id metadata max_retries rest
      end
  end.

(** [add_fact(fact, user_id=None, metadata=None, max_retries=3)]. *)
Definition add_fact (fact : text) (user_id : option text)
    (metadata : option (list (text * text))) (max_retries : Z) : M pyresult :=
  let user_id := or_else user_id self_user_id in
  add_fact_loop fact user_id metadata max_retries (range max_retries).

(** [search_memories(query, user_id=None, limit=5)].  The debug line
    calls [results.get], which fails on [None]. *)
Definition search_memories (query : text) (user_id : option text)
    (limit : Z) : M pyresult :=
  let user_id := or_else user_id self_user_id in
  try_except
    (found <- call_memory_search env (SearchCall query user_id limit) ;;
     match found with
     | Some d =>
         log DEBUG (SearchReturned query
                      (List.length (match results d with Some l => l | None => [] end))) ;;
         ret found
     | None =>
         raise (Exn AttributeError
                    (txt "'NoneType' object has no attribute 'get'"))
     end)
    (fun e =>
       log ERROR (SearchFailed e) ;;
       ret None).

(** [response.raise_for_status()]. *)
Definition raise_for_status (r : http_response) : M unit :=
  if (400 <=? status_code r) && (status_code r <? 600)
  then raise (Exn RequestException (txt "HTTP error"))
  else ret tt.

Definition no_response : text := txt "Sorry, I couldn't generate a response.".

Definition key_error (key : string) : exn := Exn KeyError (txt key).

(** [_call_ollama_api(prompt)]. *)
Definition _call_ollama_api (p : prompt) : M text :=
  match memory_llm_config config with
  | None => raise (key_error "'memory_config'")
  | Some memory_config =>
      match ollama_base_url memory_config with
      | None => raise (key_error "'ollama_base_url'")
      | Some base_url =>
          match model memory_config with
          | None => raise (key_error "'model'")
          | Some model_name =>
              let request :=
                HttpRequest
                  (base_url ++ txt "/api/generate") model_name p
                  (match chat_temperature config with
                   | Some t => t | None => txt "0.7" end)
                  (match max_tokens memory_config with
                   | Some n => n | None => 2000%Z end)
                  (match chat_response_timeout config with
                   | Some n => n | None => 60%Z end) in
              try_except_cls RequestException
                (response <- call_requests_post env request ;;
                 raise_for_status response ;;
                 result <- lift (json response) ;;
                 match response_field result with
                 | Some r => ret (strip r)
                 | None => ret no_response
                 end)
                (fun e =>
                   log ERROR (OllamaApiError e) ;;
                   raise e)
          end
      end
  end.

Definition sorry_prefix : text := txt "Sorry, I encountered an error: ".

(** [x or d] for an optional integer: [None] and [0] are falsy. *)
Definition or_else_int (x : option Z) (d : Z) : Z :=
  match x with
  | Some n => if (n =? 0)%Z then d else n
  | None => d
  end.

(** [chat(query, user_id=None, max_context_memories=None)]. *)
Definition chat (query : text) (user_id : option text)
    (max_context_memories : option Z) : M text :=
  let user_id := or_else user_id self_user_id in
  let max_context_memories :=
    or_else_int max_context_memories
      (match chat_max_context_memories config with
       | Some n => n | None => 5%Z end) in
  try_except
    (log DEBUG (SearchingFor query) ;;
     memories <- search_memories query (Some user_id) max_context_memories ;;
     context <-
       (if negb (has_results memories) then
          log DEBUG NoRelevantMemories ;;
          ret (NoInformation user_id)
        else
          let memory_facts := map rec_memory (results_of memories) in
          log DEBUG (FoundMemories (List.length memory_facts)) ;;
          ret (FactsAbout user_id memory_facts)) ;;
     _call_ollama_api (ChatPrompt user_id context query))
    (fun e =>
       log ERROR (ChatError e) ;;
       ret (sorry_prefix ++ exn_msg e)).

End Manager.

End MemoryManager.

(* ===================================================================== *)
(** * MarkdownProcessor *)
(* ===================================================================== *)

Module MarkdownProcessor.
Import Re Datetime Runtime.
Export Sections.

(** An entry dictionary: [{'timestamp': .., 'content': ..}]. *)
Record entry : Type := MkEntry {
  timestamp : option datetime;
  entry_content : text
}.

Definition months : list regex :=
  map (fun m => Word (txt m))
      ["Jan"; "Feb"; "Mar"; "Apr"; "May"; "Jun";
       "Jul"; "Aug"; "Sep"; "Oct"; "Nov"; "Dec"]%string.

(** [(?:AM|PM|am|pm)?] *)
Definition am_pm_opt : regex :=
  Opt (alt_of [Word (txt "AM"); Word (txt "PM"); Word (txt "am"); Word (txt "pm")]).

(** [\d{1,2}/\d{1,2}/\d{2,4}\s+\d{1,2}:\d{2}\s*(?:AM|PM|am|pm)?] *)
Definition slash_date : list regex :=
  [ Count 1 2 is_digit; Lit "/"; Count 1 2 is_digit; Lit "/";
    Count 2 4 is_digit; Plus is_space;
    Count 1 2 is_digit; Lit ":"; Count 2 2 is_digit;
    Star is_space; am_pm_opt ].

(** The three [date_patterns] of [parse_date]:
    - [(\d{1,2}/\d{1,2}/\d{2,4}\s+\d{1,2}:\d{2}\s*(?:AM|PM|am|pm)?)]
    - [(\d{4}-\d{2}-\d{2}\s+\d{2}:\d{2}(?::\d{2})?)]
    - [(\d{1,2}\s+(?:Jan|Feb|..|Dec)[a-z]*\s+\d{2,4})] *)
Definition date_patterns : list regex :=
  [ Group 1 (seq_of slash_date);
    Group 1 (seq_of
      [ Count 4 4 is_digit; Lit "-"; Count 2 2 is_digit; Lit "-";
        Count 2 2 is_digit; Plus is_space;
        Count 2 2 is_digit; Lit ":"; Count 2 2 is_digit;
        Opt (Seq (Lit ":") (Count 2 2 is_digit)) ]);
    Group 1 (seq_of
      [ Count 1 2 is_digit; Plus is_space; alt_of months; Star is_lower;
        Plus is_space; Count 2 4 is_digit ]) ].

(** The six formats tried on a matched text:
    ["%m/%d/%y %I:%M %p"], ["%m/%d/%Y %I:%M %p"], ["%Y-%m-%d %H:%M:%S"],
    ["%Y-%m-%d %H:%M"], ["%d %b %Y"], ["%d %B %Y"]. *)
Definition date_formats : list (list fmt_item) :=
  [ [FDir Dm; FChar "/"; FDir Dd; FChar "/"; FDir Dy; FSpace;
     FDir DI; FChar ":"; FDir DM; FSpace; FDir Dp];
    [FDir Dm; FChar "/"; FDir Dd; FChar "/"; FDir DY; FSpace;
     FDir DI; FChar ":"; FDir DM; FSpace; FDir Dp];
    [FDir DY; FChar "-"; FDir Dm; FChar "-"; FDir Dd; FSpace;
     FDir DH; FChar ":"; FDir DM; FChar ":"; FDir DS];
    [FDir DY; FChar "-"; FDir Dm; FChar "-"; FDir Dd; FSpace;
     FDir DH; FChar ":"; FDir DM];
    [FDir Dd; FSpace; FDir Db; FSpace; FDir DY];
    [FDir Dd; FSpace; FDir DB; FSpace; FDir DY] ].

Definition is_bullet (c : ascii) : bool := is_char "-" c || is_char "*" c.

(** [entry_pattern = r'[-*]\s*(.*?)(?=\n[-*]|\n\n|\n$|$)'], with DOTALL. *)
Definition entry_pattern : regex :=
  seq_of [ Cls is_bullet;
           Star is_space;
           Group 1 (LazyStar (fun _ => true));
           Look (alt_of [ Seq (Lit NL) (Cls is_bullet);
                          Seq (Lit NL) (Lit NL);
                          Seq (Lit NL) Eol;
                          Eol ]) ].

(** The pattern of the [re.split] that separates timestamp and content:
    [\d{1,2}/\d{1,2}/\d{2,4}\s+\d{1,2}:\d{2}\s*(?:AM|PM|am|pm)?[:\s]*] *)
Definition split_pattern : regex :=
  seq_of (slash_date ++ [Star (fun c => is_char ":" c || is_space c)]).

Section Processor.
Variable env : Env.
Variable config : Config.

(** The inner [for fmt in [...]] of [parse_date]: the first format that
    parses is returned; a [ValueError] moves on to the next format; any
    other exception leaves the loop. *)
Fixpoint try_formats (date_text : text) (fmts : list (list fmt_item))
    : M (flow datetime) :=
  match fmts with
  | [] => ret Continue
  | fmt :: rest =>
      r <- try_except_cls ValueError
             (d <- lift (strptime env date_text fmt) ;; ret (Return d))
             (fun _ => ret Continue) ;;
      match r with
      | Return d => ret (Return d)
      | Continue => try_formats date_text rest
      end
  end.

(** The outer [for pattern in date_patterns]. *)
Fixpoint parse_date_loop (patterns : list regex) (date_str : text)
    : M (option datetime) :=
  match patterns with
  | [] => ret None
  | pattern :: rest =>
      match re_search pattern date_str with
      | Some m =>
          let date_text := group m 1 in
          r <- try_except
                 (try_formats date_text date_formats)
                 (fun e =>
                    log WARNING (FailedToParseDate date_text e) ;;
                    ret Continue) ;;
          match r with
          | Return d => ret (Some d)
          | Continue => parse_date_loop rest date_str
          end
      | None => parse_date_loop rest date_str
      end
  end.

Definition parse_date (date_str : text) : M (option datetime) :=
  parse_date_loop date_patterns date_str.

(** The body of [for match in matches]. *)
Definition entry_of_match (m : rmatch) : M entry :=
  let entry_text := strip (group m 1) in
  found <- parse_date entry_text ;;
  match found with
  | Some ts =>
      let content_parts := split1 split_pattern entry_text in
      match content_parts with
      | _ :: part1 :: _ => ret (MkEntry (Some ts) (strip part1))
      | _ => ret (MkEntry (Some ts) entry_text)
      end
  | None => ret (MkEntry None entry_text)
  end.

Fixpoint entries_of_matches (ms : list rmatch) : M (list entry) :=
  match ms with
  | [] => ret []
  | m :: ms' =>
      e <- entry_of_match m ;;
      es <- entries_of_matches ms' ;;
      ret (e :: es)
  end.

(** The fallback: one entry for each line that is not blank. *)
Definition line_entries (lines : list text) : list entry :=
  flat_map (fun line =>
              let line_content := strip line in
              if nonempty line_content then [MkEntry None line_content] else [])
           lines.

Definition extract_conversation_entries (section_content : text)
    : M (list entry) :=
  entries <- entries_of_matches (finditer entry_pattern section_content) ;;
  if negb (nonempty entries) && nonempty (strip section_content) then
    let lines := split_nl (strip section_content) in
    log INFO (NoBulletEntries (List.length lines)) ;;
    ret (entries ++ line_entries lines)
  else ret entries.

(** The facts in an LLM answer: its non-blank lines, trimmed. *)
Definition facts_of_response (response : text) : list text :=
  flat_map (fun fact => if nonempty (strip fact) then [strip fact] else [])
           (split_nl (strip response)).

Definition extract_facts_with_llm (context content : text)
    (ts : option datetime) : M (list text) :=
  p <- try_except
         (t <- lift (get_prompt env context ts content) ;; ret (TextPrompt t))
         (fun e =>
            log ERROR (FailedToLoadPrompt e) ;;
            ret (TextPrompt (txt "Extract key facts from: " ++ content))) ;;
  try_except
    (response <- MemoryManager._call_ollama_api env config p ;;
     ret (facts_of_response response))
    (fun e =>
       log ERROR (ErrorExtractingFacts e) ;;
       ret []).

(** [for fact in facts]: add each fact, count those whose result lists a
    created record. *)
Fixpoint add_facts (facts : list text) (ts : option datetime)
    (user_id : text) (added_facts : nat) : M nat :=
  match facts with
  | [] => ret added_facts
  | fact :: rest =>
      let metadata :=
        match ts with
        | Some d => [(txt "timestamp", isoformat d)]
        | None => []
        end in
      result <- MemoryManager.add_fact env config fact (Some user_id)
                  (Some metadata) 3 ;;
      add_facts rest ts user_id
        (if has_results result then added_facts + 1 else added_facts)
  end.

(** [for entry in entries], on the counters [(total_facts, added_facts)]. *)
Fixpoint process_entries (entries : list entry) (section_header user_id : text)
    (counters : nat * nat) : M (nat * nat) :=
  match entries with
  | [] => ret counters
  | e :: rest =>
      if negb (nonempty (entry_content e))
         || (List.length (strip (entry_content e)) <? 10)
      then process_entries rest section_header user_id counters
      else
        facts <- extract_facts_with_llm section_header (entry_content e)
                   (timestamp e) ;;
        added <- add_facts facts (timestamp e) user_id (snd counters) ;;
        sleep 500 ;;
        process_entries rest section_header user_id
          (fst counters + List.length facts, added)
  end.

(** [for section in sections]. *)
Fixpoint process_sections (ss : list section) (user_id : text)
    (counters : nat * nat) : M (nat * nat) :=
  match ss with
  | [] => ret counters
  | s :: rest =>
      log INFO (ProcessingSection (header s)) ;;
      entries <- extract_conversation_entries (content s) ;;
      log INFO (FoundEntries (List.length entries)) ;;
      counters' <- process_entries entries (header s) user_id counters ;;
      process_sections rest user_id counters'
  end.

(** [process_file(file_path, user_id=None)].  The two logging decorators
    on it pass its result through unchanged. *)
Definition process_file (file_path : text) (user_id : option text)
    : M (nat * nat) :=
  let user_id := or_else user_id (MemoryManager.self_user_id config) in
  log INFO (ProcessingFile file_path) ;;
  try_except
    (markdown_text <- call_read_file env file_path ;;
     let ss := extract_sections markdown_text in
     log INFO (FoundSections (List.length ss)) ;;
     counters <- process_sections ss user_id (0, 0) ;;
     log INFO (CompletedFile file_path) ;;
     log INFO (TotalFacts (fst counters)) ;;
     log INFO (AddedFacts (snd counters)) ;;
     ret counters)
    (fun e =>
       log ERROR (ErrorProcessingFile file_path e) ;;
       ret (0, 0)).

End Processor.

End MarkdownProcessor.

(* ===================================================================== *)
(** * The round trip of the spec, in its own words *)
(* ===================================================================== *)

Module RoundTrip.
Import Re Sections.

(** The spec renders a section as its heading marker ([#] repeated
    [level] times), its heading text and its body.  Written out: the
    marker, one blank, the heading, a newline, the body. *)
Definition spec_render_section (s : section) : text :=
  replicate (level s) "#" ++ " "%char :: header s ++ NL :: content s.

(** The spec concatenates the rendered sections; one per line group. *)
Definition spec_render (ss : list section) : text :=
  join_nl (map spec_render_section ss).

(** Header-marker normalization of one line: a heading line becomes its
    marker, one blank and its trimmed heading text; any other line stays. *)
Definition spec_normalize_line (line : text) : text :=
  match re_match header_pattern line with
  | Some m => replicate (List.length (group m 1)) "#"
              ++ " "%char :: strip (group m 2)
  | None => line
  end.

(** The input, modulo header-marker normalization. *)
Definition spec_normalize (markdown_text : text) : text :=
  join_nl (map spec_normalize_line (split_nl markdown_text)).

(** Every heading line is followed by a line that is not a heading. *)
Fixpoint bodies_nonempty (lines : list text) : bool :=
  match lines with
  | [] => true
  | l :: rest =>
      (if is_heading l
       then match rest with
            | [] => false
            | l2 :: _ => negb (is_heading l2)
            end
       else true)
      && bodies_nonempty rest
  end.

(** The first line is a heading line. *)
Definition starts_with_heading (lines : list text) : bool :=
  match lines with
  | l :: _ => is_heading l
  | [] => false
  end.

End RoundTrip.

(* ===================================================================== *)
(** * Notions used to state the properties *)
(* ===================================================================== *)

Module Notions.
Import Re Sections Runtime MarkdownProcessor.

(** A line contains no newline. *)
Definition one_line (l : text) : Prop :=
  forallb (fun c => negb (is_newline c)) l = true.

(** The sections that the loop of [extract_sections] produces from an
    open section [(lv, hd)], the body lines [acc] read so far and the
    lines still to read. *)
Fixpoint collect (lv hd : text) (acc : list text) (lines : list text)
    : list section :=
  match lines with
  | [] => [MkSection (List.length lv) hd (join_nl acc)]
  | l :: rest =>
      match re_match header_pattern l with
      | Some m =>
          MkSection (List.length lv) hd (join_nl acc)
          :: collect (group m 1) (strip (group m 2)) [] rest
      | None => collect lv hd (acc ++ [l]) rest
      end
  end.

(** The history after further calls to [memory.add]. *)
Definition record_adds (h : History)
    (new : list (add_call * outcome pyresult)) : History :=
  MkHistory (add_calls h ++ new) (search_calls h) (posts h) (reads h).

(** The calls [new], made one after the other from history [h], are
    calls of [c] and carry the backend's own answers. *)
Fixpoint answered (env : Env) (c : add_call) (h : History)
    (new : list (add_call * outcome pyresult)) : Prop :=
  match new with
  | [] => True
  | x :: rest =>
      x = (c, memory_add env h c) /\ answered env c (record_adds h [x]) rest
  end.

(** What one attempt of [add_fact] hands to its loop, and how long it
    sleeps, given the backend's answer. *)
Definition attempt_flow (max_retries : Z) (attempt : nat)
    (o : outcome pyresult) : flow pyresult :=
  match o with
  | Ok r => Return r
  | Raise _ =>
      if (Z.of_nat attempt <? max_retries - 1)%Z then Continue else Return None
  end.

Definition attempt_sleep (max_retries : Z) (attempt : nat)
    (o : outcome pyresult) : list nat :=
  match o with
  | Ok _ => []
  | Raise _ => if (Z.of_nat attempt <? max_retries - 1)%Z then [2000] else []
  end.

(** A recorded call that raised. *)
Definition failed (A B : Type) (x : A * outcome B) : Prop :=
  raises (snd x) = true.

(** A recorded [memory.add] that returned at least one created record. *)
Definition created (x : add_call * outcome pyresult) : bool :=
  match snd x with
  | Ok r => has_results r
  | Raise _ => false
  end.

Definition count_created (tr : list (add_call * outcome pyresult)) : nat :=
  List.length (filter created tr).

(** A run that returns counters, whose second component grew by the
    number of [memory.add] calls that created a record. *)
Definition counts (m : M (nat * nat)) (added0 : nat) : Prop :=
  forall w, exists c w' new,
    m w = (Ok c, w')
    /\ add_calls (history w') = add_calls (history w) ++ new
    /\ snd c = added0 + count_created new.

(** What [search_memories] makes of the backend's answer: a failure
    becomes [None]. *)
Definition absorbed (o : outcome pyresult) : pyresult :=
  match o with
  | Ok r => r
  | Raise _ => None
  end.

(** The context block that [chat] builds from the memories found. *)
Definition context_for (user_id : text) (memories : pyresult) : chat_context :=
  if has_results memories
  then FactsAbout user_id (map rec_memory (results_of memories))
  else NoInformation user_id.

(** A computation that always returns and makes no call to
    [memory.add]. *)
Definition quiet (A : Type) (m : M A) : Prop :=
  forall w, exists a w',
    m w = (Ok a, w') /\ add_calls (history w') = add_calls (history w).

(** A computation that makes no call to [memory.add]; it may raise. *)
Definition add_free (A : Type) (m : M A) : Prop :=
  forall w, add_calls (history (snd (m w))) = add_calls (history w).

(** How an entry [e] comes from a bullet match [m]: its timestamp is
    what [parse_date] finds in the trimmed bullet text; without
    timestamp the content is that text; with a timestamp, and the
    slash-date grammar matching the text, the content is what follows
    the leftmost match of the split pattern (the slash date and the run
    of colons and whitespace after it), trimmed; with a timestamp and no
    match of the slash-date grammar, the content is the text again. *)
Definition entry_from (env : Env) (m : rmatch) (e : entry) : Prop :=
  let entry_text := strip (group m 1) in
  (forall w, fst (parse_date env entry_text w) = Ok (timestamp e))
  /\ (timestamp e = None -> entry_content e = entry_text)
  /\ (timestamp e <> None ->
      re_search (nth 0 date_patterns Eps) entry_text <> None ->
      exists sm,
        re_search split_pattern entry_text = Some sm
        /\ entry_content e = strip (skipn (m_end sm) entry_text))
  /\ (timestamp e <> None ->
      re_search (nth 0 date_patterns Eps) entry_text = None ->
      entry_content e = entry_text).

(** [s.startswith(prefix)], giving the rest. *)
Fixpoint drop_prefix (prefix s : text) : option text :=
  match prefix, s with
  | [], _ => Some s
  | a :: prefix', b :: s' =>
      if Ascii.eqb a b then drop_prefix prefix' s' else None
  | _ :: _, [] => None
  end.

(** The content in the words of the spec: the matched timestamp text
    and one separator after it (a colon or a whitespace character) are
    taken off the front of the bullet text; contents are trimmed. *)
Definition spec_content (entry_text matched : text) : text :=
  match drop_prefix matched entry_text with
  | Some (c :: rest) =>
      if is_char ":" c || is_space c then strip rest else strip (c :: rest)
  | Some [] => []
  | None => entry_text
  end.



(** Every search of the backend raises; every HTTP call raises. *)
Definition search_fails (env : Env) : Prop :=
  forall h c, raises (memory_search env h c) = true.

Definition llm_fails (env : Env) : Prop :=
  forall h r, raises (requests_post env h r) = true.

End Notions.

(* ===================================================================== *)
(** * Sample documents *)
(* ===================================================================== *)

Module Samples.

(** A text given by its lines. *)
Definition doc (lines : list string) : text := join_nl (map txt lines).

(** ["plain notes\n"]: no heading, one trailing newline. *)
Definition plain_notes : text := doc ["plain notes"; EmptyString]%string.

(** ["intro\nmore\n# H\nfoo"]: two lines before the first heading. *)
Definition with_preamble : text := doc ["intro"; "more"; "# H"; "foo"]%string.

(** ["# H\nfoo\n## I\nbar"], the example of the spec. *)
Definition two_sections : text := doc ["# H"; "foo"; "## I"; "bar"]%string.

(** ["# A"]: a heading and nothing else. *)
Definition lone_heading : text := doc ["# A"]%string.

(** [" \n\t\n"]: whitespace only. *)
Definition only_blanks : text :=
  [" "%char; NL; "009"%char; NL].

(** A text with an ISO timestamp and no slash date. *)
Definition iso_meeting : text := txt "Meeting on 2025-03-29 09:10:00 in Berlin".

(** ["well-known fact"]: the only [-] sits inside a word. *)
Definition hyphenated : text := txt "well-known fact".

(** ["- 2025-03-29 09:10: Hello there"]: a bullet with an ISO timestamp. *)
Definition iso_bullet : text := txt "- 2025-03-29 09:10: Hello there".

(** ["- 29 Mar 2025: Hello there"]: the same with a day-month-year
    date. *)
Definition dmy_bullet : text := txt "- 29 Mar 2025: Hello there".

(** ["- 3/29/25 9:10 AM:: Hello there"]: two separators after the date. *)
Definition double_colon_bullet : text := txt "- 3/29/25 9:10 AM:: Hello there".

(** The bullets of [test_extract_conversation_entries_mixed]. *)
Definition mixed_bullets : text :=
  doc ["- 3/29/25 9:10 AM: Meeting with John";
       "- Regular bullet point without timestamp";
       "- 3/29/25 2:30 PM: Had lunch at Mario's"]%string.

(** ["- 3/29/25 9:10 AM: Hello there"]: the same with a slash date. *)
Definition slash_bullet : text := txt "- 3/29/25 9:10 AM: Hello there".




Import Datetime Runtime.

Definition one_record : pyresult :=
  Some (MkResult (Some [MkRecord (txt "id-1") (txt "Likes pizza") (txt "ADD")])).

Definition no_records : pyresult := Some (MkResult (Some [])).

Definition error (cls : exn_class) (msg : string) : exn := Exn cls (txt msg).

(** Collaborators for the examples: a backend whose [add] behaves as
    [add] says, a search that returns [found], an Ollama server that
    behaves as [post] says; reading any file gives [file]; the prompt
    template is not found; [strptime] is the library's. *)
Definition sample_env
    (add : History -> add_call -> outcome pyresult)
    (found : outcome pyresult)
    (post : outcome http_response)
    (file : outcome text) : Env :=
  MkEnv add
        (fun _ _ => found)
        (fun _ _ => post)
        (fun _ _ => file)
        (fun _ _ _ => Raise (error ValueError "Prompt category 'extraction' not found"))
        Datetime.strptime.

(** A backend that fails on its first [n] calls and then creates one
    record. *)
Definition flaky_add (n : nat) : History -> add_call -> outcome pyresult :=
  fun h _ =>
    if List.length (add_calls h) <? n
    then Raise (error OtherException "Temporary failure")
    else Ok one_record.

(** A backend that accepts every call and creates nothing. *)
Definition empty_add : History -> add_call -> outcome pyresult :=
  fun _ _ => Ok no_records.

Definition answer (s : string) : outcome http_response :=
  Ok (HttpResponse 200 (Ok (JsonBody (Some (txt s))))).

(** Collaborators of which only [strptime] matters. *)
Definition std_env : Env :=
  sample_env empty_add (Ok None) (answer "ok") (Ok []).

Definition seattle : pyresult :=
  Some (MkResult (Some [MkRecord (txt "id-7") (txt "User lives in Seattle")
                                 (txt "ADD")])).

Definition failing (cls : exn_class) (msg : string) (A : Type) : outcome A :=
  Raise (error cls msg).

(** The search is down, the LLM answers. *)
Definition env_search_down : Env :=
  sample_env empty_add (failing OtherException "qdrant unreachable" _)
             (answer " You live in Seattle. ") (Ok []).

(** The search works, the LLM call times out; or is refused. *)
Definition env_timeout : Env :=
  sample_env empty_add (Ok seattle)
             (failing RequestException "Read timed out" _) (Ok []).

Definition env_refused : Env :=
  sample_env empty_add (Ok seattle)
             (failing RequestException "Connection refused" _) (Ok []).

(** The file of the end-to-end scenario of the spec, and an LLM that
    extracts one fact from it. *)
Definition pizza_file : text :=
  doc ["# Notes"; "- 3/29/25 9:10 AM: I love pizza at Mario's"; EmptyString]%string.

Definition env_pizza (add : History -> add_call -> outcome pyresult) : Env :=
  sample_env add (Ok None) (answer "User loves pizza") (Ok pizza_file).

(** [parse_date] on a literal, with the library's [strptime]. *)
Definition parsed (s : string) : outcome (option datetime) :=
  fst (MarkdownProcessor.parse_date std_env (txt s) empty_world).

Definition sample_config : Config :=
  MkConfig (Some (txt "bruce")) None None None
           (Some (LlmConfig (Some (txt "http://localhost:11434"))
                            (Some (txt "llama3")) None)).

End Samples.

(* ===================================================================== *)
(** * Further notions, for the properties beyond the claims *)
(* ===================================================================== *)

Module MoreNotions.
Import Re Sections Datetime Runtime MarkdownProcessor Notions Samples.

(** A text without leading or trailing whitespace. *)
Definition trimmed (s : text) : Prop := strip s = s.

(** A text made of whitespace only: [not s.strip()]. *)
Definition blank (s : text) : bool := forallb is_space s.

(** The level and the heading text that [extract_sections] takes from a
    heading line: the length of group 1 and group 2 trimmed. *)
Definition heading_info (line : text) : nat * text :=
  match re_match header_pattern line with
  | Some m => (List.length (group m 1), strip (group m 2))
  | None => (0, [])
  end.

(** The level and the header of a section. *)
Definition info (s : section) : nat * text := (level s, header s).

(** [n] respects the upper bound of a repetition. *)
Definition within (hi : option nat) (n : nat) : Prop :=
  match hi with Some h => n <= h | None => True end.

(** A section whose header is trimmed and whose body holds no heading
    line. *)
Definition well_formed_section (s : section) : Prop :=
  trimmed (header s)
  /\ forall line, In line (split_nl (content s)) -> is_heading line = false.

(** [strptime] refuses the text under the format with a [ValueError]. *)
Definition refused (env : Env) (date_text : text) (fmt : list fmt_item) : Prop :=
  exists e, strptime env date_text fmt = Raise e /\ exn_cls e = ValueError.

(** A fact as the Fact Extractor hands it on: not empty, trimmed, on one
    line. *)
Definition clean_fact (f : text) : Prop :=
  f <> [] /\ trimmed f /\ one_line f.

(** The configuration names the Ollama server and the model. *)
Definition llm_configured (config : Config) : bool :=
  match memory_llm_config config with
  | Some memory_config =>
      match ollama_base_url memory_config, model memory_config with
      | Some _, Some _ => true
      | _, _ => false
      end
  | None => false
  end.

(** The history after one more HTTP call, search or read. *)
Definition record_post (h : History)
    (x : http_request * outcome http_response) : History :=
  MkHistory (add_calls h) (search_calls h) (posts h ++ [x]) (reads h).

Definition record_search (h : History)
    (x : search_call * outcome pyresult) : History :=
  MkHistory (add_calls h) (search_calls h ++ [x]) (posts h) (reads h).

Definition record_read (h : History) (x : text * outcome text) : History :=
  MkHistory (add_calls h) (search_calls h) (posts h) (reads h ++ [x]).

(** A status for which [raise_for_status] raises. *)
Definition http_error (status : nat) : bool :=
  (400 <=? status) && (status <? 600).

(** No call to the Ollama server gives a usable answer: the request
    fails, or the status is an HTTP error, or the body is no JSON. *)
Definition llm_unavailable (env : Env) : Prop :=
  forall h r,
    match requests_post env h r with
    | Ok response =>
        http_error (status_code response) = true
        \/ raises (json response) = true
    | Raise _ => True
    end.

(** The metadata that [process_file] attaches to a fact: empty, or the
    ISO timestamp of the entry. *)
Definition stamped (metadata : option (list (text * text))) : Prop :=
  metadata = Some []
  \/ exists d, metadata = Some [(txt "timestamp", isoformat d)].

(** A recorded [memory.add] made for user [uid], with a clean fact and
    the metadata of [process_file]. *)
Definition filed_for (uid : text) (x : add_call * outcome pyresult) : Prop :=
  ac_user_id (fst x) = uid
  /\ clean_fact (ac_fact (fst x))
  /\ stamped (ac_metadata (fst x)).

(** A run that returns counters [(total_facts, added_facts)] and keeps
    the books: [total_facts] grew by some [k], [added_facts] by the
    number of new [memory.add] calls that created a record, which is at
    most [k]; every fact cost between one and three calls; every call
    was filed for [uid]. *)
Definition accounts (uid : text) (m : M (nat * nat)) (c0 : nat * nat) : Prop :=
  forall w, exists c w' new k,
    m w = (Ok c, w')
    /\ add_calls (history w') = add_calls (history w) ++ new
    /\ fst c = fst c0 + k
    /\ snd c = snd c0 + count_created new
    /\ count_created new <= k
    /\ k <= List.length new <= 3 * k
    /\ Forall (filed_for uid) new.

(** The entry is skipped by [process_file]: its content, trimmed, has
    fewer than ten characters. *)
Definition too_short (e : entry) : Prop :=
  List.length (strip (entry_content e)) < 10.

(** Entries of which the first is long enough and the others are not. *)
Definition short_entries : list entry :=
  [MkEntry None (txt "ok"); MkEntry None (txt "  see above  ");
   MkEntry None []].

(** Collaborators whose file cannot be read. *)
Definition env_unreadable : Env :=
  sample_env empty_add (Ok None) (answer "ok")
             (failing OSError "No such file or directory" _).

(** A server that answers with a status of 503. *)
Definition env_overloaded : Env :=
  sample_env (flaky_add 0) (Ok None)
             (Ok (HttpResponse 503 (Ok (JsonBody None)))) (Ok pizza_file).

(** A configuration without the [memory_config] path. *)
Definition bare_config : Config := MkConfig None None None None None.

(** A run that returns counters and keeps time: every pause it adds
    lasts half a second or two seconds, and the pauses of two seconds
    are the calls of [memory.add] beyond the first one of each of the
    [k] facts by which [total_facts] grew. *)
Definition timed (m : M (nat * nat)) (c0 : nat * nat) : Prop :=
  forall w, exists c w' new sl k,
    m w = (Ok c, w')
    /\ add_calls (history w') = add_calls (history w) ++ new
    /\ fst c = fst c0 + k
    /\ sleeps w' = sleeps w ++ sl
    /\ Forall (fun ms => ms = 500 \/ ms = 2000) sl
    /\ count_occ Nat.eq_dec sl 2000 + k = List.length new.

(** A computation that leaves the files read as they were, whether it
    returns or raises. *)
Definition read_free (A : Type) (m : M A) : Prop :=
  forall w, reads (history (snd (m w))) = reads (history w).

(** The metadata that [process_file] builds for the facts of an
    entry: the ISO form of the entry's timestamp under the key
    [timestamp], or nothing. *)
Definition metadata_of (ts : option datetime) : list (text * text) :=
  match ts with
  | Some d => [(txt "timestamp", isoformat d)]
  | None => []
  end.

(** The entries of a section, as [extract_conversation_entries] returns
    them (what it returns does not depend on the world). *)
Definition entries_of (env : Env) (s : section) : list entry :=
  match fst (extract_conversation_entries env (content s) empty_world) with
  | Ok es => es
  | Raise _ => []
  end.

(** The call [c] files a fact of the entry [e], of a section headed
    [hd], for the user [uid]: the entry is long enough to be processed;
    the fact is a clean one among those that the Fact Extractor returned
    for this entry (its content, its timestamp, the header as context),
    in some state of the world; and the metadata is built from the
    timestamp of this same entry. *)
Definition files_entry (env : Env) (config : Config) (uid hd : text)
    (e : entry) (c : add_call) : Prop :=
  ac_user_id c = uid
  /\ ac_metadata c = Some (metadata_of (timestamp e))
  /\ ~ too_short e
  /\ clean_fact (ac_fact c)
  /\ exists w0 facts w1,
       extract_facts_with_llm env config hd (entry_content e) (timestamp e) w0
       = (Ok facts, w1)
       /\ In (ac_fact c) facts.

(** A recorded [memory.add] that files a fact of an entry of one of
    the sections [ss]. *)
Definition filed_from (env : Env) (config : Config) (uid : text)
    (ss : list section) (x : add_call * outcome pyresult) : Prop :=
  exists s e,
    In s ss /\ In e (entries_of env s)
    /\ files_entry env config uid (header s) e (fst x).

(** A run that returns counters and whose calls of [memory.add] all
    file a fact of an entry of the sections [ss]. *)
Definition sourced (env : Env) (config : Config) (uid : text)
    (ss : list section) (m : M (nat * nat)) : Prop :=
  forall w, exists c w' new,
    m w = (Ok c, w')
    /\ add_calls (history w') = add_calls (history w) ++ new
    /\ Forall (filed_from env config uid ss) new.

(** A timestamped entry and an ISO one, as a file. *)
Definition two_dated_file : text :=
  doc ["# Notes";
       "- 3/29/25 9:10 AM: I love pizza at Mario's";
       "- 2025-04-01 18:30: Dinner with Ann at the harbour"]%string.

End MoreNotions.

(* ===================================================================== *)
(** * State and exceptions over any state *)
(* ===================================================================== *)

(** The monad [M] again, for a state other than [World]: the
    administration of the backend and the walk over the directories keep
    their own records. *)
Module State.

Definition ST (S A : Type) : Type := S -> outcome A * S.

Definition st_ret (S A : Type) (a : A) : ST S A := fun s => (Ok a, s).
Arguments st_ret {S A} a.

Definition st_bind (S A B : Type) (m : ST S A) (f : A -> ST S B) : ST S B :=
  fun s =>
    match m s with
    | (Ok a, s') => f a s'
    | (Raise e, s') => (Raise e, s')
    end.

Definition st_raise (S A : Type) (e : exn) : ST S A := fun s => (Raise e, s).
Arguments st_raise {S A} e.

(** A query that returns or raises and leaves the state alone. *)
Definition st_lift (S A : Type) (o : outcome A) : ST S A := fun s => (o, s).
Arguments st_lift {S A} o.

(** [try: m  except Exception as e: h e]. *)
Definition st_try (S A : Type) (m : ST S A) (h : exn -> ST S A) : ST S A :=
  fun s =>
    match m s with
    | (Ok a, s') => (Ok a, s')
    | (Raise e, s') => h e s'
    end.

Declare Scope state_scope.
Delimit Scope state_scope with state.
Notation "x <- m ;; k" := (st_bind m (fun x => k))
  (at level 61, m at next level, right associativity) : state_scope.
Notation "m ;; k" := (st_bind m (fun _ => k))
  (at level 61, right associativity) : state_scope.

End State.

(* ===================================================================== *)
(** * MemoryManager: listing and resetting *)
(* ===================================================================== *)

Module Admin.
Import Runtime MemoryManager State.
#[local] Open Scope state_scope.

(** One constructor for each logging statement of [get_all_memories]
    and [reset_memories]. *)
Inductive admin_msg : Type :=
| RetrievedTotal : nat -> admin_msg              (* Retrieved n total memories *)
| FailedToGetAll : exn -> admin_msg              (* Failed to get all memories: e *)
| Resetting : text -> admin_msg                  (* Resetting all memories for user 'u'... *)
| NoMemoriesToDelete : admin_msg                 (* No memories found to delete *)
| FailedToDelete : text -> exn -> admin_msg      (* Failed to delete memory id: e *)
| DeletedMemories : nat -> admin_msg             (* Deleted n memories *)
| ErrorDuringReset : exn -> admin_msg.           (* Error during reset: e *)

(** The calls made to [memory.get_all] and [memory.delete] so far,
    oldest first, each with what it returned or raised. *)
Record Calls : Type := MkCalls {
  listings : list (text * outcome pyresult);
  deletions : list (text * outcome unit)
}.

Record Store : Type := MkStore {
  calls : Calls;
  admin_logs : list (log_level * admin_msg)
}.

Definition empty_store : Store := MkStore (MkCalls [] []) [].

(** The backend: [memory.get_all(user_id=..)] and
    [memory.delete(memory_id=..)], given the calls made so far.  Every
    record listed carries its id, as mem0 returns them. *)
Record Backend : Type := MkBackend {
  memory_get_all : Calls -> text -> outcome pyresult;
  memory_delete : Calls -> text -> outcome unit
}.

Definition admin_log (lv : log_level) (msg : admin_msg) : ST Store unit :=
  fun s => (Ok tt, MkStore (calls s) (admin_logs s ++ [(lv, msg)])).

Section Manager.
Variable backend : Backend.
Variable config : Config.

Definition call_get_all (user_id : text) : ST Store pyresult :=
  fun s =>
    let o := memory_get_all backend (calls s) user_id in
    (o, MkStore (MkCalls (listings (calls s) ++ [(user_id, o)])
                         (deletions (calls s)))
                (admin_logs s)).

Definition call_delete (memory_id : text) : ST Store unit :=
  fun s =>
    let o := memory_delete backend (calls s) memory_id in
    (o, MkStore (MkCalls (listings (calls s))
                         (deletions (calls s) ++ [(memory_id, o)]))
                (admin_logs s)).

(** [get_all_memories(user_id=None)].  The debug line calls
    [results.get], which fails on [None]. *)
Definition get_all_memories (user_id : option text) : ST Store pyresult :=
  let user_id := or_else user_id (self_user_id config) in
  st_try
    (found <- call_get_all user_id ;;
     match found with
     | Some d =>
         admin_log DEBUG
           (RetrievedTotal
              (List.length (match results d with Some l => l | None => [] end))) ;;
         st_ret found
     | None =>
         st_raise (Exn AttributeError
                       (txt "'NoneType' object has no attribute 'get'"))
     end)
    (fun e =>
       admin_log ERROR (FailedToGetAll e) ;;
       st_ret None).

(** [for memory in all_memories['results']], on [deleted_count]. *)
Fixpoint delete_loop (memories : list memory_record) (deleted_count : nat)
    : ST Store nat :=
  match memories with
  | [] => st_ret deleted_count
  | memory :: rest =>
      deleted_count' <-
        st_try
          (call_delete (rec_id memory) ;;
           st_ret (deleted_count + 1))
          (fun e =>
             admin_log ERROR (FailedToDelete (rec_id memory) e) ;;
             st_ret deleted_count) ;;
      delete_loop rest deleted_count'
  end.

(** [reset_memories(user_id=None)]. *)
Definition reset_memories (user_id : option text) : ST Store nat :=
  let user_id := or_else user_id (self_user_id config) in
  st_try
    (admin_log INFO (Resetting user_id) ;;
     all_memories <- get_all_memories (Some user_id) ;;
     if negb (has_results all_memories) then
       admin_log INFO NoMemoriesToDelete ;;
       st_ret 0
     else
       deleted_count <- delete_loop (results_of all_memories) 0 ;;
       admin_log INFO (DeletedMemories deleted_count) ;;
       st_ret deleted_count)
    (fun e =>
       admin_log ERROR (ErrorDuringReset e) ;;
       st_ret 0).

End Manager.

(** ** Notions *)

(** A recorded call that returned. *)
Definition returned (A B : Type) (x : A * outcome B) : bool :=
  negb (raises (snd x)).

(** The deletions [new], made one after the other from the calls [c],
    carry the backend's own answers. *)
Fixpoint deleted_by (backend : Backend) (c : Calls)
    (new : list (text * outcome unit)) : Prop :=
  match new with
  | [] => True
  | x :: rest =>
      snd x = memory_delete backend c (fst x)
      /\ deleted_by backend
           (MkCalls (listings c) (deletions c ++ [x])) rest
  end.

(** A logged failure of a delete. *)
Definition is_delete_failure (l : log_level * admin_msg) : bool :=
  match snd l with
  | FailedToDelete _ _ => true
  | _ => false
  end.

(** ** Samples *)

Definition three_memories : pyresult :=
  Some (MkResult (Some [MkRecord (txt "id-1") (txt "Likes pizza") (txt "ADD");
                        MkRecord (txt "id-2") (txt "Lives in NYC") (txt "ADD");
                        MkRecord (txt "id-3") (txt "Owns a cat") (txt "ADD")])).

(** A backend that lists three memories and fails to delete the second
    one. *)
Definition stubborn_backend : Backend :=
  MkBackend (fun _ _ => Ok three_memories)
            (fun _ memory_id =>
               if text_eqb memory_id (txt "id-2")
               then Raise (Exn OtherException (txt "point not found"))
               else Ok tt).

End Admin.

(* ===================================================================== *)
(** * MarkdownProcessor: the walk over the directories *)
(* ===================================================================== *)

Module Directories.
Import Runtime MemoryManager MarkdownProcessor State.
#[local] Open Scope state_scope.

(** One constructor for each logging statement of
    [process_directories]. *)
Inductive dir_msg : Type :=
| ProcessingDirectories : nat -> dir_msg         (* Processing n directories *)
| DirectoryMissing : text -> dir_msg             (* Directory does not exist: d *)
| NotADirectory : text -> dir_msg                (* Path is not a directory: d *)
| FoundFiles : nat -> text -> text -> dir_msg    (* Found n ext files in d *)
| NoMarkdownFiles : dir_msg                      (* No markdown files found in configured directories *)
| ProcessingTotal : nat -> dir_msg               (* Processing n total markdown files *)
| ProcessingFileOf : nat -> nat -> text -> dir_msg  (* Processing file i/n: path *)
| BatchComplete : nat -> dir_msg                 (* Batch complete, waiting d seconds... *)
| Rule : dir_msg                                 (* "=" * 50 *)
| ProcessingComplete : dir_msg                   (* Processing complete! *)
| FilesProcessed : nat -> dir_msg                (* Files processed: n *)
| TotalFactsExtracted : nat -> dir_msg           (* Total facts extracted: n *)
| SuccessfullyAdded : nat -> dir_msg.            (* Successfully added facts: n *)

(** The keys of the configuration that only [process_directories]
    reads: [markdown_directories] and, under [processing_options],
    [recursive], [file_extensions], [batch_size] and
    [delay_between_batches] (here in milliseconds). *)
Record DirOptions : Type := MkDirOptions {
  markdown_directories : option (list text);
  recursive : option bool;
  file_extensions : option (list text);
  batch_size : option Z;
  delay_between_batches : option nat
}.

(** [pathlib]: [Path(d).exists()], [Path(d).is_dir()] and
    [list(Path(d).glob(pattern))], the paths as [str] gives them. *)
Record FileSystem : Type := MkFileSystem {
  path_exists : text -> outcome bool;
  path_is_dir : text -> outcome bool;
  path_glob : text -> text -> outcome (list text)
}.

(** The world of the file processor, and the lines that
    [process_directories] itself has logged, oldest first. *)
Record DWorld : Type := MkDWorld {
  world : World;
  dir_logs : list (log_level * dir_msg)
}.

Definition dir_log (lv : log_level) (msg : dir_msg) : ST DWorld unit :=
  fun dw => (Ok tt, MkDWorld (world dw) (dir_logs dw ++ [(lv, msg)])).

(** A computation of the file processor, run on the world inside. *)
Definition in_world (A : Type) (m : M A) : ST DWorld A :=
  fun dw =>
    match m (world dw) with
    | (o, w') => (o, MkDWorld w' (dir_logs dw))
    end.

(** [f"**/*{ext}" if recursive else f"*{ext}"]. *)
Definition glob_pattern (recursive : bool) (ext : text) : text :=
  (if recursive then txt "**/*" else txt "*") ++ ext.

Definition zero_division : exn :=
  Exn OtherException (txt "integer division or modulo by zero").

Section Processor.
Variable env : Env.
Variable fs : FileSystem.
Variable config : Config.
Variable options : DirOptions.

(** [for ext in file_extensions], on [all_files]. *)
Fixpoint glob_extensions (directory : text) (recursive : bool)
    (exts : list text) (all_files : list text) : ST DWorld (list text) :=
  match exts with
  | [] => st_ret all_files
  | ext :: rest =>
      files <- st_lift (path_glob fs directory (glob_pattern recursive ext)) ;;
      dir_log INFO (FoundFiles (List.length files) ext directory) ;;
      glob_extensions directory recursive rest (all_files ++ files)
  end.

(** [for directory in directories], on [all_files]. *)
Fixpoint collect_files (directories : list text) (recursive : bool)
    (exts : list text) (all_files : list text) : ST DWorld (list text) :=
  match directories with
  | [] => st_ret all_files
  | directory :: rest =>
      there <- st_lift (path_exists fs directory) ;;
      if negb there then
        dir_log WARNING (DirectoryMissing directory) ;;
        collect_files rest recursive exts all_files
      else
        is_dir <- st_lift (path_is_dir fs directory) ;;
        if negb is_dir then
          dir_log WARNING (NotADirectory directory) ;;
          collect_files rest recursive exts all_files
        else
          all_files' <- glob_extensions directory recursive exts all_files ;;
          collect_files rest recursive exts all_files'
  end.

(** [i % processing_options.get('batch_size', 10) == 0]. *)
Definition batch_full (i : nat) : ST DWorld bool :=
  let size := match batch_size options with Some n => n | None => 10%Z end in
  if (size =? 0)%Z then st_raise zero_division
  else st_ret ((Z.of_nat i mod size =? 0)%Z).

(** [for i, file_path in enumerate(all_files, 1)], on the counters
    [(total_facts, added_facts)]. *)
Fixpoint process_files (files : list text) (i total_files : nat)
    (user_id : text) (counters : nat * nat) : ST DWorld (nat * nat) :=
  match files with
  | [] => st_ret counters
  | file_path :: rest =>
      dir_log INFO (ProcessingFileOf i total_files file_path) ;;
      r <- in_world (process_file env config file_path (Some user_id)) ;;
      let counters' := (fst counters + fst r, snd counters + snd r) in
      full <- batch_full i ;;
      (if full then
         let delay := match delay_between_batches options with
                      | Some d => d | None => 1000 end in
         dir_log INFO (BatchComplete delay) ;;
         in_world (sleep delay)
       else st_ret tt) ;;
      process_files rest (S i) total_files user_id counters'
  end.

(** [process_directories(user_id=None)]. *)
Definition process_directories (user_id : option text)
    : ST DWorld (nat * nat * nat) :=
  let user_id := or_else user_id (self_user_id config) in
  let directories :=
    match markdown_directories options with Some l => l | None => [] end in
  let recursive :=
    match recursive options with Some b => b | None => true end in
  let file_extensions :=
    match file_extensions options with
    | Some l => l
    | None => [txt ".md"; txt ".markdown"]
    end in
  dir_log INFO (ProcessingDirectories (List.length directories)) ;;
  all_files <- collect_files directories recursive file_extensions [] ;;
  if negb (nonempty all_files) then
    dir_log WARNING NoMarkdownFiles ;;
    st_ret (0, 0, 0)
  else
    dir_log INFO (ProcessingTotal (List.length all_files)) ;;
    let total_files := List.length all_files in
    counters <- process_files all_files 1 total_files user_id (0, 0) ;;
    dir_log INFO Rule ;;
    dir_log INFO ProcessingComplete ;;
    dir_log INFO (FilesProcessed total_files) ;;
    dir_log INFO (TotalFactsExtracted (fst counters)) ;;
    dir_log INFO (SuccessfullyAdded (snd counters)) ;;
    st_ret (total_files, fst counters, snd counters).

End Processor.

(** ** Notions *)

(** A directory that contributes no file: it is missing, or no
    directory, or none of the extensions matches in it. *)
Definition barren (fs : FileSystem) (recursive : bool) (exts : list text)
    (directory : text) : Prop :=
  path_exists fs directory = Ok false
  \/ (path_exists fs directory = Ok true
      /\ path_is_dir fs directory = Ok false)
  \/ (path_exists fs directory = Ok true
      /\ path_is_dir fs directory = Ok true
      /\ forall ext, In ext exts ->
           path_glob fs directory (glob_pattern recursive ext) = Ok []).

(** The values of the options, with the defaults of the code. *)
Definition directories_of (options : DirOptions) : list text :=
  match markdown_directories options with Some l => l | None => [] end.

Definition recursive_of (options : DirOptions) : bool :=
  match recursive options with Some b => b | None => true end.

Definition extensions_of (options : DirOptions) : list text :=
  match file_extensions options with
  | Some l => l
  | None => [txt ".md"; txt ".markdown"]
  end.

(** A logged end of a batch. *)
Definition is_batch_line (l : log_level * dir_msg) : bool :=
  match snd l with
  | BatchComplete _ => true
  | _ => false
  end.

(** ** Samples *)

(** A tree with one directory [notes], which holds [a.md], [b.md] and
    [c.markdown]; [archive] is a file. *)
Definition sample_fs : FileSystem :=
  MkFileSystem
    (fun d => Ok (text_eqb d (txt "notes") || text_eqb d (txt "archive")))
    (fun d => Ok (text_eqb d (txt "notes")))
    (fun d pattern =>
       if text_eqb pattern (txt "**/*.md")
       then Ok [txt "notes/a.md"; txt "notes/b.md"]
       else if text_eqb pattern (txt "**/*.markdown")
            then Ok [txt "notes/c.markdown"]
            else Ok []).

Definition sample_options (size : option Z) : DirOptions :=
  MkDirOptions (Some [txt "missing"; txt "archive"; txt "notes"])
               None None size (Some 250).

(** Only the missing directory and the file are configured. *)
Definition barren_options : DirOptions :=
  MkDirOptions (Some [txt "missing"; txt "archive"]) None None None None.

Definition empty_dworld : DWorld := MkDWorld empty_world [].

(** The positions, among the [n] files numbered from [i], after which a
    batch of [size] is full. *)
Definition full_batches (size : Z) (i n : nat) : list nat :=
  filter (fun j => (Z.of_nat j mod size =? 0)%Z) (seq i n).

(** The batch size, with the default of the code. *)
Definition batch_size_of (options : DirOptions) : Z :=
  match batch_size options with Some n => n | None => 10%Z end.

End Directories.

(* ===================================================================== *)
(** * Properties of the text operations *)
(* ===================================================================== *)

Module TextFacts.
Import Notions.

Lemma split_nl_not_nil (s : text) : split_nl s <> [].
Proof.
  destruct s as [|c s]; simpl; [discriminate|].
  destruct (is_newline c); [discriminate|].
  destruct (split_nl s); discriminate.
Qed.

Lemma split_nl_cons (c : ascii) (s : text) :
  split_nl (c :: s) =
  if is_newline c then [] :: split_nl s
  else (c :: hd [] (split_nl s)) :: tl (split_nl s).
Proof.
  simpl. destruct (is_newline c); [reflexivity|].
  destruct (split_nl s) eqn:E; [|reflexivity].
  exfalso. exact (split_nl_not_nil _ E).
Qed.

Lemma is_newline_true (c : ascii) : is_newline c = true -> c = NL.
Proof.
  unfold is_newline, is_char. intros H.
  apply Ascii.eqb_eq in H. congruence.
Qed.

(** Joining the lines of a text gives the text back. *)
Lemma join_split (s : text) : join_nl (split_nl s) = s.
Proof.
  induction s as [|c s IH]; [reflexivity|].
  rewrite split_nl_cons.
  destruct (is_newline c) eqn:Ec.
  - apply is_newline_true in Ec. subst c.
    pose proof (split_nl_not_nil s) as Hn.
    simpl. destruct (split_nl s) as [|l ls]; [congruence|].
    rewrite <- IH. reflexivity.
  - pose proof (split_nl_not_nil s) as Hn.
    destruct (split_nl s) as [|l ls]; [congruence|].
    simpl hd. simpl tl. rewrite <- IH.
    destruct ls; reflexivity.
Qed.

Lemma split_nl_one_line (s : text) : Forall one_line (split_nl s).
Proof.
  induction s as [|c s IH]; [repeat constructor|].
  rewrite split_nl_cons.
  destruct (is_newline c) eqn:Ec.
  - constructor; [reflexivity | exact IH].
  - pose proof (split_nl_not_nil s) as Hn.
    destruct (split_nl s) as [|l ls]; [congruence|].
    inversion IH; subst. constructor; [|assumption].
    unfold one_line in *. simpl. rewrite Ec. simpl. assumption.
Qed.

Lemma split_nl_single (l : text) : one_line l -> split_nl l = [l].
Proof.
  unfold one_line. induction l as [|c l IH]; [reflexivity|].
  simpl. intros H. apply andb_prop in H. destruct H as [Hc Hl].
  apply negb_true_iff in Hc. rewrite Hc, (IH Hl). reflexivity.
Qed.

Lemma split_nl_app_line (l : text) (s : text) :
  one_line l -> split_nl (l ++ NL :: s) = l :: split_nl s.
Proof.
  unfold one_line. induction l as [|c l IH]; intros H.
  - reflexivity.
  - simpl in H. apply andb_prop in H. destruct H as [Hc Hl].
    apply negb_true_iff in Hc.
    change ((c :: l) ++ NL :: s) with (c :: (l ++ NL :: s)).
    rewrite split_nl_cons, Hc, (IH Hl). reflexivity.
Qed.

(** Splitting a join of lines gives the lines back. *)
Lemma split_join (ls : list text) :
  ls <> [] -> Forall one_line ls -> split_nl (join_nl ls) = ls.
Proof.
  induction ls as [|l ls IH]; [congruence|].
  intros _ H. inversion H as [|? ? Hl Hls]; subst.
  destruct ls as [|l2 ls].
  - simpl. apply split_nl_single; assumption.
  - change (join_nl (l :: l2 :: ls)) with (l ++ NL :: join_nl (l2 :: ls)).
    rewrite split_nl_app_line by assumption.
    rewrite IH; [reflexivity | discriminate | assumption].
Qed.

Lemma join_nl_cons (l : text) (ls : list text) :
  ls <> [] -> join_nl (l :: ls) = l ++ NL :: join_nl ls.
Proof. destruct ls; [congruence | reflexivity]. Qed.

Lemma join_nl_one (l : text) : join_nl [l] = l.
Proof. reflexivity. Qed.

Lemma join_nl_app (a b : list text) :
  a <> [] -> b <> [] -> join_nl (a ++ b) = join_nl a ++ NL :: join_nl b.
Proof.
  induction a as [|l a IH]; [congruence|].
  intros _ Hb. destruct a as [|l2 a].
  - simpl app. apply join_nl_cons. assumption.
  - change ((l :: l2 :: a) ++ b) with (l :: ((l2 :: a) ++ b)).
    rewrite (@join_nl_cons l ((l2 :: a) ++ b)) by discriminate.
    rewrite IH by (discriminate || assumption).
    rewrite (@join_nl_cons l (l2 :: a)) by discriminate.
    rewrite <- app_assoc. reflexivity.
Qed.

(** ** Stripping *)

Lemma rstrip_snoc (t : text) (c : ascii) :
  rstrip (t ++ [c]) = if is_space c then rstrip t else t ++ [c].
Proof.
  unfold rstrip. rewrite rev_app_distr. simpl.
  destruct (is_space c); [reflexivity|].
  simpl. rewrite rev_involutive. reflexivity.
Qed.

Lemma lstrip_snoc_space (l : text) (c : ascii) :
  is_space c = true ->
  lstrip (l ++ [c]) = match lstrip l with [] => [] | x => x ++ [c] end.
Proof.
  intros Hc. induction l as [|a l IH]; simpl.
  - rewrite Hc. reflexivity.
  - destruct (is_space a); [exact IH | reflexivity].
Qed.

Lemma strip_cons_space (c : ascii) (l : text) :
  is_space c = true -> strip (c :: l) = strip l.
Proof. intros H. unfold strip. simpl. rewrite H. reflexivity. Qed.

Lemma strip_snoc_space (l : text) (c : ascii) :
  is_space c = true -> strip (l ++ [c]) = strip l.
Proof.
  intros Hc. unfold strip. rewrite lstrip_snoc_space by assumption.
  destruct (lstrip l) as [|x xs] eqn:E; [reflexivity|].
  rewrite rstrip_snoc, Hc. reflexivity.
Qed.

End TextFacts.

(* ===================================================================== *)
(** * Section Splitter *)
(* ===================================================================== *)

Module SectionFacts.
Import Re Sections RoundTrip Notions TextFacts.

#[local] Arguments join_nl : simpl never.

Lemma is_heading_false (l : text) :
  is_heading l = false -> re_match header_pattern l = None.
Proof. unfold is_heading. destruct (re_match header_pattern l); congruence. Qed.

Lemma is_heading_true (l : text) :
  is_heading l = true -> exists m, re_match header_pattern l = Some m.
Proof.
  unfold is_heading. destruct (re_match header_pattern l) as [m|]; [|discriminate].
  intros _. exists m. reflexivity.
Qed.

(** Before the first heading the loop state does not move. *)
Lemma step_before_heading (st : loop_state) (l : text) :
  current_section st = None -> is_heading l = false -> step st l = st.
Proof.
  intros Hc Hl. unfold step. rewrite (is_heading_false _ Hl), Hc. reflexivity.
Qed.

Lemma fold_before_heading (pre : list text) (st : loop_state) :
  current_section st = None ->
  (forall l, In l pre -> is_heading l = false) ->
  fold_left step pre st = st.
Proof.
  induction pre as [|l pre IH]; intros Hc Hpre; [reflexivity|].
  simpl. rewrite step_before_heading; auto using in_eq.
  apply IH; auto using in_cons.
Qed.

(** Once a section is open, one stays open. *)
Lemma step_keeps_open (st : loop_state) (l : text) :
  current_section st <> None -> current_section (step st l) <> None.
Proof.
  intros H. unfold step.
  destruct (re_match header_pattern l); simpl; [discriminate|].
  destruct (current_section st) eqn:E; simpl; congruence.
Qed.

Lemma fold_keeps_open (ls : list text) (st : loop_state) :
  current_section st <> None -> current_section (fold_left step ls st) <> None.
Proof.
  revert st. induction ls as [|l ls IH]; intros st H; [exact H|].
  simpl. apply IH. apply step_keeps_open. exact H.
Qed.

Lemma step_heading_opens (st : loop_state) (l : text) :
  is_heading l = true -> current_section (step st l) <> None.
Proof.
  intros H. destruct (is_heading_true _ H) as [m Hm].
  unfold step. rewrite Hm. simpl. discriminate.
Qed.

(** With a section open at the end, the result is the flushed state. *)
Lemma extract_sections_open (md : text) :
  current_section (fold_left step (split_nl md) initial) <> None ->
  extract_sections md = flush (fold_left step (split_nl md) initial).
Proof.
  intros H. unfold extract_sections.
  destruct (current_section (fold_left step (split_nl md) initial)); congruence.
Qed.

Lemma flush_fold_collect (lines : list text) (st : loop_state) (lv hd : text) :
  current_section st = Some (lv, hd) ->
  flush (fold_left step lines st)
  = sections st ++ collect lv hd (current_content st) lines.
Proof.
  revert st lv hd. induction lines as [|l rest IH]; intros st lv hd Hc.
  - simpl. unfold flush. rewrite Hc. reflexivity.
  - simpl. unfold step at 2.
    destruct (re_match header_pattern l) as [m|] eqn:Em.
    + rewrite (IH _ (group m 1) (strip (group m 2))) by reflexivity.
      simpl. unfold flush. rewrite Hc. rewrite <- app_assoc. reflexivity.
    + rewrite Hc. rewrite (IH _ lv hd) by reflexivity. reflexivity.
Qed.

Lemma collect_not_nil (lv hd : text) (acc lines : list text) :
  collect lv hd acc lines <> [].
Proof.
  revert lv hd acc. induction lines as [|l rest IH]; intros; simpl.
  - discriminate.
  - destruct (re_match header_pattern l); [discriminate | apply IH].
Qed.


(** Rendering what [collect] produces gives back the marker line, the
    body lines read so far and the remaining lines, normalized. *)
Lemma render_collect (lines : list text) :
  forall (lv hd : text) (acc : list text),
  bodies_nonempty lines = true ->
  (acc <> [] \/ starts_with_heading lines = false /\ lines <> []) ->
  spec_render (collect lv hd acc lines)
  = join_nl ((replicate (List.length lv) "#" ++ " "%char :: hd)
             :: acc ++ map spec_normalize_line lines).
Proof.
  induction lines as [|l rest IH]; intros lv hd acc Hb Hacc.
  - destruct Hacc as [Hacc | [_ Hacc]]; [|congruence].
    simpl. rewrite app_nil_r. unfold spec_render. simpl map.
    rewrite join_nl_one. unfold spec_render_section. simpl.
    rewrite join_nl_cons by assumption.
    rewrite <- app_assoc. reflexivity.
  - cbn [bodies_nonempty] in Hb. apply andb_prop in Hb. destruct Hb as [Hl Hrest].
    cbn [collect]. unfold starts_with_heading in Hacc.
    unfold is_heading in Hl, Hacc.
    destruct (re_match header_pattern l) as [m|] eqn:Em.
    + assert (Hne : acc <> []).
      { destruct Hacc as [H | [H _]]; [exact H | discriminate]. }
      unfold spec_render. simpl map.
      rewrite join_nl_cons
        by (intros E; apply map_eq_nil in E; exact (collect_not_nil _ _ _ _ E)).
      fold (spec_render (collect (group m 1) (strip (group m 2)) [] rest)).
      rewrite IH.
      * simpl app. unfold spec_normalize_line at 2. rewrite Em.
        change (?a :: acc ++ ?b :: ?c) with ((a :: acc) ++ b :: c).
        rewrite join_nl_app by discriminate.
        f_equal. unfold spec_render_section. simpl.
        rewrite join_nl_cons by assumption.
        rewrite <- app_assoc. reflexivity.
      * exact Hrest.
      * right. destruct rest as [|l2 rest']; [discriminate|].
        simpl. apply negb_true_iff in Hl. split; [exact Hl | discriminate].
    + rewrite IH.
      * rewrite <- app_assoc. simpl.
        unfold spec_normalize_line at 2. rewrite Em. reflexivity.
      * exact Hrest.
      * left. destruct acc; discriminate.
Qed.

End SectionFacts.

(* ===================================================================== *)
(** * The claims about the Section Splitter *)
(* ===================================================================== *)

Module SectionClaims.
Import Re Sections RoundTrip Notions TextFacts SectionFacts Samples.

(** C3 (as the code has it).  For every non-blank markdown text none of
    whose lines is a heading line, [extract_sections] returns exactly one
    section: level 0, the fixed header "General Facts from File", and as
    body the text with leading and trailing whitespace stripped. *)
Theorem headerless_single_section (markdown_text : text) :
  (forall line, In line (split_nl markdown_text) -> is_heading line = false) ->
  strip markdown_text <> [] ->
  extract_sections markdown_text
  = [MkSection 0 general_header (strip markdown_text)].
Proof.
  intros Hlines Hblank. unfold extract_sections.
  rewrite fold_before_heading by (reflexivity || assumption).
  simpl. destruct (strip markdown_text); [congruence | reflexivity].
Qed.

Lemma headerless_single_section_witness :
  extract_sections plain_notes
  = [MkSection 0 general_header (txt "plain notes")].
Proof.
  apply (headerless_single_section plain_notes).
  - intros line H. vm_compute in H.
    destruct H as [H | [H | []]]; subst line; reflexivity.
  - vm_compute. discriminate.
Defined.

(** C3 as stated fails: the body of the single section is not the whole
    document when the document ends with a newline. *)
Lemma headerless_body_is_not_whole_document :
  (forall line, In line (split_nl plain_notes) -> is_heading line = false)
  /\ strip plain_notes <> []
  /\ extract_sections plain_notes
     <> [MkSection 0 general_header plain_notes].
Proof.
  split; [|split].
  - intros line H. vm_compute in H.
    destruct H as [H | [H | []]]; subst line; reflexivity.
  - vm_compute. discriminate.
  - vm_compute. discriminate.
Qed.

(** C9.  When a document has a heading line, the lines before the first
    heading line are dropped: the sections are those of the document that
    starts at the first heading line. *)
Theorem lines_before_first_heading_discarded
    (markdown_text : text) (pre : list text) (h : text) (rest : list text) :
  split_nl markdown_text = pre ++ h :: rest ->
  (forall line, In line pre -> is_heading line = false) ->
  is_heading h = true ->
  extract_sections markdown_text = extract_sections (join_nl (h :: rest)).
Proof.
  intros Hsplit Hpre Hh.
  assert (Hone : Forall one_line (h :: rest)).
  { pose proof (split_nl_one_line markdown_text) as H.
    rewrite Hsplit in H. apply Forall_app in H. tauto. }
  assert (Hopen : forall ls, current_section (fold_left step (h :: ls) initial) <> None).
  { intros ls. simpl. apply fold_keeps_open. apply step_heading_opens. exact Hh. }
  rewrite (extract_sections_open markdown_text).
  - rewrite (extract_sections_open (join_nl (h :: rest))).
    + rewrite split_join by (discriminate || assumption).
      rewrite Hsplit, fold_left_app.
      rewrite (fold_before_heading pre) by (reflexivity || assumption).
      reflexivity.
    + rewrite split_join by (discriminate || assumption). apply Hopen.
  - rewrite Hsplit, fold_left_app.
    rewrite (fold_before_heading pre) by (reflexivity || assumption).
    apply Hopen.
Qed.

Lemma lines_before_first_heading_discarded_witness :
  extract_sections with_preamble
  = extract_sections (join_nl [txt "# H"; txt "foo"]).
Proof.
  apply (@lines_before_first_heading_discarded with_preamble
           [txt "intro"; txt "more"] (txt "# H") [txt "foo"]).
  - reflexivity.
  - intros line H. destruct H as [H | [H | []]]; subst line; reflexivity.
  - reflexivity.
Defined.

(** C6 (as the code has it).  For a document whose first line is a
    heading line and in which every heading line is followed by a line
    that is not a heading, rendering the sections (marker, blank, heading,
    newline, body) and joining them with newlines gives the document with
    each heading line normalized. *)
Theorem render_sections_round_trip (markdown_text : text) :
  starts_with_heading (split_nl markdown_text) = true ->
  bodies_nonempty (split_nl markdown_text) = true ->
  spec_render (extract_sections markdown_text) = spec_normalize markdown_text.
Proof.
  intros Hstart Hbodies. unfold spec_normalize.
  destruct (split_nl markdown_text) as [|h rest] eqn:Hsplit; [discriminate|].
  unfold starts_with_heading in Hstart.
  destruct (is_heading_true _ Hstart) as [m Hm].
  rewrite (extract_sections_open markdown_text).
  - rewrite Hsplit. cbn [fold_left]. unfold step at 2. rewrite Hm.
    rewrite (@flush_fold_collect rest _ (group m 1) (strip (group m 2)))
      by reflexivity.
    cbn [sections current_content flush initial current_section app].
    cbn [bodies_nonempty] in Hbodies. rewrite Hstart in Hbodies.
    apply andb_prop in Hbodies. destruct Hbodies as [Hnext Hrest].
    rewrite render_collect.
    + cbn [map app]. unfold spec_normalize_line at 2. rewrite Hm. reflexivity.
    + exact Hrest.
    + right. destruct rest as [|l2 rest']; [discriminate|].
      apply negb_true_iff in Hnext. split; [exact Hnext | discriminate].
  - rewrite Hsplit. cbn [fold_left]. apply fold_keeps_open.
    apply step_heading_opens. exact Hstart.
Qed.

Lemma render_sections_round_trip_witness :
  spec_render (extract_sections two_sections) = spec_normalize two_sections.
Proof.
  apply (render_sections_round_trip two_sections); reflexivity.
Defined.

(** C6 as stated fails: text before the first heading is lost, a
    document without headings comes back under the placeholder heading,
    and a heading without body lines comes back with an extra newline. *)
Lemma render_sections_not_round_trip :
  spec_render (extract_sections with_preamble) <> spec_normalize with_preamble
  /\ spec_render (extract_sections plain_notes) <> spec_normalize plain_notes
  /\ spec_render (extract_sections lone_heading) <> spec_normalize lone_heading.
Proof. repeat split; vm_compute; discriminate. Qed.

End SectionClaims.

(* ===================================================================== *)
(** * Fact Store Adapter: [add_fact] *)
(* ===================================================================== *)

Module AddFactFacts.
Import Runtime MemoryManager Notions.

Ltac run_monad :=
  unfold try_except_cls, try_except, bind, ret, raise, lift, log, sleep,
         call_memory_add, call_memory_search, call_requests_post,
         call_read_file; cbn [fst snd history logs sleeps add_calls
                              search_calls posts reads].

Section AddFact.
Variable env : Env.
Variable config : Config.
Variables (fact user_id : text) (metadata : option (list (text * text))).
Variable max_retries : Z.

Let c : add_call := AddCall fact user_id metadata.

(** One attempt makes one call, and sleeps only after a failure that is
    not the last attempt. *)
Lemma add_attempt_run (attempt : nat) (w : World) :
  let o := memory_add env (history w) c in
  exists w',
    add_attempt env fact user_id metadata max_retries attempt w
    = (Ok (attempt_flow max_retries attempt o), w')
    /\ history w' = record_adds (history w) [(c, o)]
    /\ sleeps w' = sleeps w ++ attempt_sleep max_retries attempt o.
Proof.
  intros o. unfold add_attempt. run_monad. fold c. fold o.
  unfold attempt_flow, attempt_sleep.
  destruct o as [r | e] eqn:Eo.
  - destruct (has_results r); run_monad;
      (eexists; split; [reflexivity | split; [reflexivity|]]);
      cbn; rewrite app_nil_r; reflexivity.
  - run_monad. destruct (Z.of_nat attempt <? max_retries - 1)%Z; run_monad;
      (eexists; split; [reflexivity | split; [reflexivity|]]);
      cbn; rewrite ?app_nil_r; reflexivity.
Qed.

Lemma record_adds_app (h : History) (a b : list (add_call * outcome pyresult)) :
  record_adds (record_adds h a) b = record_adds h (a ++ b).
Proof. unfold record_adds. cbn. rewrite app_assoc. reflexivity. Qed.

(** The loop over the attempts [start, start+1, ..]: it stops at the
    first call that returns, or after the last attempt. *)
Lemma add_fact_loop_run (len : nat) :
  forall (start : nat) (w : World),
  Z.of_nat (start + len) = Z.max 0 max_retries ->
  exists r w' new,
    add_fact_loop env fact user_id metadata max_retries (seq start len) w
    = (Ok r, w')
    /\ history w' = record_adds (history w) new
    /\ answered env c (history w) new
    /\ sleeps w' = sleeps w ++ repeat 2000 (List.length new - 1)
    /\ ((exists fails, new = fails ++ [(c, Ok r)]
           /\ Forall (@failed _ _) fails /\ List.length fails < len)
        \/ (List.length new = len /\ Forall (@failed _ _) new /\ r = None)).
Proof.
  induction len as [|len IH]; intros start w Hn.
  - exists None, w, []. cbn. unfold record_adds. rewrite !app_nil_r.
    destruct w as [lg sl [a s p r]]. cbn.
    repeat split; auto; right; repeat split; auto.
  - cbn [seq add_fact_loop]. unfold bind at 1.
    destruct (add_attempt_run start w) as (w1 & Hrun & Hh & Hs).
    rewrite Hrun. clear Hrun.
    set (o := memory_add env (history w) c) in *.
    destruct o as [r | e] eqn:Eo; cbn [attempt_flow attempt_sleep] in *.
    + exists r, w1, [(c, Ok r)]. unfold ret.
      split; [reflexivity|]. split; [exact Hh|].
      split; [cbn; split; [unfold o in Eo; rewrite Eo; reflexivity | exact I]|].
      split; [cbn; exact Hs|].
      left. exists []. repeat split; auto. cbn. lia.
    + destruct (Z.of_nat start <? max_retries - 1)%Z eqn:Elast.
      * apply Z.ltb_lt in Elast.
        destruct (IH (S start) w1) as (r & w2 & new & Hrun & Hh2 & Hans & Hs2 & Hcases).
        { rewrite <- Hn. f_equal. lia. }
        assert (Hlen : 0 < len) by lia.
        exists r, w2, ((c, Raise e) :: new).
        split; [exact Hrun|].
        split; [rewrite Hh2, Hh, record_adds_app; reflexivity|].
        split.
        { cbn. split; [unfold o in Eo; rewrite Eo; reflexivity|].
          rewrite <- Hh. exact Hans. }
        assert (Hnew : new <> []).
        { destruct Hcases as [(fails & -> & _) | (Hl & _)].
          - destruct fails; discriminate.
          - destruct new; [cbn in Hl; lia | discriminate]. }
        split.
        { rewrite Hs2, Hs, <- app_assoc. f_equal.
          destruct new as [|x new]; [congruence|].
          cbn. rewrite Nat.sub_0_r. reflexivity. }
        destruct Hcases as [(fails & -> & Hf & Hl) | (Hl & Hf & ->)].
        -- left. exists ((c, Raise e) :: fails). repeat split.
           ++ constructor; [reflexivity | exact Hf].
           ++ cbn. lia.
        -- right. repeat split.
           ++ cbn. lia.
           ++ constructor; [reflexivity | exact Hf].
      * apply Z.ltb_ge in Elast.
        assert (len = 0) by lia. subst len.
        exists None, w1, [(c, Raise e)]. unfold ret.
        split; [reflexivity|]. split; [exact Hh|].
        split; [cbn; split; [unfold o in Eo; rewrite Eo; reflexivity | exact I]|].
        split; [cbn; rewrite Hs; reflexivity|].
        right. repeat split. constructor; [reflexivity | constructor].
Qed.

End AddFact.

End AddFactFacts.

(* ===================================================================== *)
(** * Computations that leave the backend's [add] alone *)
(* ===================================================================== *)

Module Frames.
Import Runtime Notions AddFactFacts.

Lemma quiet_ret (A : Type) (a : A) : quiet (ret a).
Proof. intros w. exists a, w. split; reflexivity. Qed.

Lemma quiet_log (lv : log_level) (msg : log_msg) : quiet (log lv msg).
Proof. intros w. eexists _, _. split; reflexivity. Qed.


Lemma quiet_bind (A B : Type) (m : M A) (f : A -> M B) :
  quiet m -> (forall a, quiet (f a)) -> quiet (bind m f).
Proof.
  intros Hm Hf w. destruct (Hm w) as (a & w1 & E1 & F1).
  destruct (Hf a w1) as (b & w2 & E2 & F2).
  exists b, w2. unfold bind. rewrite E1, E2. split; congruence.
Qed.

Lemma quiet_add_free (A : Type) (m : M A) : quiet m -> add_free m.
Proof.
  intros Hm w. destruct (Hm w) as (a & w1 & E1 & F1). rewrite E1. exact F1.
Qed.

Lemma add_free_bind (A B : Type) (m : M A) (f : A -> M B) :
  add_free m -> (forall a, add_free (f a)) -> add_free (bind m f).
Proof.
  intros Hm Hf w. unfold bind. specialize (Hm w).
  destruct (m w) as [[a | e] w1]; cbn in *.
  - rewrite Hf. exact Hm.
  - exact Hm.
Qed.

Lemma add_free_lift (A : Type) (o : outcome A) : add_free (lift o).
Proof. intros w. reflexivity. Qed.

Lemma add_free_raise (A : Type) (e : exn) : add_free (@raise A e).
Proof. intros w. reflexivity. Qed.

Lemma add_free_try_except (A : Type) (m : M A) (h : exn -> M A) :
  add_free m -> (forall e, add_free (h e)) -> add_free (try_except m h).
Proof.
  intros Hm Hh w. unfold try_except. specialize (Hm w).
  destruct (m w) as [[a | e] w1]; cbn in *.
  - exact Hm.
  - rewrite Hh. exact Hm.
Qed.

Lemma add_free_try_except_cls (A : Type) (cls : exn_class) (m : M A)
    (h : exn -> M A) :
  add_free m -> (forall e, add_free (h e)) -> add_free (try_except_cls cls m h).
Proof.
  intros Hm Hh. unfold try_except_cls. apply add_free_try_except; [exact Hm|].
  intros e. destruct (exn_class_eqb (exn_cls e) cls);
    [apply Hh | apply add_free_raise].
Qed.

(** [try .. except Exception] with a handler that returns always
    returns. *)
Lemma quiet_try_except (A : Type) (m : M A) (h : exn -> M A) :
  add_free m -> (forall e, quiet (h e)) -> quiet (try_except m h).
Proof.
  intros Hm Hh w. unfold try_except. specialize (Hm w).
  destruct (m w) as [[a | e] w1]; cbn in *.
  - exists a, w1. split; [reflexivity | exact Hm].
  - destruct (Hh e w1) as (b & w2 & E2 & F2).
    exists b, w2. split; [exact E2 | congruence].
Qed.

Lemma add_free_post (env : Env) (r : http_request) :
  add_free (call_requests_post env r).
Proof. intros w. reflexivity. Qed.

Lemma add_free_search (env : Env) (c : search_call) :
  add_free (call_memory_search env c).
Proof. intros w. reflexivity. Qed.

Lemma add_free_read (env : Env) (path : text) :
  add_free (call_read_file env path).
Proof. intros w. reflexivity. Qed.

Lemma count_created_app (a b : list (add_call * outcome pyresult)) :
  count_created (a ++ b) = count_created a + count_created b.
Proof. unfold count_created. rewrite filter_app, length_app. reflexivity. Qed.

Lemma count_created_failed (l : list (add_call * outcome pyresult)) :
  Forall (@failed _ _) l -> count_created l = 0.
Proof.
  induction 1 as [|x l Hx Hl IH]; [reflexivity|].
  unfold count_created in *. cbn. unfold created, failed in *.
  destruct (snd x); [discriminate | exact IH].
Qed.

End Frames.

(* ===================================================================== *)
(** * Date Parser and Entry Extractor *)
(* ===================================================================== *)

Module EntryFacts.
Import Re Datetime Runtime Notions TextFacts AddFactFacts Frames MarkdownProcessor.

Section Entries.
Variable env : Env.

(** The format loop leaves the world as it is. *)
Lemma try_formats_world (date_text : text) (fmts : list (list fmt_item))
    (w : World) :
  snd (try_formats env date_text fmts w) = w.
Proof.
  induction fmts as [|fmt rest IH]; [reflexivity|].
  cbn [try_formats]. run_monad.
  destruct (strptime env date_text fmt) as [d | e]; [reflexivity|].
  destruct (exn_class_eqb (exn_cls e) ValueError); [exact IH | reflexivity].
Qed.


(** One round of the pattern loop: the guarded format loop returns a
    date or moves on; only the log may grow. *)
Lemma guarded_formats (date_text : text) (w : World) :
  exists r w',
    try_except (try_formats env date_text date_formats)
      (fun e => log WARNING (FailedToParseDate date_text e) ;; ret Continue) w
    = (Ok r, w')
    /\ history w' = history w /\ sleeps w' = sleeps w.
Proof.
  unfold try_except.
  pose proof (try_formats_world date_text date_formats w) as Hw.
  destruct (try_formats env date_text date_formats w) as [[r | e] w1];
    cbn in Hw; subst w1.
  - exists r, w. repeat split.
  - run_monad. eexists _, _. repeat split.
Qed.

Lemma parse_date_loop_returns (patterns : list regex) (date_str : text) :
  forall w, exists r w',
    parse_date_loop env patterns date_str w = (Ok r, w')
    /\ history w' = history w /\ sleeps w' = sleeps w.
Proof.
  induction patterns as [|p rest IH]; intros w.
  - exists None, w. repeat split.
  - cbn [parse_date_loop].
    destruct (re_search p date_str) as [m|]; [|apply IH].
    unfold bind at 1.
    destruct (guarded_formats (group m 1) w) as (r & w1 & E & Hh & Hs).
    rewrite E. destruct r as [d|].
    + exists (Some d), w1. repeat split; assumption.
    + destruct (IH w1) as (r2 & w2 & E2 & Hh2 & Hs2).
      exists r2, w2. repeat split; congruence.
Qed.

Lemma parse_date_quiet (date_str : text) : quiet (parse_date env date_str).
Proof.
  intros w. destruct (parse_date_loop_returns date_patterns date_str w)
    as (r & w' & E & Hh & _).
  exists r, w'. split; [exact E | rewrite Hh; reflexivity].
Qed.

Lemma entry_of_match_quiet (m : rmatch) : quiet (entry_of_match env m).
Proof.
  unfold entry_of_match. apply quiet_bind; [apply parse_date_quiet|].
  intros [ts|]; [|apply quiet_ret].
  destruct (split1 split_pattern (strip (group m 1))) as [|p0 [|p1 ps]];
    apply quiet_ret.
Qed.

Lemma entries_of_matches_quiet (ms : list rmatch) :
  quiet (entries_of_matches env ms).
Proof.
  induction ms as [|m ms IH]; [apply quiet_ret|].
  cbn [entries_of_matches]. apply quiet_bind; [apply entry_of_match_quiet|].
  intros e. apply quiet_bind; [exact IH|]. intros es. apply quiet_ret.
Qed.

Lemma extract_conversation_entries_quiet (section_content : text) :
  quiet (extract_conversation_entries env section_content).
Proof.
  unfold extract_conversation_entries.
  apply quiet_bind; [apply entries_of_matches_quiet|].
  intros entries.
  destruct (negb (nonempty entries) && nonempty (strip section_content)).
  - apply quiet_bind; [apply quiet_log | intros; apply quiet_ret].
  - apply quiet_ret.
Qed.

(** What the date parser returns does not depend on the world. *)
Lemma try_formats_fst (date_text : text) (fmts : list (list fmt_item))
    (w1 w2 : World) :
  fst (try_formats env date_text fmts w1) = fst (try_formats env date_text fmts w2).
Proof.
  induction fmts as [|fmt rest IH]; [reflexivity|].
  cbn [try_formats]. run_monad.
  destruct (strptime env date_text fmt) as [d | e]; [reflexivity|].
  destruct (exn_class_eqb (exn_cls e) ValueError); [exact IH | reflexivity].
Qed.

Lemma parse_date_loop_fst (patterns : list regex) (date_str : text) :
  forall w1 w2,
  fst (parse_date_loop env patterns date_str w1)
  = fst (parse_date_loop env patterns date_str w2).
Proof.
  induction patterns as [|p rest IH]; intros w1 w2; [reflexivity|].
  cbn [parse_date_loop].
  destruct (re_search p date_str) as [m|]; [|apply IH].
  unfold bind at 1 3, try_except.
  pose proof (try_formats_fst (group m 1) date_formats w1 w2) as Hf.
  destruct (try_formats env (group m 1) date_formats w1) as [[r1 | e1] w1'];
    destruct (try_formats env (group m 1) date_formats w2) as [[r2 | e2] w2'];
    cbn in Hf; try discriminate; inversion Hf; subst.
  - destruct r2; [reflexivity | apply IH].
  - run_monad. apply IH.
Qed.

Lemma parse_date_fst (date_str : text) (w1 w2 : World) :
  fst (parse_date env date_str w1) = fst (parse_date env date_str w2).
Proof. apply parse_date_loop_fst. Qed.

(** ** The bullet grammar *)

(** Whatever the matcher returns, the continuation returned it. *)
Lemma rep_greedy_result (A : Type) (P : A -> Prop) (p : ascii -> bool)
    (k : mstate -> option A) :
  (forall st r, k st = Some r -> P r) ->
  forall s lo hi pos gs r, rep_greedy p lo hi pos s gs k = Some r -> P r.
Proof.
  intros Hk. induction s as [|c s IH]; intros lo hi pos gs r; cbn.
  - destruct (lo =? 0); [apply Hk | discriminate].
  - destruct (p c && has_more hi).
    + destruct (rep_greedy p (pred lo) (dec_hi hi) (S pos) s gs k) eqn:E.
      * intros Er. inversion Er; subst. eapply IH. exact E.
      * destruct (lo =? 0); [apply Hk | discriminate].
    + destruct (lo =? 0); [apply Hk | discriminate].
Qed.

Lemma rep_lazy_result (A : Type) (P : A -> Prop) (p : ascii -> bool)
    (k : mstate -> option A) :
  (forall st r, k st = Some r -> P r) ->
  forall s lo hi pos gs r, rep_lazy p lo hi pos s gs k = Some r -> P r.
Proof.
  intros Hk. induction s as [|c s IH]; intros lo hi pos gs r; cbn.
  - destruct (lo =? 0); [|discriminate].
    destruct (k (MState pos [] gs)) eqn:E; [|discriminate].
    intros Er. inversion Er; subst. eapply Hk. exact E.
  - assert (Hmore : (if p c && has_more hi
                     then rep_lazy p (pred lo) (dec_hi hi) (S pos) s gs k
                     else None) = Some r -> P r).
    { destruct (p c && has_more hi); [apply IH | discriminate]. }
    destruct (lo =? 0); [|exact Hmore].
    destruct (k (MState pos (c :: s) gs)) eqn:E; [|exact Hmore].
    intros Er. inversion Er; subst. eapply Hk. exact E.
Qed.

Lemma run_result (A : Type) (P : A -> Prop) (r : regex) :
  forall (k : mstate -> option A) (st : mstate) (res : A),
  (forall st' x, k st' = Some x -> P x) ->
  run r st k = Some res -> P res.
Proof.
  induction r as [| p | r1 IH1 r2 IH2 | r1 IH1 r2 IH2 | g lo hi p
                  | n r1 IH1 | r1 IH1 | |]; intros k st res Hk; cbn [run].
  - apply Hk.
  - destruct (m_rest st) as [|c s]; [discriminate|].
    destruct (p c); [apply Hk | discriminate].
  - apply IH1. intros st1 x. apply IH2. exact Hk.
  - destruct (run r1 st k) eqn:E.
    + intros Er. inversion Er; subst. eapply IH1; eassumption.
    + apply IH2. exact Hk.
  - destruct g; [eapply rep_greedy_result | eapply rep_lazy_result]; exact Hk.
  - apply IH1. intros st1 x. apply Hk.
  - destruct (run r1 st (fun st1 => Some st1)); [apply Hk | discriminate].
  - destruct (m_pos st =? 0); [apply Hk | discriminate].
  - destruct (at_eol (m_rest st)); [apply Hk | discriminate].
Qed.

(** Greedy repetition from zero succeeds when the rest of the pattern
    succeeds without it. *)
Lemma rep_greedy_zero (A : Type) (p : ascii -> bool) (hi : option nat)
    (pos : nat) (s : text) (gs : list (nat * text)) (k : mstate -> option A) :
  k (MState pos s gs) <> None -> rep_greedy p 0 hi pos s gs k <> None.
Proof.
  intros Hk. destruct s as [|c s]; cbn; [exact Hk|].
  destruct (p c && has_more hi); [|exact Hk].
  destruct (rep_greedy p 0 (dec_hi hi) (S pos) s gs k); [discriminate | exact Hk].
Qed.

(** A pattern that matches before a continuation still matches before
    one that succeeds at least as often. *)
Lemma rep_greedy_mono (A B : Type) (p : ascii -> bool)
    (k1 : mstate -> option A) (k2 : mstate -> option B) :
  (forall st, k1 st <> None -> k2 st <> None) ->
  forall s lo hi pos gs,
  rep_greedy p lo hi pos s gs k1 <> None ->
  rep_greedy p lo hi pos s gs k2 <> None.
Proof.
  intros Hk. induction s as [|c s IH]; intros lo hi pos gs; cbn.
  - destruct (lo =? 0); [apply Hk | congruence].
  - assert (Hstop : (if lo =? 0 then k1 (MState pos (c :: s) gs) else None) <> None ->
                    (if lo =? 0 then k2 (MState pos (c :: s) gs) else None) <> None).
    { destruct (lo =? 0); [apply Hk | congruence]. }
    destruct (p c && has_more hi); [|exact Hstop].
    specialize (IH (pred lo) (dec_hi hi) (S pos) gs).
    destruct (rep_greedy p (pred lo) (dec_hi hi) (S pos) s gs k2) eqn:E2;
      [discriminate|].
    destruct (rep_greedy p (pred lo) (dec_hi hi) (S pos) s gs k1) eqn:E1;
      [|exact Hstop].
    intros _. exfalso. apply IH; [discriminate | reflexivity].
Qed.

Lemma rep_lazy_mono (A B : Type) (p : ascii -> bool)
    (k1 : mstate -> option A) (k2 : mstate -> option B) :
  (forall st, k1 st <> None -> k2 st <> None) ->
  forall s lo hi pos gs,
  rep_lazy p lo hi pos s gs k1 <> None ->
  rep_lazy p lo hi pos s gs k2 <> None.
Proof.
  intros Hk. induction s as [|c s IH]; intros lo hi pos gs; cbn.
  - destruct (lo =? 0); [|congruence].
    specialize (Hk (MState pos [] gs)).
    destruct (k2 (MState pos [] gs)); [discriminate|].
    destruct (k1 (MState pos [] gs)); [|congruence].
    intros _. apply Hk. discriminate.
  - assert (Hmore : (if p c && has_more hi
                     then rep_lazy p (pred lo) (dec_hi hi) (S pos) s gs k1
                     else None) <> None ->
                    (if p c && has_more hi
                     then rep_lazy p (pred lo) (dec_hi hi) (S pos) s gs k2
                     else None) <> None).
    { destruct (p c && has_more hi); [apply IH | congruence]. }
    destruct (lo =? 0); [|exact Hmore].
    specialize (Hk (MState pos (c :: s) gs)).
    destruct (k2 (MState pos (c :: s) gs)); [discriminate|].
    destruct (k1 (MState pos (c :: s) gs)); [|exact Hmore].
    intros _. exfalso. apply Hk; [discriminate | reflexivity].
Qed.

Lemma run_mono (r : regex) :
  forall (A B : Type) (k1 : mstate -> option A) (k2 : mstate -> option B)
         (st : mstate),
  (forall st', k1 st' <> None -> k2 st' <> None) ->
  run r st k1 <> None -> run r st k2 <> None.
Proof.
  induction r as [| p | r1 IH1 r2 IH2 | r1 IH1 r2 IH2 | g lo hi p
                  | n r1 IH1 | r1 IH1 | |]; intros A B k1 k2 st Hk; cbn [run].
  - apply Hk.
  - destruct (m_rest st) as [|c s]; [congruence|].
    destruct (p c); [apply Hk | congruence].
  - apply IH1. intros st1. apply IH2. exact Hk.
  - specialize (IH1 A B k1 k2 st Hk). specialize (IH2 A B k1 k2 st Hk).
    destruct (run r1 st k2); [discriminate|].
    destruct (run r1 st k1); [|exact IH2].
    intros _. exfalso. apply IH1; [discriminate | reflexivity].
  - destruct g; [apply rep_greedy_mono | apply rep_lazy_mono]; exact Hk.
  - apply IH1. intros st1. apply Hk.
  - destruct (run r1 st (fun st1 => Some st1)); [apply Hk | congruence].
  - destruct (m_pos st =? 0); [apply Hk | congruence].
  - destruct (at_eol (m_rest st)); [apply Hk | congruence].
Qed.

(** A sequence still matches with one more pattern at its end, when
    that pattern matches where the sequence stopped. *)
Lemma run_seq_snoc (A : Type) (x : regex) (k : mstate -> option A)
    (rs : list regex) :
  forall (st : mstate),
  rs <> [] ->
  run (seq_of rs) st (fun st1 => run x st1 k) <> None ->
  run (seq_of (rs ++ [x])) st k <> None.
Proof.
  induction rs as [|r rs IH]; intros st Hne; [congruence|].
  destruct rs as [|r2 rs]; [intros H; exact H|].
  change (seq_of ((r :: r2 :: rs) ++ [x]))
    with (Seq r (seq_of ((r2 :: rs) ++ [x]))).
  change (seq_of (r :: r2 :: rs)) with (Seq r (seq_of (r2 :: rs))).
  cbn [run]. apply run_mono. intros st1. apply IH. discriminate.
Qed.

(** At a position where the slash-date grammar of [parse_date] matches,
    the pattern of the split matches too; so the split finds a match
    whenever that grammar does. *)
Lemma split_pattern_where_slash_date (pos : nat) (rest : text) :
  try_at (nth 0 date_patterns Eps) false pos rest <> None ->
  try_at split_pattern false pos rest <> None.
Proof.
  unfold try_at, split_pattern. cbn [nth date_patterns run].
  intros H. apply run_seq_snoc; [discriminate|].
  revert H. apply run_mono. intros st1 _.
  unfold Star. cbn [run]. apply rep_greedy_zero. cbn. discriminate.
Qed.

Lemma run_seq_snoc_inv (A : Type) (x : regex) (k : mstate -> option A)
    (rs : list regex) :
  forall (st : mstate),
  rs <> [] ->
  run (seq_of (rs ++ [x])) st k <> None ->
  run (seq_of rs) st (fun st1 => run x st1 k) <> None.
Proof.
  induction rs as [|r rs IH]; intros st Hne; [congruence|].
  destruct rs as [|r2 rs]; [intros H; exact H|].
  change (seq_of ((r :: r2 :: rs) ++ [x]))
    with (Seq r (seq_of ((r2 :: rs) ++ [x]))).
  change (seq_of (r :: r2 :: rs)) with (Seq r (seq_of (r2 :: rs))).
  cbn [run]. apply run_mono. intros st1. apply IH. discriminate.
Qed.

Lemma split_pattern_only_where_slash_date (pos : nat) (rest : text) :
  try_at split_pattern false pos rest <> None ->
  try_at (nth 0 date_patterns Eps) false pos rest <> None.
Proof.
  unfold try_at, split_pattern. cbn [nth date_patterns run].
  intros H. apply run_seq_snoc_inv in H; [|discriminate].
  revert H. apply run_mono. intros st1 _. cbn. discriminate.
Qed.

Lemma search_from_mono (r1 r2 : regex) :
  (forall pos rest, try_at r1 false pos rest <> None ->
                    try_at r2 false pos rest <> None) ->
  forall rest pos,
  search_from r1 pos rest <> None -> search_from r2 pos rest <> None.
Proof.
  intros H. induction rest as [|c rest IH]; intros pos; cbn [search_from].
  - specialize (H pos []).
    destruct (try_at r2 false pos []); [discriminate|].
    destruct (try_at r1 false pos []); [|congruence].
    intros _. apply H. discriminate.
  - specialize (H pos (c :: rest)).
    destruct (try_at r2 false pos (c :: rest)); [discriminate|].
    destruct (try_at r1 false pos (c :: rest)); [|apply IH].
    intros _. exfalso. apply H; [discriminate | reflexivity].
Qed.

(** The pattern cannot match where the text does not show a bullet. *)
Lemma entry_pattern_needs_bullet (b : bool) (pos : nat) (rest : text) :
  match rest with c :: _ => is_bullet c = false | [] => True end ->
  try_at entry_pattern b pos rest = None.
Proof.
  intros H. unfold try_at, entry_pattern. cbn [seq_of run m_rest].
  destruct rest as [|c rest']; [reflexivity|]. rewrite H. reflexivity.
Qed.

Lemma finditer_without_bullets (rest : text) :
  forall pos skip,
  forallb (fun c => negb (is_bullet c)) rest = true ->
  finditer_from entry_pattern pos rest skip = [].
Proof.
  induction rest as [|c rest IH]; intros pos skip H.
  - destruct skip; cbn [finditer_from]; [|reflexivity].
    rewrite entry_pattern_needs_bullet by exact I. reflexivity.
  - cbn [forallb] in H. apply andb_prop in H. destruct H as [Hc Hrest].
    apply negb_true_iff in Hc.
    destruct skip; cbn [finditer_from].
    + rewrite entry_pattern_needs_bullet by exact Hc. apply IH. exact Hrest.
    + apply IH. exact Hrest.
Qed.

(** The lazy [.*?] with DOTALL succeeds when the rest of the pattern
    succeeds at the end of the text. *)
Lemma rep_lazy_to_end (A : Type) (s : text) :
  forall (pos : nat) (gs : list (nat * text)) (k : mstate -> option A),
  k (MState (pos + List.length s) [] gs) <> None ->
  rep_lazy (fun _ => true) 0 None pos s gs k <> None.
Proof.
  induction s as [|c s IH]; intros pos gs k Hk.
  - cbn in *. rewrite Nat.add_0_r in Hk.
    destruct (k (MState pos [] gs)); [discriminate | congruence].
  - cbn [rep_lazy Nat.eqb andb has_more pred dec_hi].
    destruct (k (MState pos (c :: s) gs)); [discriminate|].
    apply IH. cbn [List.length] in Hk.
    rewrite Nat.add_succ_r in Hk. exact Hk.
Qed.

(** At a bullet character the pattern matches, wherever it stands. *)
Lemma entry_pattern_at_bullet (pos : nat) (c : ascii) (rest : text) :
  is_bullet c = true ->
  exists m, try_at entry_pattern false pos (c :: rest) = Some m
            /\ m_start m = pos.
Proof.
  intros Hc.
  assert (H : try_at entry_pattern false pos (c :: rest) <> None).
  { unfold try_at, entry_pattern. cbn [seq_of run m_rest m_pos m_groups].
    rewrite Hc. unfold Star, LazyStar. cbn [run m_rest m_pos m_groups].
    apply rep_greedy_zero. cbn [run m_rest m_pos m_groups].
    apply rep_lazy_to_end. cbn. discriminate. }
  destruct (try_at entry_pattern false pos (c :: rest)) as [m|] eqn:E;
    [|congruence].
  exists m. split; [reflexivity|].
  unfold try_at in E.
  set (k := fun st : mstate =>
              if false && (m_pos st =? pos) then None
              else Some (RMatch pos (m_pos st) (m_groups st))) in E.
  assert (Hk : forall st r, k st = Some r -> m_start r = pos).
  { intros st r. unfold k. cbn. intros Er. inversion Er. reflexivity. }
  clearbody k. revert E. generalize (MState pos (c :: rest) []).
  intros st0 E.
  exact (@run_result _ (fun r => m_start r = pos) entry_pattern k st0 m Hk E).
Qed.

(** A bullet character anywhere in the text starts a match. *)
Lemma finditer_finds_bullet (pre : text) :
  forall (pos : nat) (c : ascii) (rest : text),
  forallb (fun x => negb (is_bullet x)) pre = true ->
  is_bullet c = true ->
  exists m ms,
    finditer_from entry_pattern pos (pre ++ c :: rest) 0 = m :: ms
    /\ m_start m = pos + List.length pre.
Proof.
  induction pre as [|a pre IH]; intros pos c rest Hpre Hc.
  - destruct (@entry_pattern_at_bullet pos c rest Hc) as (m & Em & Hs).
    cbn [app finditer_from]. rewrite Em.
    destruct (m_end m =? pos).
    + destruct (try_at entry_pattern true pos (c :: rest));
        eexists _, _; (split; [reflexivity | cbn; lia]).
    + eexists _, _. split; [reflexivity | cbn; lia].
  - cbn [forallb] in Hpre. apply andb_prop in Hpre. destruct Hpre as [Ha Hpre].
    apply negb_true_iff in Ha.
    cbn [app finditer_from].
    rewrite entry_pattern_needs_bullet by exact Ha.
    destruct (IH (S pos) c rest Hpre Hc) as (m & ms & E & Hs).
    exists m, ms. split; [exact E | cbn; lia].
Qed.

(** ** The fallback on lines *)

Lemma line_entries_app (a b : list text) :
  line_entries (a ++ b) = line_entries a ++ line_entries b.
Proof. unfold line_entries. apply flat_map_app. Qed.


Lemma line_entries_cons_space (c : ascii) (s : text) :
  is_space c = true ->
  line_entries (split_nl (c :: s)) = line_entries (split_nl s).
Proof.
  intros Hc. rewrite split_nl_cons.
  destruct (is_newline c) eqn:En.
  - reflexivity.
  - pose proof (split_nl_not_nil s) as Hn.
    destruct (split_nl s) as [|l ls]; [congruence|].
    cbn [hd tl]. unfold line_entries. cbn [flat_map].
    rewrite strip_cons_space by exact Hc. reflexivity.
Qed.

Lemma line_entries_lstrip (s : text) :
  line_entries (split_nl (lstrip s)) = line_entries (split_nl s).
Proof.
  induction s as [|c s IH]; [reflexivity|].
  cbn [lstrip]. destruct (is_space c) eqn:Hc; [|reflexivity].
  rewrite IH. symmetry. apply line_entries_cons_space. exact Hc.
Qed.

Lemma split_nl_snoc (s : text) (c : ascii) :
  split_nl (s ++ [c]) =
  if is_newline c then split_nl s ++ [[]]
  else removelast (split_nl s) ++ [last (split_nl s) [] ++ [c]].
Proof.
  induction s as [|a s IH].
  - cbn. destruct (is_newline c); reflexivity.
  - change ((a :: s) ++ [c]) with (a :: (s ++ [c])).
    rewrite !split_nl_cons, IH.
    pose proof (split_nl_not_nil s) as Hn.
    destruct (split_nl s) as [|l ls]; [congruence|].
    destruct (is_newline a), (is_newline c); cbn [hd tl app];
      try reflexivity.
    destruct ls as [|l2 ls]; reflexivity.
Qed.

Lemma line_entries_snoc_space (s : text) (c : ascii) :
  is_space c = true ->
  line_entries (split_nl (s ++ [c])) = line_entries (split_nl s).
Proof.
  intros Hc. rewrite split_nl_snoc.
  pose proof (app_removelast_last [] (@split_nl_not_nil s)) as E.
  set (init := removelast (split_nl s)) in *.
  set (lst := last (split_nl s) []) in *.
  destruct (is_newline c).
  - rewrite line_entries_app. cbn. apply app_nil_r.
  - rewrite E, !line_entries_app. f_equal.
    unfold line_entries. cbn [flat_map].
    rewrite strip_snoc_space by exact Hc. reflexivity.
Qed.

Lemma line_entries_rstrip (s : text) :
  line_entries (split_nl (rstrip s)) = line_entries (split_nl s).
Proof.
  induction s as [|c s IH] using rev_ind; [reflexivity|].
  rewrite rstrip_snoc. destruct (is_space c) eqn:Hc; [|reflexivity].
  rewrite IH. symmetry. apply line_entries_snoc_space. exact Hc.
Qed.

(** Trimming the body first does not change its non-blank lines. *)
Lemma line_entries_strip (s : text) :
  line_entries (split_nl (strip s)) = line_entries (split_nl s).
Proof.
  unfold strip. rewrite line_entries_rstrip. apply line_entries_lstrip.
Qed.

(** ** From bullet matches to entries *)

Lemma entry_of_match_from (m : rmatch) (w : World) :
  exists e w', entry_of_match env m w = (Ok e, w') /\ entry_from env m e.
Proof.
  unfold entry_of_match, entry_from. unfold bind at 1.
  set (entry_text := strip (group m 1)).
  destruct (@parse_date_quiet entry_text w) as (found & w1 & E & _).
  rewrite E.
  assert (Hfound : forall w0, fst (parse_date env entry_text w0) = Ok found).
  { intros w0. rewrite (parse_date_fst entry_text w0 w), E. reflexivity. }
  destruct found as [ts|].
  - unfold split1.
    destruct (re_search split_pattern entry_text) as [sm|] eqn:Es.
    + eexists _, _. split; [reflexivity|]. cbn [timestamp entry_content].
      split; [exact Hfound|]. split; [discriminate|]. split.
      * intros _ _. exists sm. split; reflexivity.
      * intros _ Hslash. exfalso.
        apply (@search_from_mono split_pattern (nth 0 date_patterns Eps)
                 split_pattern_only_where_slash_date entry_text 0).
        -- unfold re_search in Es. rewrite Es. discriminate.
        -- exact Hslash.
    + eexists _, _. split; [reflexivity|]. cbn [timestamp entry_content].
      split; [exact Hfound|]. split; [discriminate|]. split.
      * intros _ Hslash. exfalso.
        apply (@search_from_mono (nth 0 date_patterns Eps) split_pattern
                 split_pattern_where_slash_date entry_text 0 Hslash).
        exact Es.
      * intros _ _. reflexivity.
  - eexists _, _. split; [reflexivity|]. cbn [timestamp entry_content].
    split; [exact Hfound|]. split; [reflexivity|]. split; congruence.
Qed.

Lemma entries_of_matches_from (ms : list rmatch) :
  forall w, exists es w',
    entries_of_matches env ms w = (Ok es, w') /\ Forall2 (entry_from env) ms es.
Proof.
  induction ms as [|m ms IH]; intros w.
  - exists [], w. split; [reflexivity | constructor].
  - cbn [entries_of_matches]. unfold bind at 1.
    destruct (entry_of_match_from m w) as (e & w1 & E1 & H1). rewrite E1.
    unfold bind at 1.
    destruct (IH w1) as (es & w2 & E2 & H2). rewrite E2.
    exists (e :: es), w2. split; [reflexivity | constructor; assumption].
Qed.

End Entries.

End EntryFacts.

(* ===================================================================== *)
(** * The claims about the Date Parser and the Entry Extractor *)
(* ===================================================================== *)

Module EntryClaims.
Import Re Datetime Runtime Notions TextFacts AddFactFacts Frames.
Import MarkdownProcessor EntryFacts Samples.




(** C10.  A [-] or [*] anywhere in the section body, at the start of a
    line or not, starts a match of the bullet grammar: the entries are
    those of the bullet matches, the first of which starts at that
    character, and the fallback on lines is not used. *)
Theorem bullet_anywhere_starts_entry (env : Env) (pre : text) (c : ascii)
    (rest : text) (w : World) :
  forallb (fun x => negb (is_bullet x)) pre = true ->
  is_bullet c = true ->
  exists m ms e es w',
    finditer entry_pattern (pre ++ c :: rest) = m :: ms
    /\ m_start m = List.length pre
    /\ entries_of_matches env (m :: ms) w = (Ok (e :: es), w')
    /\ extract_conversation_entries env (pre ++ c :: rest) w
       = (Ok (e :: es), w').
Proof.
  intros Hpre Hc.
  destruct (@finditer_finds_bullet pre 0 c rest Hpre Hc) as (m & ms & E & Hs).
  exists m, ms.
  destruct (@entries_of_matches_quiet env (m :: ms) w) as (l & w' & El & _).
  assert (Hl : exists e es, l = e :: es).
  { cbn [entries_of_matches] in El. unfold bind in El.
    destruct (entry_of_match env m w) as [[e | x] w1]; [|discriminate].
    destruct (entries_of_matches env ms w1) as [[es | x] w2]; [|discriminate].
    unfold ret in El. inversion El. eauto. }
  destruct Hl as (e & es & ->).
  exists e, es, w'. repeat split; [exact E | exact Hs | exact El |].
  unfold extract_conversation_entries, finditer. rewrite E.
  unfold bind at 1. rewrite El. reflexivity.
Qed.

(** In ["well-known fact"] the only [-] sits inside a word; the single
    entry is what follows it, and no fallback is logged. *)
Lemma bullet_anywhere_starts_entry_witness :
  hyphenated = txt "well" ++ "-"%char :: txt "known fact"
  /\ filter is_bullet hyphenated = ["-"%char]
  /\ extract_conversation_entries std_env hyphenated empty_world
     = (Ok [MkEntry None (txt "known fact")], empty_world)
  /\ exists m ms e es w',
       finditer entry_pattern hyphenated = m :: ms
       /\ m_start m = 4
       /\ entries_of_matches std_env (m :: ms) empty_world = (Ok (e :: es), w')
       /\ extract_conversation_entries std_env hyphenated empty_world
          = (Ok (e :: es), w').
Proof.
  split; [reflexivity|]. split; [reflexivity|]. split; [reflexivity|].
  apply (@bullet_anywhere_starts_entry std_env (txt "well") "-"%char
           (txt "known fact") empty_world); reflexivity.
Defined.

(** What the code does with the bullet matches: there is one entry for
    each match, in order; its timestamp is what the Date Parser finds in
    the trimmed bullet text; and its content relates to that text as
    [entry_from] says, the split being made on the slash-date pattern
    alone. *)
Theorem content_after_slash_date (env : Env) (section_content : text)
    (w : World) :
  finditer entry_pattern section_content <> [] ->
  exists es w',
    extract_conversation_entries env section_content w = (Ok es, w')
    /\ Forall2 (entry_from env) (finditer entry_pattern section_content) es.
Proof.
  intros Hms. unfold extract_conversation_entries. unfold bind at 1.
  destruct (@entries_of_matches_from env (finditer entry_pattern section_content) w)
    as (es & w' & E & H).
  rewrite E. exists es, w'. split; [|exact H].
  destruct H as [|m e ms es' Hm Hrest]; [congruence | reflexivity].
Qed.

(** The mixed bullets of the test suite: slash dates are taken off, the
    bullet without timestamp keeps its text. *)
Lemma content_after_slash_date_witness :
  fst (extract_conversation_entries std_env mixed_bullets empty_world)
  = Ok [ MkEntry (Some (MkDatetime 2025 3 29 9 10 0)) (txt "Meeting with John");
         MkEntry None (txt "Regular bullet point without timestamp");
         MkEntry (Some (MkDatetime 2025 3 29 14 30 0)) (txt "Had lunch at Mario's") ]
  /\ exists es w',
       extract_conversation_entries std_env mixed_bullets empty_world = (Ok es, w')
       /\ Forall2 (entry_from std_env) (finditer entry_pattern mixed_bullets) es.
Proof.
  split; [vm_compute; reflexivity|].
  apply (@content_after_slash_date std_env mixed_bullets empty_world).
  vm_compute. discriminate.
Defined.

(** The content of the code against the content in the words of the
    spec ([spec_content]): after the date of ["3/29/25 9:10 AM:: Hello
    there"] the code drops both colons, where the spec drops one
    separator; and in a bullet with an ISO timestamp the timestamp is
    found and nothing is taken off, where the spec takes it off. *)
Lemma content_is_not_spec_content :
  (exists m,
     re_search (nth 0 date_patterns Eps) (txt "3/29/25 9:10 AM:: Hello there")
     = Some m
     /\ group m 1 = txt "3/29/25 9:10 AM"
     /\ spec_content (txt "3/29/25 9:10 AM:: Hello there") (group m 1)
        = txt ": Hello there")
  /\ fst (extract_conversation_entries std_env double_colon_bullet empty_world)
     = Ok [MkEntry (Some (MkDatetime 2025 3 29 9 10 0)) (txt "Hello there")]
  /\ (exists m,
        re_search (nth 1 date_patterns Eps) (txt "2025-03-29 09:10: Hello there")
        = Some m
        /\ group m 1 = txt "2025-03-29 09:10"
        /\ spec_content (txt "2025-03-29 09:10: Hello there") (group m 1)
           = txt "Hello there")
  /\ fst (extract_conversation_entries std_env iso_bullet empty_world)
     = Ok [MkEntry (Some (MkDatetime 2025 3 29 9 10 0))
                   (txt "2025-03-29 09:10: Hello there")].
Proof.
  split; [eexists; split; [vm_compute; reflexivity | split; reflexivity]|].
  split; [vm_compute; reflexivity|].
  split; [eexists; split; [vm_compute; reflexivity | split; reflexivity]|].
  vm_compute. reflexivity.
Qed.

(** C5.  The code at the failing input.  In the bullet
    ["- 2025-03-29 09:10: Hello there"] the Date Parser finds the
    timestamp, and the content still holds the timestamp text, where the
    claim has it taken off whichever grammar matched.  The split of
    timestamp and content repeats only the first of the three grammars of
    [parse_date]: the same bullet written with a slash date loses its
    timestamp text, as the claim says, and written with a day-month-year
    date it keeps it too. *)
Lemma iso_timestamp_kept_in_content :
  fst (extract_conversation_entries std_env iso_bullet empty_world)
  = Ok [MkEntry (Some (MkDatetime 2025 3 29 9 10 0))
                (txt "2025-03-29 09:10: Hello there")]
  /\ fst (extract_conversation_entries std_env slash_bullet empty_world)
     = Ok [MkEntry (Some (MkDatetime 2025 3 29 9 10 0)) (txt "Hello there")]
  /\ fst (extract_conversation_entries std_env dmy_bullet empty_world)
     = Ok [MkEntry (Some (MkDatetime 2025 3 29 0 0 0))
                   (txt "29 Mar 2025: Hello there")].
Proof. repeat split; vm_compute; reflexivity. Qed.




End EntryClaims.

(* ===================================================================== *)
(** * File Processor: counting the facts that were added *)
(* ===================================================================== *)

Module ProcessFacts.
Import Re Datetime Runtime Notions TextFacts AddFactFacts Frames.
Import MemoryManager MarkdownProcessor EntryFacts.

Section Process.
Variable env : Env.
Variable config : Config.

(** [add_fact] returns; of the calls it made, one created a record
    exactly when its result lists a record. *)
Lemma add_fact_counts (fact : text) (user_id : option text)
    (metadata : option (list (text * text))) (max_retries : Z) (w : World) :
  exists r w' new,
    add_fact env config fact user_id metadata max_retries w = (Ok r, w')
    /\ add_calls (history w') = add_calls (history w) ++ new
    /\ count_created new = if has_results r then 1 else 0.
Proof.
  unfold add_fact, range.
  destruct (@add_fact_loop_run env fact (or_else user_id (self_user_id config))
              metadata max_retries (Z.to_nat max_retries) 0 w)
    as (r & w' & new & E & Hh & _ & _ & Hcases).
  { cbn. lia. }
  exists r, w', new. split; [exact E|]. split; [rewrite Hh; reflexivity|].
  destruct Hcases as [(fails & -> & Hf & _) | (_ & Hf & ->)].
  - rewrite count_created_app, (count_created_failed Hf).
    unfold count_created. cbn. destruct (has_results r); reflexivity.
  - rewrite (count_created_failed Hf). reflexivity.
Qed.

Lemma call_ollama_api_add_free (p : prompt) :
  add_free (_call_ollama_api env config p).
Proof.
  unfold _call_ollama_api.
  destruct (memory_llm_config config) as [mc|]; [|apply add_free_raise].
  destruct (ollama_base_url mc); [|apply add_free_raise].
  destruct (model mc); [|apply add_free_raise].
  apply add_free_try_except_cls.
  - apply add_free_bind; [apply add_free_post|]. intros response.
    apply add_free_bind.
    + unfold raise_for_status.
      destruct ((400 <=? status_code response) && (status_code response <? 600));
        [apply add_free_raise | apply quiet_add_free, quiet_ret].
    + intros _. apply add_free_bind; [apply add_free_lift|]. intros result.
      destruct (response_field result); apply quiet_add_free, quiet_ret.
  - intros e. apply add_free_bind; [apply quiet_add_free, quiet_log|].
    intros _. apply add_free_raise.
Qed.

Lemma extract_facts_with_llm_quiet (context content : text)
    (ts : option datetime) :
  quiet (extract_facts_with_llm env config context content ts).
Proof.
  unfold extract_facts_with_llm. apply quiet_bind.
  - apply quiet_try_except.
    + apply add_free_bind; [apply add_free_lift|].
      intros t. apply quiet_add_free, quiet_ret.
    + intros e. apply quiet_bind; [apply quiet_log | intros; apply quiet_ret].
  - intros p. apply quiet_try_except.
    + apply add_free_bind; [apply call_ollama_api_add_free|].
      intros r. apply quiet_add_free, quiet_ret.
    + intros e. apply quiet_bind; [apply quiet_log | intros; apply quiet_ret].
Qed.

Lemma add_facts_counts (facts : list text) (ts : option datetime)
    (user_id : text) :
  forall (added : nat) (w : World), exists added' w' new,
    add_facts env config facts ts user_id added w = (Ok added', w')
    /\ add_calls (history w') = add_calls (history w) ++ new
    /\ added' = added + count_created new.
Proof.
  induction facts as [|fact rest IH]; intros added w.
  - exists added, w, []. cbn. rewrite app_nil_r. repeat split. lia.
  - cbn [add_facts]. unfold bind at 1.
    match goal with
    | |- context [add_fact env config fact ?u ?md ?n w] =>
        destruct (add_fact_counts fact u md n w) as (r & w1 & new1 & E & Hh & Hc)
    end.
    rewrite E.
    destruct (IH (if has_results r then added + 1 else added) w1)
      as (added' & w2 & new2 & E2 & Hh2 & Hc2).
    exists added', w2, (new1 ++ new2). split; [exact E2|].
    split; [rewrite Hh2, Hh, app_assoc; reflexivity|].
    rewrite count_created_app, Hc2, Hc. destruct (has_results r); lia.
Qed.

Lemma process_entries_counts (entries : list entry) (section_header user_id : text) :
  forall counters,
  counts (process_entries env config entries section_header user_id counters)
         (snd counters).
Proof.
  induction entries as [|e rest IH]; intros counters w.
  - exists counters, w, []. cbn. rewrite app_nil_r. repeat split. lia.
  - cbn [process_entries].
    destruct (negb (nonempty (entry_content e))
              || (List.length (strip (entry_content e)) <? 10)); [apply IH|].
    unfold bind at 1.
    destruct (@extract_facts_with_llm_quiet section_header (entry_content e)
                (timestamp e) w) as (facts & w1 & E1 & F1).
    rewrite E1. unfold bind at 1.
    destruct (add_facts_counts facts (timestamp e) user_id (snd counters) w1)
      as (added & w2 & new1 & E2 & Hh2 & Hc2).
    rewrite E2. unfold bind at 1, sleep.
    match goal with
    | |- context [process_entries env config rest section_header user_id ?c ?w3] =>
        destruct (IH c w3) as (c' & w4 & new2 & E3 & Hh3 & Hc3)
    end.
    exists c', w4, (new1 ++ new2). split; [exact E3|].
    cbn [history snd] in *.
    split; [rewrite Hh3, Hh2, F1, app_assoc; reflexivity|].
    rewrite count_created_app, Hc3, Hc2. lia.
Qed.

Lemma process_sections_counts (ss : list section) (user_id : text) :
  forall counters,
  counts (process_sections env config ss user_id counters) (snd counters).
Proof.
  induction ss as [|s rest IH]; intros counters w.
  - exists counters, w, []. cbn. rewrite app_nil_r. repeat split. lia.
  - cbn [process_sections]. unfold bind at 1, log at 1.
    unfold bind at 1.
    match goal with
    | |- context [extract_conversation_entries env (content s) ?w0] =>
        destruct (@extract_conversation_entries_quiet env (content s) w0)
          as (entries & w1 & E1 & F1)
    end.
    rewrite E1. unfold bind at 1, log at 1. unfold bind at 1.
    match goal with
    | |- context [process_entries env config entries (header s) user_id counters ?w2] =>
        destruct (@process_entries_counts entries (header s) user_id counters w2)
          as (c1 & w3 & new1 & E2 & Hh2 & Hc2)
    end.
    rewrite E2.
    destruct (IH c1 w3) as (c2 & w4 & new2 & E3 & Hh3 & Hc3).
    exists c2, w4, (new1 ++ new2). split; [exact E3|].
    cbn [history snd] in *.
    split; [rewrite Hh3, Hh2, F1, app_assoc; reflexivity|].
    rewrite count_created_app, Hc3, Hc2. lia.
Qed.

Lemma process_file_counts (file_path : text) (user_id : option text) :
  counts (process_file env config file_path user_id) 0.
Proof.
  intros w. unfold process_file. unfold bind at 1, log at 1.
  unfold try_except, bind at 1, call_read_file.
  cbn [history logs sleeps].
  destruct (read_file env (history w) file_path) as [markdown_text | e].
  - unfold bind at 1, log at 1. unfold bind at 1.
    match goal with
    | |- context [process_sections env config ?ss ?u (0, 0) ?w1] =>
        destruct (@process_sections_counts ss u (0, 0) w1)
          as (c & w2 & new & E & Hh & Hc)
    end.
    rewrite E. run_monad.
    exists c, (MkWorld
                 (((logs w2 ++ [(INFO, CompletedFile file_path)])
                   ++ [(INFO, TotalFacts (fst c))])
                  ++ [(INFO, AddedFacts (snd c))])
                 (sleeps w2) (history w2)), new.
    split; [reflexivity|]. split; [exact Hh | exact Hc].
  - run_monad. eexists (0, 0), _, []. split; [reflexivity|].
    cbn. rewrite app_nil_r. split; reflexivity.
Qed.

End Process.

End ProcessFacts.

(* ===================================================================== *)
(** * The claims about the Fact Store Adapter, the File Processor and chat *)
(* ===================================================================== *)

Module ManagerClaims.
Import Re Datetime Runtime Notions TextFacts AddFactFacts Frames.
Import MemoryManager MarkdownProcessor EntryFacts ProcessFacts Samples.

(** C1.  For [max_retries >= 1], [add_fact] returns without raising.
    The calls it makes to the backend, each with the backend's own
    answer, are at most [max_retries]; every call but the last raised;
    either the last call returned, and [add_fact] returns its result (so
    a first success on attempt k means exactly k calls), or all
    [max_retries] calls raised and [add_fact] returns [None].  It sleeps
    two seconds between two attempts. *)
Theorem add_fact_retry_bound (env : Env) (config : Config) (fact : text)
    (user_id : option text) (metadata : option (list (text * text)))
    (max_retries : Z) (w : World) :
  (1 <= max_retries)%Z ->
  let c := AddCall fact (or_else user_id (self_user_id config)) metadata in
  exists r w' new,
    add_fact env config fact user_id metadata max_retries w = (Ok r, w')
    /\ history w' = record_adds (history w) new
    /\ answered env c (history w) new
    /\ List.length new <= Z.to_nat max_retries
    /\ sleeps w' = sleeps w ++ repeat 2000 (List.length new - 1)
    /\ ((exists fails, new = fails ++ [(c, Ok r)] /\ Forall (@failed _ _) fails)
        \/ (List.length new = Z.to_nat max_retries
            /\ Forall (@failed _ _) new /\ r = None)).
Proof.
  intros Hn c. unfold add_fact, range.
  destruct (@add_fact_loop_run env fact (or_else user_id (self_user_id config))
              metadata max_retries (Z.to_nat max_retries) 0 w)
    as (r & w' & new & E & Hh & Hans & Hs & Hcases).
  { cbn. lia. }
  exists r, w', new. repeat split; try assumption.
  - destruct Hcases as [(fails & -> & _ & Hl) | (Hl & _)].
    + rewrite length_app. cbn. lia.
    + lia.
  - destruct Hcases as [(fails & Hnew & Hf & _) | Hall].
    + left. exists fails. split; assumption.
    + right. exact Hall.
Qed.

(** A backend that fails twice and then creates a record: three calls,
    two sleeps, the record is returned. *)
Lemma add_fact_retry_bound_witness :
  let c := AddCall (txt "Bruce likes pizza") (txt "bruce") None in
  let boom := Raise (error OtherException "Temporary failure") in
  add_fact (env_pizza (flaky_add 2)) sample_config (txt "Bruce likes pizza")
           None None 3 empty_world
  = (Ok one_record,
     MkWorld
       [(DEBUG, AddingFact 1 (txt "Bruce likes pizza"));
        (ERROR, AttemptFailed 1 (error OtherException "Temporary failure"));
        (INFO, Retrying);
        (DEBUG, AddingFact 2 (txt "Bruce likes pizza"));
        (ERROR, AttemptFailed 2 (error OtherException "Temporary failure"));
        (INFO, Retrying);
        (DEBUG, AddingFact 3 (txt "Bruce likes pizza"));
        (INFO, Added (txt "Likes pizza"))]
       [2000; 2000]
       (MkHistory [(c, boom); (c, boom); (c, Ok one_record)] [] [] []))
  /\ exists r w' new,
       add_fact (env_pizza (flaky_add 2)) sample_config
                (txt "Bruce likes pizza") None None 3 empty_world = (Ok r, w')
       /\ history w' = record_adds (history empty_world) new
       /\ answered (env_pizza (flaky_add 2)) c (history empty_world) new
       /\ List.length new <= Z.to_nat 3
       /\ sleeps w' = sleeps empty_world ++ repeat 2000 (List.length new - 1)
       /\ ((exists fails, new = fails ++ [(c, Ok r)] /\ Forall (@failed _ _) fails)
           \/ (List.length new = Z.to_nat 3
               /\ Forall (@failed _ _) new /\ r = None)).
Proof.
  intros c boom. split; [reflexivity|].
  apply (@add_fact_retry_bound (env_pizza (flaky_add 2)) sample_config
           (txt "Bruce likes pizza") None None 3 empty_world).
  lia.
Defined.

(** C2.  When the backend accepts the call and creates no record,
    [add_fact] returns that result after this one call, without sleeping
    or retrying; and the [added_facts] that [process_file] returns is the
    number of backend calls of the run that created a record, so such a
    call is never counted. *)
Theorem zero_records_not_retried_not_counted (env : Env) (config : Config)
    (fact : text) (user_id : option text)
    (metadata : option (list (text * text))) (max_retries : Z)
    (r : pyresult) (w : World)
    (file_path : text) (file_user : option text) (w0 : World) :
  let c := AddCall fact (or_else user_id (self_user_id config)) metadata in
  (1 <= max_retries)%Z ->
  memory_add env (history w) c = Ok r ->
  has_results r = false ->
  (exists w',
     add_fact env config fact user_id metadata max_retries w = (Ok r, w')
     /\ history w' = record_adds (history w) [(c, Ok r)]
     /\ sleeps w' = sleeps w
     /\ count_created [(c, Ok r)] = 0)
  /\ (exists total_facts added_facts w' new,
        process_file env config file_path file_user w0
        = (Ok (total_facts, added_facts), w')
        /\ add_calls (history w') = add_calls (history w0) ++ new
        /\ added_facts = count_created new).
Proof.
  intros c Hn Hadd Hzero. split.
  - unfold add_fact, range.
    destruct (Z.to_nat max_retries) as [|k] eqn:Ek; [lia|].
    cbn [seq add_fact_loop]. unfold bind at 1.
    destruct (@add_attempt_run env fact (or_else user_id (self_user_id config))
                metadata max_retries 0 w) as (w1 & Hrun & Hh & Hs).
    fold c in Hrun, Hh, Hs. rewrite Hadd in Hrun, Hh, Hs.
    cbn [attempt_flow attempt_sleep] in Hrun, Hs. rewrite Hrun.
    exists w1. unfold ret. split; [reflexivity|]. split; [exact Hh|].
    split; [rewrite Hs; apply app_nil_r|].
    unfold count_created, created. cbn. rewrite Hzero. reflexivity.
  - destruct (@process_file_counts env config file_path file_user w0)
      as ([total added] & w' & new & E & Hh & Hc).
    exists total, added, w', new. repeat split; assumption.
Qed.

(** The file of the spec's scenario with a backend that creates
    nothing: one fact extracted, one call made, none counted. *)
Lemma zero_records_not_retried_not_counted_witness :
  let env := env_pizza empty_add in
  let c := AddCall (txt "User loves pizza") (txt "alice") None in
  fst (process_file env sample_config (txt "notes.md") (Some (txt "alice"))
                    empty_world) = Ok (1, 0)
  /\ (exists w',
        add_fact env sample_config (txt "User loves pizza") (Some (txt "alice"))
                 None 3 empty_world = (Ok no_records, w')
        /\ history w' = record_adds (history empty_world) [(c, Ok no_records)]
        /\ sleeps w' = sleeps empty_world
        /\ count_created [(c, Ok no_records)] = 0)
  /\ (exists total_facts added_facts w' new,
        process_file env sample_config (txt "notes.md") (Some (txt "alice"))
                     empty_world
        = (Ok (total_facts, added_facts), w')
        /\ add_calls (history w') = add_calls (history empty_world) ++ new
        /\ added_facts = count_created new).
Proof.
  intros env c. split; [vm_compute; reflexivity|].
  apply (@zero_records_not_retried_not_counted env sample_config
           (txt "User loves pizza") (Some (txt "alice")) None 3 no_records
           empty_world (txt "notes.md") (Some (txt "alice")) empty_world).
  - lia.
  - reflexivity.
  - reflexivity.
Defined.

(** [search_memories] always returns: the backend's answer, or [None]
    when the call failed; it makes exactly one search call. *)
Lemma search_memories_run (env : Env) (config : Config) (query : text)
    (user_id : option text) (limit : Z) (w : World) :
  let sc := SearchCall query (or_else user_id (self_user_id config)) limit in
  let o := memory_search env (history w) sc in
  exists w1,
    search_memories env config query user_id limit w = (Ok (absorbed o), w1)
    /\ history w1
       = MkHistory (add_calls (history w)) (search_calls (history w) ++ [(sc, o)])
                   (posts (history w)) (reads (history w)).
Proof.
  intros sc o. unfold search_memories. run_monad. fold sc. fold o.
  destruct o as [[d|] | e]; run_monad; eexists; split; reflexivity.
Qed.

(** C8 (as the code has it).  [chat] never raises.  It searches once; a
    failed search counts as no memories, and the LLM is still called,
    with the prompt built for the memories found.  When that call
    returns, its answer is the result; when it raises, the result is
    "Sorry, I encountered an error: " followed by the message of the
    exception, and the error is logged. *)
Theorem chat_never_raises (env : Env) (config : Config) (query : text)
    (user_id : option text) (max_context_memories : option Z) (w : World) :
  let uid := or_else user_id (self_user_id config) in
  let limit :=
    or_else_int max_context_memories
      (match chat_max_context_memories config with
       | Some n => n | None => 5%Z end) in
  let sc := SearchCall query uid limit in
  let o := memory_search env (history w) sc in
  let p := ChatPrompt uid (context_for uid (absorbed o)) query in
  (exists s w', chat env config query user_id max_context_memories w = (Ok s, w'))
  /\ exists w1,
       history w1
       = MkHistory (add_calls (history w)) (search_calls (history w) ++ [(sc, o)])
                   (posts (history w)) (reads (history w))
       /\ match _call_ollama_api env config p w1 with
          | (Ok a, w2) =>
              chat env config query user_id max_context_memories w = (Ok a, w2)
          | (Raise e, w2) =>
              chat env config query user_id max_context_memories w
              = (Ok (sorry_prefix ++ exn_msg e),
                 MkWorld (logs w2 ++ [(ERROR, ChatError e)]) (sleeps w2)
                         (history w2))
          end.
Proof.
  intros uid limit sc o p.
  assert (H : exists w1,
             history w1
             = MkHistory (add_calls (history w))
                         (search_calls (history w) ++ [(sc, o)])
                         (posts (history w)) (reads (history w))
             /\ chat env config query user_id max_context_memories w
                = (let (r, w2) := _call_ollama_api env config p w1 in
                   match r with
                   | Ok a => (Ok a, w2)
                   | Raise e =>
                       (Ok (sorry_prefix ++ exn_msg e),
                        MkWorld (logs w2 ++ [(ERROR, ChatError e)]) (sleeps w2)
                                (history w2))
                   end)).
  { unfold chat. fold uid. fold limit.
    unfold try_except at 1, bind at 1, log at 1. unfold bind at 1.
    match goal with
    | |- context [search_memories env config query (Some uid) limit ?w0] =>
        destruct (@search_memories_run env config query (Some uid) limit w0)
          as (w1 & E & Hh)
    end.
    assert (Hu : or_else (Some uid) (self_user_id config) = uid).
    { unfold uid, or_else. destruct user_id as [[|a u]|]; try reflexivity;
        destruct (self_user_id config); reflexivity. }
    rewrite Hu in E, Hh. cbn [history] in E, Hh. fold sc in E, Hh.
    fold o in E, Hh. rewrite E. unfold bind at 1.
    unfold p, context_for.
    destruct (has_results (absorbed o)); cbn [negb]; run_monad;
      match goal with
      | |- context [_call_ollama_api env config ?pp ?ww] =>
          exists ww; split; [exact Hh|];
          destruct (_call_ollama_api env config pp ww) as [[a | e] w2];
          reflexivity
      end. }
  destruct H as (w1 & Hh & H).
  split.
  - rewrite H. destruct (_call_ollama_api env config p w1) as [[a | e] w2]; eauto.
  - exists w1. split; [exact Hh|].
    rewrite H. destruct (_call_ollama_api env config p w1) as [[a | e] w2];
      reflexivity.
Qed.

(** C8 as stated fails.  With the search down and the LLM up, [chat]
    returns the LLM's answer, not an apology; with the LLM down, the
    apology depends on the error.  So no single string is returned on
    every failure. *)
Lemma chat_apology_not_fixed :
  let ask env :=
    fst (chat env sample_config (txt "Where do I live?") (Some (txt "alice"))
              None empty_world) in
  (search_fails env_search_down
   /\ ask env_search_down = Ok (txt "You live in Seattle."))
  /\ (llm_fails env_timeout
      /\ ask env_timeout = Ok (txt "Sorry, I encountered an error: Read timed out"))
  /\ (llm_fails env_refused
      /\ ask env_refused
         = Ok (txt "Sorry, I encountered an error: Connection refused"))
  /\ ~ (exists apology, forall env,
          search_fails env \/ llm_fails env -> ask env = Ok apology).
Proof.
  intros ask.
  assert (H1 : llm_fails env_timeout) by (intros h r; reflexivity).
  assert (H2 : llm_fails env_refused) by (intros h r; reflexivity).
  split; [split; [intros h c; reflexivity | vm_compute; reflexivity]|].
  split; [split; [exact H1 | vm_compute; reflexivity]|].
  split; [split; [exact H2 | vm_compute; reflexivity]|].
  intros [apology H].
  pose proof (H env_timeout (or_intror H1)) as E1.
  pose proof (H env_refused (or_intror H2)) as E2.
  assert (E : ask env_timeout = ask env_refused -> False)
    by (vm_compute; discriminate).
  apply E. rewrite E1, E2. reflexivity.
Qed.

(** The end-to-end scenario of the spec: with a backend that creates a
    record, [process_file] returns [(1, 1)] after one call of
    [memory.add] carrying the ISO timestamp. *)
Example end_to_end_scenario :
  let ran := process_file (env_pizza (flaky_add 0)) sample_config
               (txt "notes.md") (Some (txt "alice")) empty_world in
  fst ran = Ok (1, 1)
  /\ add_calls (history (snd ran))
     = [(AddCall (txt "User loves pizza") (txt "alice")
                 (Some [(txt "timestamp", txt "2025-03-29T09:10:00")]),
         Ok one_record)].
Proof. split; vm_compute; reflexivity. Qed.

End ManagerClaims.

(* ===================================================================== *)
(** * The cases of the test suite, run on the embedding *)
(* ===================================================================== *)

Module TestSuite.
Import Re Datetime Runtime Notions MemoryManager MarkdownProcessor Samples.

(** [test_parse_date_with_am_pm] *)
Example parse_date_with_am_pm :
  parsed "3/29/25 9:10 AM" = Ok (Some (MkDatetime 2025 3 29 9 10 0))
  /\ parsed "12/31/24 11:45 PM" = Ok (Some (MkDatetime 2024 12 31 23 45 0))
  /\ parsed "1/1/25 12:00 AM" = Ok (Some (MkDatetime 2025 1 1 0 0 0)).
Proof. repeat split; vm_compute; reflexivity. Qed.

(** [test_parse_date_24_hour_format] *)
Example parse_date_24_hour_format :
  parsed "2025-03-29 09:10:00" = Ok (Some (MkDatetime 2025 3 29 9 10 0))
  /\ parsed "2025-12-31 23:45" = Ok (Some (MkDatetime 2025 12 31 23 45 0)).
Proof. repeat split; vm_compute; reflexivity. Qed.

(** [test_parse_date_invalid_format] *)
Example parse_date_invalid_format :
  parsed "not a date" = Ok None
  /\ parsed "13/45/99 25:70 XM" = Ok None
  /\ parsed EmptyString = Ok None
  /\ parsed "random text" = Ok None.
Proof. repeat split; vm_compute; reflexivity. Qed.

(** [test_parse_date_embedded_in_text], and the third grammar. *)
Example parse_date_embedded_in_text :
  parsed "Meeting scheduled for 3/29/25 9:10 AM with the team"
  = Ok (Some (MkDatetime 2025 3 29 9 10 0))
  /\ parsed "on 29 March 2025 we met" = Ok (Some (MkDatetime 2025 3 29 0 0 0)).
Proof. repeat split; vm_compute; reflexivity. Qed.

(** [test_extract_sections_basic] *)
Example extract_sections_basic :
  extract_sections
    (doc ["# Main Header"; "This is the main content."; EmptyString;
          "## Sub Header"; "This is sub content."; EmptyString;
          "### Sub Sub Header"; "This is nested content."]%string)
  = [ MkSection 1 (txt "Main Header")
                (doc ["This is the main content."; EmptyString]%string);
      MkSection 2 (txt "Sub Header")
                (doc ["This is sub content."; EmptyString]%string);
      MkSection 3 (txt "Sub Sub Header") (txt "This is nested content.") ].
Proof. vm_compute. reflexivity. Qed.

(** The example of the spec: ["# H\nfoo\n## I\nbar"]. *)
Example extract_sections_spec_example :
  extract_sections two_sections
  = [MkSection 1 (txt "H") (txt "foo"); MkSection 2 (txt "I") (txt "bar")].
Proof. vm_compute. reflexivity. Qed.

(** The input of [test_extract_sections_no_headers].  The code returns
    the one placeholder section; that test was written before the
    placeholder existed and still expects no section. *)
Example extract_sections_no_headers :
  extract_sections (txt "Just some plain text without headers.")
  = [MkSection 0 general_header (txt "Just some plain text without headers.")].
Proof. vm_compute. reflexivity. Qed.

(** [test_extract_conversation_entries_with_timestamps] *)
Example extract_conversation_entries_with_timestamps :
  fst (extract_conversation_entries std_env
         (doc ["- 3/29/25 9:10 AM: Discussed project timeline with John";
               "- 3/29/25 9:15 AM: John mentioned he prefers working remotely";
               "- 3/29/25 9:20 AM: We agreed to meet weekly on Fridays"]%string)
         empty_world)
  = Ok [ MkEntry (Some (MkDatetime 2025 3 29 9 10 0))
                 (txt "Discussed project timeline with John");
         MkEntry (Some (MkDatetime 2025 3 29 9 15 0))
                 (txt "John mentioned he prefers working remotely");
         MkEntry (Some (MkDatetime 2025 3 29 9 20 0))
                 (txt "We agreed to meet weekly on Fridays") ].
Proof. vm_compute. reflexivity. Qed.

(** [test_extract_conversation_entries_empty_content] *)
Example extract_conversation_entries_empty_content :
  extract_conversation_entries std_env [] empty_world = (Ok [], empty_world).
Proof. vm_compute. reflexivity. Qed.

(** [test_add_fact_with_retry]: the first call fails, the second
    succeeds; two calls are made. *)
Example add_fact_with_retry :
  let ran := add_fact (env_pizza (flaky_add 1)) sample_config (txt "Test fact")
               None None 3 empty_world in
  fst ran = Ok one_record
  /\ List.length (add_calls (history (snd ran))) = 2
  /\ sleeps (snd ran) = [2000].
Proof. repeat split; vm_compute; reflexivity. Qed.

(** [test_add_fact_no_results] *)
Example add_fact_no_results :
  let ran := add_fact (env_pizza empty_add) sample_config
               (txt "Vague statement") None None 3 empty_world in
  fst ran = Ok no_records
  /\ List.length (add_calls (history (snd ran))) = 1.
Proof. repeat split; vm_compute; reflexivity. Qed.

(** Three failures exhaust the default three attempts: [None], two
    sleeps. *)
Example add_fact_exhausted :
  let ran := add_fact (env_pizza (flaky_add 3)) sample_config (txt "Test fact")
               None None 3 empty_world in
  fst ran = Ok None
  /\ List.length (add_calls (history (snd ran))) = 3
  /\ sleeps (snd ran) = [2000; 2000].
Proof. repeat split; vm_compute; reflexivity. Qed.

(** The chat grounding scenario of the spec: the prompt carries the
    fact found and the user that "I" refers to. *)
Example chat_grounding_scenario :
  let env := sample_env empty_add (Ok seattle)
               (answer "You live in Seattle.") (Ok []) in
  let ran := chat env sample_config (txt "Where do I live?")
               (Some (txt "alice")) None empty_world in
  fst ran = Ok (txt "You live in Seattle.")
  /\ map (fun x => req_prompt (fst x)) (posts (history (snd ran)))
     = [ChatPrompt (txt "alice")
           (FactsAbout (txt "alice") [txt "User lives in Seattle"])
           (txt "Where do I live?")]
  /\ map (fun x => sc_limit (fst x)) (search_calls (history (snd ran))) = [5%Z].
Proof. repeat split; vm_compute; reflexivity. Qed.

End TestSuite.

(* ===================================================================== *)
(** * More on the text operations *)
(* ===================================================================== *)

Module StripFacts.
Import Notions MoreNotions TextFacts.

Lemma lstrip_fixed (s : text) :
  match s with c :: _ => is_space c = false | [] => True end -> lstrip s = s.
Proof. destruct s as [|c s]; [reflexivity|]. cbn. intros ->. reflexivity. Qed.

Lemma lstrip_head (s : text) :
  match lstrip s with c :: _ => is_space c = false | [] => True end.
Proof.
  induction s as [|c s IH]; [exact I|].
  cbn. destruct (is_space c) eqn:E; [exact IH | exact E].
Qed.

Lemma lstrip_idempotent (s : text) : lstrip (lstrip s) = lstrip s.
Proof. apply lstrip_fixed, lstrip_head. Qed.

Lemma lstrip_snoc_nonspace (x : text) (c : ascii) :
  is_space c = false -> lstrip (x ++ [c]) = lstrip x ++ [c].
Proof.
  intros Hc. induction x as [|a x IH]; cbn.
  - rewrite Hc. reflexivity.
  - destruct (is_space a); [exact IH | reflexivity].
Qed.

Lemma rstrip_cons_nonspace (c : ascii) (r : text) :
  is_space c = false -> rstrip (c :: r) = c :: rstrip r.
Proof.
  intros Hc. unfold rstrip. cbn [rev].
  rewrite lstrip_snoc_nonspace by exact Hc.
  rewrite rev_app_distr. reflexivity.
Qed.

Lemma rstrip_idempotent (s : text) : rstrip (rstrip s) = rstrip s.
Proof.
  unfold rstrip. rewrite rev_involutive, lstrip_idempotent. reflexivity.
Qed.

(** What [strip] returns has nothing left to strip. *)
Lemma strip_trimmed (s : text) : trimmed (strip s).
Proof.
  unfold trimmed, strip.
  assert (H : lstrip (rstrip (lstrip s)) = rstrip (lstrip s)).
  { pose proof (lstrip_head s) as Hh.
    destruct (lstrip s) as [|c r]; [reflexivity|].
    rewrite rstrip_cons_nonspace by exact Hh.
    cbn. rewrite Hh. reflexivity. }
  rewrite H. apply rstrip_idempotent.
Qed.

Lemma strip_blank (s : text) : blank s = true -> strip s = [].
Proof.
  unfold blank, strip. intros H.
  assert (E : lstrip s = []).
  { induction s as [|c s IH]; [reflexivity|].
    cbn in *. apply andb_prop in H. destruct H as [Hc Hs].
    rewrite Hc. apply IH. exact Hs. }
  rewrite E. reflexivity.
Qed.

Lemma strip_nil_blank (s : text) : strip s = [] -> blank s = true.
Proof.
  unfold blank, strip. induction s as [|c s IH]; [reflexivity|].
  cbn [lstrip forallb]. destruct (is_space c) eqn:Hc; [exact IH|].
  rewrite rstrip_cons_nonspace by exact Hc. discriminate.
Qed.

(** Stripping keeps every property that all characters have. *)
Lemma forallb_lstrip (p : ascii -> bool) (s : text) :
  forallb p s = true -> forallb p (lstrip s) = true.
Proof.
  induction s as [|c s IH]; [reflexivity|].
  intros H. cbn [lstrip]. destruct (is_space c); [|exact H].
  cbn in H. apply andb_prop in H. apply IH. tauto.
Qed.

Lemma forallb_rev (p : ascii -> bool) (s : text) :
  forallb p (rev s) = forallb p s.
Proof.
  induction s as [|c s IH]; [reflexivity|].
  cbn. rewrite forallb_app, IH. cbn. rewrite andb_true_r. apply andb_comm.
Qed.

Lemma forallb_strip (p : ascii -> bool) (s : text) :
  forallb p s = true -> forallb p (strip s) = true.
Proof.
  intros H. unfold strip, rstrip. rewrite forallb_rev.
  apply forallb_lstrip. rewrite forallb_rev. apply forallb_lstrip. exact H.
Qed.

Lemma blank_split (s : text) :
  blank s = true -> Forall (fun l => blank l = true) (split_nl s).
Proof.
  unfold blank. induction s as [|c s IH]; [repeat constructor|].
  cbn [forallb]. intros H. apply andb_prop in H. destruct H as [Hc Hs].
  rewrite split_nl_cons. specialize (IH Hs).
  destruct (is_newline c).
  - constructor; [reflexivity | exact IH].
  - pose proof (split_nl_not_nil s) as Hn.
    destruct (split_nl s) as [|l ls]; [congruence|].
    inversion IH; subst. constructor; [|assumption].
    cbn. rewrite Hc. assumption.
Qed.

End StripFacts.

(* ===================================================================== *)
(** * What a heading line looks like *)
(* ===================================================================== *)

Module HeadingFacts.
Import Re Sections Notions MoreNotions TextFacts SectionFacts StripFacts.

(** Greedy repetition hands on only states reached by taking between
    [lo] and [hi] characters of the class. *)
Lemma rep_greedy_inv (A : Type) (P : A -> Prop) (p : ascii -> bool)
    (k : mstate -> option A) (gs : list (nat * text)) (s : text) :
  forall lo hi pos r,
  (forall n r', lo <= n -> n <= List.length s -> within hi n ->
                forallb p (firstn n s) = true ->
                k (MState (pos + n) (skipn n s) gs) = Some r' -> P r') ->
  rep_greedy p lo hi pos s gs k = Some r -> P r.
Proof.
  induction s as [|c s IH]; intros lo hi pos r Hk.
  - cbn [rep_greedy]. destruct (lo =? 0) eqn:El; [|discriminate].
    apply Nat.eqb_eq in El. intros E.
    apply (Hk 0 r).
    + lia.
    + cbn. lia.
    + destruct hi; cbn; [lia | exact I].
    + reflexivity.
    + rewrite Nat.add_0_r. exact E.
  - cbn [rep_greedy].
    assert (Hstop : (if lo =? 0 then k (MState pos (c :: s) gs) else None)
                    = Some r -> P r).
    { destruct (lo =? 0) eqn:El; [|discriminate].
      apply Nat.eqb_eq in El. intros E.
      apply (Hk 0 r).
      - lia.
      - cbn. lia.
      - destruct hi; cbn; [lia | exact I].
      - reflexivity.
      - rewrite Nat.add_0_r. exact E. }
    destruct (p c && has_more hi) eqn:Ep; [|exact Hstop].
    apply andb_prop in Ep. destruct Ep as [Hc Hmore].
    destruct (rep_greedy p (pred lo) (dec_hi hi) (S pos) s gs k) as [r0|] eqn:E;
      [|exact Hstop].
    intros Er. inversion Er; subst r0. revert E. apply IH.
    intros n r' Hlo Hlen Hhi Hall Hkn.
    apply (Hk (S n) r').
    + lia.
    + cbn. lia.
    + destruct hi as [[|h]|]; cbn in *; try discriminate; try lia; exact I.
    + cbn [firstn forallb]. rewrite Hc. exact Hall.
    + rewrite Nat.add_succ_r. exact Hkn.
Qed.

(** A heading line starts with one to three [#], and these are its
    group 1. *)
Lemma header_match_marker (line : text) (m : rmatch) :
  re_match header_pattern line = Some m ->
  exists n, 1 <= n <= 3 /\ n <= List.length line
            /\ group m 1 = firstn n line
            /\ forallb (is_char "#") (firstn n line) = true.
Proof.
  unfold re_match, try_at, header_pattern.
  cbn [seq_of run m_pos m_rest m_groups Nat.eqb Count Plus].
  set (P := fun m0 : rmatch =>
              exists n, 1 <= n <= 3 /\ n <= List.length line
                        /\ group m0 1 = firstn n line
                        /\ forallb (is_char "#") (firstn n line) = true).
  change (exists n, 1 <= n <= 3 /\ n <= List.length line
                    /\ group m 1 = firstn n line
                    /\ forallb (is_char "#") (firstn n line) = true)
    with (P m).
  apply (@rep_greedy_inv _ P). intros n r Hlo Hlen Hhi Hall.
  cbn [run m_pos m_rest m_groups Nat.add].
  apply (@rep_greedy_inv _ P). intros n2 r2 _ _ _ _.
  cbn [run m_pos m_rest m_groups].
  apply (@rep_greedy_inv _ P). intros n3 r3 _ _ _ _.
  cbn [run m_pos m_rest m_groups].
  destruct (at_eol _); [|discriminate].
  cbn [andb]. intros E. inversion E; subst r3. clear E.
  exists n. cbn in Hhi. rewrite Nat.sub_0_r.
  split; [lia|]. split; [exact Hlen|]. split; [reflexivity | exact Hall].
Qed.

Lemma heading_starts_with_hash (line : text) :
  is_heading line = true -> exists rest, line = "#"%char :: rest.
Proof.
  intros H. destruct (is_heading_true _ H) as [m Hm].
  destruct (header_match_marker _ Hm) as (n & Hn & Hlen & _ & Hall).
  destruct line as [|c rest]; [cbn in Hlen; lia|].
  destruct n as [|n]; [lia|].
  cbn [firstn forallb] in Hall. apply andb_prop in Hall. destruct Hall as [Hc _].
  unfold is_char in Hc. apply Ascii.eqb_eq in Hc. subst c. eauto.
Qed.

Lemma heading_level_range (line : text) :
  is_heading line = true -> 1 <= fst (heading_info line) <= 3.
Proof.
  intros H. destruct (is_heading_true _ H) as [m Hm].
  destruct (header_match_marker _ Hm) as (n & Hn & Hlen & Hg & _).
  unfold heading_info. rewrite Hm. cbn [fst].
  rewrite Hg, length_firstn. lia.
Qed.

(** A blank line, and the empty line, are no heading lines. *)
Lemma blank_not_heading (line : text) :
  blank line = true -> is_heading line = false.
Proof.
  intros Hb. destruct (is_heading line) eqn:E; [|reflexivity].
  destruct (heading_starts_with_hash _ E) as [rest ->].
  cbn in Hb. discriminate.
Qed.

End HeadingFacts.

(* ===================================================================== *)
(** * More on the Section Splitter *)
(* ===================================================================== *)

Module SectionExtras.
Import Re Sections Notions MoreNotions TextFacts SectionFacts StripFacts.
Import HeadingFacts Samples.

#[local] Arguments join_nl : simpl never.

(** A list with a heading line splits at its first heading line. *)
Lemma first_heading (lines : list text) :
  existsb is_heading lines = true ->
  exists pre h rest,
    lines = pre ++ h :: rest
    /\ (forall l, In l pre -> is_heading l = false)
    /\ is_heading h = true.
Proof.
  induction lines as [|l ls IH]; [discriminate|].
  cbn [existsb]. destruct (is_heading l) eqn:El.
  - intros _. exists [], l, ls. repeat split; [intros x []| exact El].
  - cbn. intros H. destruct (IH H) as (pre & h & rest & -> & Hpre & Hh).
    exists (l :: pre), h, rest. repeat split; [|exact Hh].
    intros x [<- | Hx]; [exact El | apply Hpre; exact Hx].
Qed.

Lemma no_heading (lines : list text) :
  existsb is_heading lines = false ->
  forall l, In l lines -> is_heading l = false.
Proof.
  intros H l Hl. destruct (is_heading l) eqn:E; [|reflexivity].
  assert (existsb is_heading lines = true)
    by (apply existsb_exists; exists l; split; assumption).
  congruence.
Qed.

(** From the first heading line on, the result is what [collect] gives. *)
Lemma extract_sections_collect (md : text) (pre : list text) (h : text)
    (rest : list text) (m : rmatch) :
  split_nl md = pre ++ h :: rest ->
  (forall l, In l pre -> is_heading l = false) ->
  re_match header_pattern h = Some m ->
  extract_sections md = collect (group m 1) (strip (group m 2)) [] rest.
Proof.
  intros Hsplit Hpre Hm.
  assert (Hh : is_heading h = true) by (unfold is_heading; rewrite Hm; reflexivity).
  rewrite (extract_sections_open md).
  - rewrite Hsplit, fold_left_app.
    rewrite (fold_before_heading pre) by (reflexivity || assumption).
    cbn [fold_left]. unfold step at 2. rewrite Hm.
    rewrite (@flush_fold_collect rest _ (group m 1) (strip (group m 2)))
      by reflexivity.
    reflexivity.
  - rewrite Hsplit, fold_left_app.
    rewrite (fold_before_heading pre) by (reflexivity || assumption).
    cbn [fold_left]. apply fold_keeps_open, step_heading_opens. exact Hh.
Qed.

Lemma heading_info_match (h : text) (m : rmatch) :
  re_match header_pattern h = Some m ->
  heading_info h = (List.length (group m 1), strip (group m 2)).
Proof. intros Hm. unfold heading_info. rewrite Hm. reflexivity. Qed.

Lemma collect_info (lines : list text) :
  forall lv hd acc,
  map info (collect lv hd acc lines)
  = (List.length lv, hd) :: map heading_info (filter is_heading lines).
Proof.
  induction lines as [|l rest IH]; intros lv hd acc; [reflexivity|].
  cbn [collect filter]. unfold is_heading at 1.
  destruct (re_match header_pattern l) as [m|] eqn:Em.
  - cbn [map]. rewrite IH, (heading_info_match _ Em). reflexivity.
  - apply IH.
Qed.

Lemma filter_before_heading (pre : list text) :
  (forall l, In l pre -> is_heading l = false) -> filter is_heading pre = [].
Proof.
  induction pre as [|l pre IH]; intros H; [reflexivity|].
  cbn. rewrite (H l (in_eq _ _)). apply IH. intros x Hx. apply H. right. exact Hx.
Qed.

(** X1.  In a document with at least one heading line there is exactly
    one section for each heading line, in document order, with the number
    of its [#] as level and its trimmed heading text as header. *)
Theorem sections_follow_headings (markdown_text : text) :
  existsb is_heading (split_nl markdown_text) = true ->
  map info (extract_sections markdown_text)
  = map heading_info (filter is_heading (split_nl markdown_text)).
Proof.
  intros H. destruct (first_heading _ H) as (pre & h & rest & Hsplit & Hpre & Hh).
  destruct (is_heading_true _ Hh) as [m Hm].
  rewrite (@extract_sections_collect markdown_text pre h rest m Hsplit Hpre Hm), collect_info.
  rewrite Hsplit, filter_app, (filter_before_heading _ Hpre).
  cbn [app filter]. rewrite Hh. cbn [map].
  rewrite (heading_info_match _ Hm). reflexivity.
Qed.

Lemma sections_follow_headings_witness :
  map info (extract_sections with_preamble)
  = map heading_info (filter is_heading (split_nl with_preamble)).
Proof.
  apply (sections_follow_headings with_preamble). reflexivity.
Defined.

(** X2.  Every section has a level of at most 3, and level 0 occurs
    exactly in documents without heading line (the placeholder
    section). *)
Theorem section_levels (markdown_text : text) (s : section) :
  In s (extract_sections markdown_text) ->
  level s <= 3
  /\ (level s = 0 <-> existsb is_heading (split_nl markdown_text) = false).
Proof.
  intros Hs.
  destruct (existsb is_heading (split_nl markdown_text)) eqn:E.
  - destruct (first_heading _ E) as (pre & h & rest & Hsplit & Hpre & Hh).
    destruct (is_heading_true _ Hh) as [m Hm].
    rewrite (@extract_sections_collect markdown_text pre h rest m Hsplit Hpre Hm) in Hs.
    apply (in_map info) in Hs. rewrite collect_info in Hs.
    rewrite <- (heading_info_match _ Hm) in Hs.
    assert (Hl : exists l, is_heading l = true /\ heading_info l = info s).
    { destruct Hs as [Hs | Hs]; [exists h; split; assumption|].
      apply in_map_iff in Hs. destruct Hs as (l & Hl & Hf).
      apply filter_In in Hf. exists l. tauto. }
    destruct Hl as (l & Hh' & Hl).
    pose proof (heading_level_range _ Hh') as Hr.
    rewrite Hl in Hr. cbn in Hr. split; [lia|]. split; [lia | discriminate].
  - unfold extract_sections in Hs.
    rewrite fold_before_heading in Hs
      by (reflexivity || apply no_heading; exact E).
    cbn in Hs. destruct (strip markdown_text); cbn in Hs; [contradiction|].
    destruct Hs as [<- | []]. cbn. split; [lia | tauto].
Qed.

Lemma section_levels_witness :
  level (MkSection 2 (txt "I") (txt "bar")) <= 3
  /\ (level (MkSection 2 (txt "I") (txt "bar")) = 0
      <-> existsb is_heading (split_nl two_sections) = false).
Proof.
  apply (@section_levels two_sections (MkSection 2 (txt "I") (txt "bar"))).
  vm_compute. right. left. reflexivity.
Defined.

(** X3.  A document of whitespace only, the empty document included,
    has no section: the placeholder section is made for non-blank
    documents only. *)
Theorem blank_document_no_sections (markdown_text : text) :
  blank markdown_text = true -> extract_sections markdown_text = [].
Proof.
  intros Hb. unfold extract_sections.
  rewrite fold_before_heading.
  - cbn. rewrite (strip_blank _ Hb). reflexivity.
  - reflexivity.
  - intros l Hl. apply blank_not_heading.
    pose proof (blank_split _ Hb) as Hall.
    rewrite Forall_forall in Hall. apply Hall. exact Hl.
Qed.

Lemma blank_document_no_sections_witness : extract_sections only_blanks = [].
Proof. apply (blank_document_no_sections only_blanks). reflexivity. Defined.

Lemma collect_well_formed (lines : list text) :
  forall lv hd acc,
  trimmed hd ->
  Forall (fun l => is_heading l = false /\ one_line l) acc ->
  Forall one_line lines ->
  Forall well_formed_section (collect lv hd acc lines).
Proof.
  induction lines as [|l rest IH]; intros lv hd acc Hhd Hacc Hlines.
  - cbn [collect]. constructor; [|constructor].
    split; [exact Hhd|]. cbn [content]. intros line Hline.
    destruct acc as [|a acc'].
    + cbn in Hline. destruct Hline as [<- | []]. apply blank_not_heading. reflexivity.
    + rewrite split_join in Hline.
      * rewrite Forall_forall in Hacc. apply Hacc. exact Hline.
      * discriminate.
      * eapply Forall_impl; [|exact Hacc]. cbn. tauto.
  - inversion Hlines as [|? ? Hl Hrest]; subst. cbn [collect].
    destruct (re_match header_pattern l) as [m|] eqn:Em.
    + constructor.
      * split; [exact Hhd|]. cbn [content]. intros line Hline.
        destruct acc as [|a acc'].
        -- cbn in Hline. destruct Hline as [<- | []].
           apply blank_not_heading. reflexivity.
        -- rewrite split_join in Hline.
           ++ rewrite Forall_forall in Hacc. apply Hacc. exact Hline.
           ++ discriminate.
           ++ eapply Forall_impl; [|exact Hacc]. cbn. tauto.
      * apply IH; [apply strip_trimmed | constructor | exact Hrest].
    + apply IH; [exact Hhd | | exact Hrest].
      apply Forall_app. split; [exact Hacc|].
      constructor; [|constructor]. split; [|exact Hl].
      unfold is_heading. rewrite Em. reflexivity.
Qed.

(** X4.  In a document with at least one heading line, every section has
    a trimmed header, and no line of its body is a heading line. *)
Theorem sections_well_formed (markdown_text : text) (s : section) :
  existsb is_heading (split_nl markdown_text) = true ->
  In s (extract_sections markdown_text) ->
  well_formed_section s.
Proof.
  intros E Hs.
  destruct (first_heading _ E) as (pre & h & rest & Hsplit & Hpre & Hh).
  destruct (is_heading_true _ Hh) as [m Hm].
  rewrite (@extract_sections_collect markdown_text pre h rest m Hsplit Hpre Hm) in Hs.
  assert (Hone : Forall one_line rest).
  { pose proof (split_nl_one_line markdown_text) as H.
    rewrite Hsplit in H. apply Forall_app in H. destruct H as [_ H].
    inversion H; assumption. }
  pose proof (@collect_well_formed rest (group m 1) (strip (group m 2)) []
                (strip_trimmed _) (Forall_nil _) Hone) as Hall.
  rewrite Forall_forall in Hall. apply Hall. exact Hs.
Qed.

Lemma sections_well_formed_witness :
  well_formed_section (MkSection 1 (txt "H") (txt "foo")).
Proof.
  apply (@sections_well_formed with_preamble (MkSection 1 (txt "H") (txt "foo"))).
  - reflexivity.
  - vm_compute. left. reflexivity.
Defined.

End SectionExtras.

(* ===================================================================== *)
(** * More on the Date Parser and the Entry Extractor *)
(* ===================================================================== *)

Module EntryExtras.
Import Re Datetime Runtime Notions MoreNotions TextFacts StripFacts.
Import AddFactFacts Frames MarkdownProcessor EntryFacts Samples.

Lemma first_bullet (body : text) :
  existsb is_bullet body = true ->
  exists pre c rest,
    body = pre ++ c :: rest
    /\ forallb (fun x => negb (is_bullet x)) pre = true
    /\ is_bullet c = true.
Proof.
  induction body as [|a body IH]; [discriminate|].
  cbn [existsb]. destruct (is_bullet a) eqn:Ea.
  - intros _. exists [], a, body. repeat split. exact Ea.
  - cbn. intros H. destruct (IH H) as (pre & c & rest & -> & Hpre & Hc).
    exists (a :: pre), c, rest. repeat split; [|exact Hc].
    cbn. rewrite Ea. exact Hpre.
Qed.

Lemma no_bullet (body : text) :
  existsb is_bullet body = false ->
  forallb (fun x => negb (is_bullet x)) body = true.
Proof.
  induction body as [|a body IH]; [reflexivity|].
  cbn. destruct (is_bullet a); [discriminate|]. exact IH.
Qed.

(** A text whose lines are all blank is blank. *)
Lemma line_entries_nil_blank (s : text) :
  line_entries (split_nl s) = [] -> blank s = true.
Proof.
  unfold blank. induction s as [|c s IH]; [reflexivity|].
  rewrite split_nl_cons. cbn [forallb].
  destruct (is_newline c) eqn:En.
  - unfold line_entries. cbn [flat_map strip lstrip rstrip rev nonempty app].
    intros H. rewrite (IH H). apply is_newline_true in En. subst c. reflexivity.
  - pose proof (split_nl_not_nil s) as Hn.
    destruct (split_nl s) as [|l ls] eqn:Es; [congruence|].
    cbn [hd tl]. unfold line_entries. cbn [flat_map].
    intros H. apply app_eq_nil in H. destruct H as [H1 H2].
    assert (Hstrip : strip (c :: l) = []).
    { destruct (strip (c :: l)); [reflexivity | discriminate]. }
    assert (Hc : is_space c = true).
    { destruct (is_space c) eqn:E; [reflexivity|].
      unfold strip in Hstrip. cbn [lstrip] in Hstrip. rewrite E in Hstrip.
      rewrite rstrip_cons_nonspace in Hstrip by exact E. discriminate. }
    rewrite Hc. apply IH. unfold line_entries. cbn [flat_map].
    rewrite strip_cons_space in Hstrip by exact Hc. rewrite Hstrip. exact H2.
Qed.

Lemma line_entries_not_nil (s : text) :
  strip s <> [] -> line_entries (split_nl (strip s)) <> [].
Proof.
  intros Hs H. apply Hs. apply strip_blank.
  apply line_entries_nil_blank. rewrite <- line_entries_strip. exact H.
Qed.

(** X5.  A section body that is not blank always yields at least one
    entry, with or without bullets, and the extraction never raises. *)
Theorem nonblank_body_has_entry (env : Env) (section_content : text)
    (w : World) :
  strip section_content <> [] ->
  exists e es w',
    extract_conversation_entries env section_content w = (Ok (e :: es), w').
Proof.
  intros Hblank. unfold extract_conversation_entries, finditer.
  destruct (existsb is_bullet section_content) eqn:Eb.
  - destruct (first_bullet _ Eb) as (pre & c & rest & -> & Hpre & Hc).
    destruct (@finditer_finds_bullet pre 0 c rest Hpre Hc) as (m & ms & E & _).
    rewrite E. unfold bind at 1.
    destruct (@entries_of_matches_quiet env (m :: ms) w) as (l & w' & El & _).
    rewrite El.
    cbn [entries_of_matches] in El. unfold bind in El.
    destruct (entry_of_match env m w) as [[e | x] w1]; [|discriminate].
    destruct (entries_of_matches env ms w1) as [[es | x] w2]; [|discriminate].
    unfold ret in El. inversion El; subst.
    exists e, es, w'. reflexivity.
  - rewrite finditer_without_bullets by (apply no_bullet; exact Eb).
    cbn [entries_of_matches]. run_monad. cbn [nonempty negb andb app].
    pose proof (line_entries_not_nil _ Hblank) as Hne.
    destruct (strip section_content) as [|c s] eqn:Es; [congruence|].
    cbn [nonempty]. rewrite <- Es in *.
    destruct (line_entries (split_nl (strip section_content))) as [|e es];
      [congruence|].
    eexists e, es, _. reflexivity.
Qed.

Lemma nonblank_body_has_entry_witness :
  exists e es w',
    extract_conversation_entries std_env hyphenated empty_world
    = (Ok (e :: es), w').
Proof.
  apply (@nonblank_body_has_entry std_env hyphenated empty_world).
  vm_compute. discriminate.
Defined.

Section Contents.
Variable env : Env.

Lemma entry_of_match_trimmed (m : rmatch) (w : World) (e : entry) (w' : World) :
  entry_of_match env m w = (Ok e, w') -> trimmed (entry_content e).
Proof.
  unfold entry_of_match, bind.
  destruct (parse_date env (strip (group m 1)) w) as [[[ts|] | x] w1];
    [| |discriminate].
  - unfold split1.
    destruct (re_search split_pattern (strip (group m 1))) as [sm|];
      unfold ret; intros E; inversion E; subst; cbn [entry_content];
      apply strip_trimmed.
  - unfold ret. intros E. inversion E; subst. apply strip_trimmed.
Qed.

Lemma entries_of_matches_trimmed (ms : list rmatch) :
  forall w es w',
  entries_of_matches env ms w = (Ok es, w') ->
  Forall (fun e => trimmed (entry_content e)) es.
Proof.
  induction ms as [|m ms IH]; intros w es w'; cbn [entries_of_matches].
  - unfold ret. intros E. inversion E. constructor.
  - unfold bind at 1.
    destruct (entry_of_match env m w) as [[e | x] w1] eqn:E1; [|discriminate].
    unfold bind at 1.
    destruct (entries_of_matches env ms w1) as [[es1 | x] w2] eqn:E2;
      [|discriminate].
    unfold ret. intros E. inversion E; subst.
    constructor; [eapply entry_of_match_trimmed; exact E1 | eapply IH; exact E2].
Qed.

Lemma line_entries_trimmed (lines : list text) :
  Forall (fun e => trimmed (entry_content e)) (line_entries lines).
Proof.
  induction lines as [|l ls IH]; [constructor|].
  unfold line_entries in *. cbn [flat_map].
  destruct (nonempty (strip l)); [|exact IH].
  constructor; [apply strip_trimmed | exact IH].
Qed.

End Contents.

(** X6.  The content of every entry returned is trimmed: it has no
    leading and no trailing whitespace, whether it comes from a bullet or
    from the fallback on lines. *)
Theorem entry_contents_trimmed (env : Env) (section_content : text)
    (w : World) (es : list entry) (w' : World) :
  extract_conversation_entries env section_content w = (Ok es, w') ->
  Forall (fun e => trimmed (entry_content e)) es.
Proof.
  unfold extract_conversation_entries. unfold bind at 1.
  destruct (entries_of_matches env (finditer entry_pattern section_content) w)
    as [[entries | x] w1] eqn:E1; [|discriminate].
  pose proof (@entries_of_matches_trimmed env _ _ _ _ E1) as Ht.
  destruct (negb (nonempty entries) && nonempty (strip section_content)).
  - run_monad. intros E. inversion E; subst.
    apply Forall_app. split; [exact Ht | apply line_entries_trimmed].
  - unfold ret. intros E. inversion E; subst. exact Ht.
Qed.

Lemma entry_contents_trimmed_witness :
  Forall (fun e => trimmed (entry_content e))
    [ MkEntry (Some (MkDatetime 2025 3 29 9 10 0)) (txt "Meeting with John");
      MkEntry None (txt "Regular bullet point without timestamp");
      MkEntry (Some (MkDatetime 2025 3 29 14 30 0)) (txt "Had lunch at Mario's") ].
Proof.
  apply (@entry_contents_trimmed std_env mixed_bullets empty_world _ empty_world).
  vm_compute. reflexivity.
Defined.

End EntryExtras.

Module DateExtras.
Import Re Datetime Runtime Notions MoreNotions TextFacts StripFacts.
Import AddFactFacts Frames MarkdownProcessor EntryFacts Samples.

(** Each of the three grammars starts with a digit. *)
Lemma date_pattern_needs_digit (p : regex) (b : bool) (pos : nat) (rest : text) :
  In p date_patterns ->
  match rest with c :: _ => is_digit c = false | [] => True end ->
  try_at p b pos rest = None.
Proof.
  intros Hp Hrest. unfold date_patterns in Hp. cbn [In] in Hp.
  destruct Hp as [<- | [<- | [<- | []]]]; unfold try_at, slash_date, Count;
    cbn [seq_of run m_pos m_rest m_groups];
    (destruct rest as [|c rest]; [reflexivity|]);
    cbn [rep_greedy Nat.eqb]; rewrite Hrest; reflexivity.
Qed.

Lemma search_needs_digit (p : regex) (rest : text) :
  In p date_patterns ->
  forall pos,
  forallb (fun c => negb (is_digit c)) rest = true ->
  search_from p pos rest = None.
Proof.
  intros Hp. induction rest as [|c rest IH]; intros pos H; cbn [search_from].
  - rewrite date_pattern_needs_digit by (assumption || exact I). reflexivity.
  - cbn [forallb] in H. apply andb_prop in H. destruct H as [Hc Hrest].
    apply negb_true_iff in Hc.
    rewrite date_pattern_needs_digit by assumption. apply IH. exact Hrest.
Qed.

Lemma parse_date_loop_no_match (env : Env) (patterns : list regex)
    (date_str : text) (w : World) :
  (forall p, In p patterns -> re_search p date_str = None) ->
  parse_date_loop env patterns date_str w = (Ok None, w).
Proof.
  induction patterns as [|p rest IH]; intros H; [reflexivity|].
  cbn [parse_date_loop]. rewrite (H p (in_eq _ _)).
  apply IH. intros q Hq. apply H. right. exact Hq.
Qed.

(** X7.  On a text without any digit [parse_date] returns [None],
    whatever else the text holds, without logging and without asking
    [strptime]. *)
Theorem parse_date_needs_digit (env : Env) (date_str : text) (w : World) :
  forallb (fun c => negb (is_digit c)) date_str = true ->
  parse_date env date_str w = (Ok None, w).
Proof.
  intros H. unfold parse_date. apply parse_date_loop_no_match.
  intros p Hp. unfold re_search. apply search_needs_digit; assumption.
Qed.

Lemma parse_date_needs_digit_witness :
  parse_date std_env (txt "well-known fact, on a Monday in March")
             empty_world
  = (Ok None, empty_world).
Proof.
  apply (@parse_date_needs_digit std_env
           (txt "well-known fact, on a Monday in March") empty_world).
  reflexivity.
Defined.

Lemma try_formats_first (env : Env) (date_text : text)
    (before : list (list fmt_item)) (fmt : list fmt_item)
    (after : list (list fmt_item)) (d : datetime) (w : World) :
  (forall f, In f before -> refused env date_text f) ->
  strptime env date_text fmt = Ok d ->
  try_formats env date_text (before ++ fmt :: after) w = (Ok (Return d), w).
Proof.
  intros Hbefore Hfmt. induction before as [|f before IH].
  - cbn [app try_formats]. run_monad. rewrite Hfmt. reflexivity.
  - cbn [app try_formats]. run_monad.
    destruct (Hbefore f (in_eq _ _)) as (e & He & Hcls).
    rewrite He, Hcls. cbn [exn_class_eqb].
    apply IH. intros g Hg. apply Hbefore. right. exact Hg.
Qed.

(** X8.  The grammars are tried in their fixed order, not in the order
    of the text: the result is the date of the first grammar that matches
    the text, read with the first format that accepts the matched
    substring; nothing is logged. *)
Theorem first_grammar_first_format (env : Env) (date_str : text) (w : World)
    (earlier : list regex) (p : regex) (later : list regex) (m : rmatch)
    (before : list (list fmt_item)) (fmt : list fmt_item)
    (after : list (list fmt_item)) (d : datetime) :
  date_patterns = earlier ++ p :: later ->
  (forall q, In q earlier -> re_search q date_str = None) ->
  re_search p date_str = Some m ->
  date_formats = before ++ fmt :: after ->
  (forall f, In f before -> refused env (group m 1) f) ->
  strptime env (group m 1) fmt = Ok d ->
  parse_date env date_str w = (Ok (Some d), w).
Proof.
  intros Hps Hearlier Hp Hfs Hbefore Hfmt. unfold parse_date. rewrite Hps.
  clear Hps. induction earlier as [|q earlier IH].
  - cbn [app parse_date_loop]. rewrite Hp. unfold bind at 1, try_except.
    rewrite Hfs, (try_formats_first _ _ after w Hbefore Hfmt). reflexivity.
  - cbn [app parse_date_loop]. rewrite (Hearlier q (in_eq _ _)).
    apply IH. intros q' Hq'. apply Hearlier. right. exact Hq'.
Qed.

(** The ISO timestamp of a text without slash date: second grammar,
    third format. *)
Lemma first_grammar_first_format_witness :
  parse_date std_env iso_meeting empty_world
  = (Ok (Some (MkDatetime 2025 3 29 9 10 0)), empty_world).
Proof.
  apply (@first_grammar_first_format std_env iso_meeting empty_world
           (firstn 1 date_patterns) (nth 1 date_patterns Eps)
           (skipn 2 date_patterns)
           (RMatch 11 30 [(1, txt "2025-03-29 09:10:00")])
           (firstn 2 date_formats) (nth 2 date_formats [])
           (skipn 3 date_formats) (MkDatetime 2025 3 29 9 10 0)).
  - reflexivity.
  - intros q [<- | []]. vm_compute. reflexivity.
  - vm_compute. reflexivity.
  - reflexivity.
  - intros f [<- | [<- | []]]; eexists; split; vm_compute; reflexivity.
  - vm_compute. reflexivity.
Defined.

End DateExtras.

(* ===================================================================== *)
(** * The call to Ollama *)
(* ===================================================================== *)

Module OllamaExtras.
Import Re Datetime Runtime Notions MoreNotions TextFacts StripFacts.
Import AddFactFacts Frames MemoryManager Samples.

Lemma no_response_trimmed : trimmed no_response.
Proof. reflexivity. Qed.

(** X9.  Without the server or the model in the configuration,
    [_call_ollama_api] raises a [KeyError] before anything else happens:
    no request is sent and nothing is logged. *)
Theorem call_ollama_api_unconfigured (env : Env) (config : Config)
    (p : prompt) (w : World) :
  llm_configured config = false ->
  exists e,
    _call_ollama_api env config p w = (Raise e, w)
    /\ exn_cls e = KeyError.
Proof.
  unfold llm_configured, _call_ollama_api. intros H.
  destruct (memory_llm_config config) as [mc|];
    [|eexists; split; reflexivity].
  destruct (ollama_base_url mc); [|eexists; split; reflexivity].
  destruct (model mc); [discriminate | eexists; split; reflexivity].
Qed.

Lemma call_ollama_api_unconfigured_witness :
  exists e,
    _call_ollama_api std_env bare_config (TextPrompt (txt "Hello")) empty_world
    = (Raise e, empty_world)
    /\ exn_cls e = KeyError.
Proof.
  apply (@call_ollama_api_unconfigured std_env bare_config
           (TextPrompt (txt "Hello")) empty_world).
  reflexivity.
Defined.

(** What one configured call does. *)
Lemma call_ollama_api_run (env : Env) (config : Config) (p : prompt)
    (w : World) :
  llm_configured config = true ->
  exists r,
    req_prompt r = p
    /\ let o := requests_post env (history w) r in
       let ran := _call_ollama_api env config p w in
       history (snd ran) = record_post (history w) (r, o)
       /\ sleeps (snd ran) = sleeps w
       /\ match fst ran with
          | Ok a =>
              trimmed a /\ logs (snd ran) = logs w
              /\ exists response body,
                   o = Ok response
                   /\ http_error (status_code response) = false
                   /\ json response = Ok body
          | Raise e =>
              logs (snd ran)
              = logs w ++ (if exn_class_eqb (exn_cls e) RequestException
                           then [(ERROR, OllamaApiError e)] else [])
          end.
Proof.
  unfold llm_configured, _call_ollama_api. intros H.
  destruct (memory_llm_config config) as [mc|]; [|discriminate].
  destruct (ollama_base_url mc) as [base|]; [|discriminate].
  destruct (model mc) as [name|]; [|discriminate].
  exists (HttpRequest (base ++ txt "/api/generate") name p
            (match chat_temperature config with
             | Some t => t | None => txt "0.7" end)
            (match max_tokens mc with Some n => n | None => 2000%Z end)
            (match chat_response_timeout config with
             | Some n => n | None => 60%Z end)).
  split; [reflexivity|]. cbn zeta. run_monad.
  match goal with
  | |- context [requests_post env (history w) ?r] =>
      destruct (requests_post env (history w) r) as [response | e]
  end.
  - unfold raise_for_status, http_error.
    destruct ((400 <=? status_code response) && (status_code response <? 600))
      eqn:Estatus; run_monad.
    + cbn. repeat split.
    + destruct (json response) as [body | e] eqn:Ejson.
      * destruct (response_field body) as [a|]; cbn;
          repeat split; eauto using strip_trimmed, no_response_trimmed.
      * destruct (exn_class_eqb (exn_cls e) RequestException) eqn:E; cbn;
          rewrite ?E, ?app_nil_r; repeat split.
  - destruct (exn_class_eqb (exn_cls e) RequestException) eqn:E; cbn;
      rewrite ?E, ?app_nil_r; repeat split.
Qed.

(** X10.  With the server and the model configured, [_call_ollama_api]
    sends exactly one request, which carries the prompt, and never
    sleeps.  An answer it returns is free of surrounding whitespace,
    comes from a response whose status is no HTTP error and whose body
    is valid JSON, and nothing is logged.  When it raises, it has logged the error exactly when that is
    a [RequestException]; any other exception passes unlogged. *)
Theorem call_ollama_api_outcome (env : Env) (config : Config) (p : prompt)
    (w : World) :
  llm_configured config = true ->
  exists r,
    req_prompt r = p
    /\ let o := requests_post env (history w) r in
       let ran := _call_ollama_api env config p w in
       history (snd ran) = record_post (history w) (r, o)
       /\ sleeps (snd ran) = sleeps w
       /\ match fst ran with
          | Ok a =>
              trimmed a /\ logs (snd ran) = logs w
              /\ exists response body,
                   o = Ok response
                   /\ http_error (status_code response) = false
                   /\ json response = Ok body
          | Raise e =>
              logs (snd ran)
              = logs w ++ (if exn_class_eqb (exn_cls e) RequestException
                           then [(ERROR, OllamaApiError e)] else [])
          end.
Proof. apply call_ollama_api_run. Qed.

Lemma call_ollama_api_outcome_witness :
  fst (_call_ollama_api env_search_down sample_config
         (TextPrompt (txt "Where do I live?")) empty_world)
  = Ok (txt "You live in Seattle.")
  /\ exists r,
       req_prompt r = TextPrompt (txt "Where do I live?")
       /\ let o := requests_post env_search_down (history empty_world) r in
          let ran := _call_ollama_api env_search_down sample_config
                       (TextPrompt (txt "Where do I live?")) empty_world in
          history (snd ran) = record_post (history empty_world) (r, o)
          /\ sleeps (snd ran) = sleeps empty_world
          /\ match fst ran with
             | Ok a =>
                 trimmed a /\ logs (snd ran) = logs empty_world
                 /\ exists response body,
                      o = Ok response
                      /\ http_error (status_code response) = false
                      /\ json response = Ok body
             | Raise e =>
                 logs (snd ran)
                 = logs empty_world
                   ++ (if exn_class_eqb (exn_cls e) RequestException
                       then [(ERROR, OllamaApiError e)] else [])
             end.
Proof.
  split; [vm_compute; reflexivity|].
  apply (@call_ollama_api_outcome env_search_down sample_config
           (TextPrompt (txt "Where do I live?")) empty_world).
  reflexivity.
Defined.

End OllamaExtras.

(* ===================================================================== *)
(** * The Fact Extractor *)
(* ===================================================================== *)

Module FactExtras.
Import Re Datetime Runtime Notions MoreNotions TextFacts StripFacts.
Import AddFactFacts Frames MemoryManager MarkdownProcessor OllamaExtras Samples.

Lemma facts_of_response_clean (response : text) :
  Forall clean_fact (facts_of_response response).
Proof.
  unfold facts_of_response.
  pose proof (split_nl_one_line (strip response)) as H.
  induction H as [|line lines Hline _ IH]; [constructor|].
  cbn [flat_map]. destruct (strip line) as [|c t] eqn:E; cbn [nonempty app].
  - exact IH.
  - constructor; [|exact IH]. rewrite <- E. repeat split.
    + rewrite E. discriminate.
    + apply strip_trimmed.
    + apply forallb_strip. exact Hline.
Qed.

Lemma call_ollama_api_raises (env : Env) (config : Config) (p : prompt)
    (w : World) :
  llm_configured config = false \/ llm_unavailable env ->
  exists e w',
    _call_ollama_api env config p w = (Raise e, w')
    /\ add_calls (history w') = add_calls (history w)
    /\ sleeps w' = sleeps w.
Proof.
  intros H. destruct (llm_configured config) eqn:Ec.
  - destruct H as [H | H]; [discriminate|].
    destruct (@call_ollama_api_run env config p w Ec) as (r & _ & Hrun).
    cbn zeta in Hrun. destruct Hrun as (Hh & Hs & Hm).
    specialize (H (history w) r).
    destruct (_call_ollama_api env config p w) as [[a | e] w'];
      cbn [fst snd] in *.
    + destruct Hm as (_ & _ & response & body & Ho & Hstatus & Hjson).
      rewrite Ho in H. rewrite Hjson in H. cbn in H.
      destruct H; congruence.
    + exists e, w'. split; [reflexivity|]. rewrite Hh. split; [reflexivity|].
      exact Hs.
  - destruct (@call_ollama_api_unconfigured env config p w Ec) as (e & E & _).
    exists e, w. rewrite E. repeat split.
Qed.

(** The prompt is found or replaced; either way the world only gains a
    log line. *)
Lemma extract_facts_with_llm_run (env : Env) (config : Config)
    (context content : text) (ts : option datetime) (w : World) :
  exists p lg,
    extract_facts_with_llm env config context content ts w
    = (let w0 := MkWorld (logs w ++ lg) (sleeps w) (history w) in
       match _call_ollama_api env config p w0 with
       | (Ok response, w1) => (Ok (facts_of_response response), w1)
       | (Raise e, w1) =>
           (Ok [], MkWorld (logs w1 ++ [(ERROR, ErrorExtractingFacts e)])
                           (sleeps w1) (history w1))
       end).
Proof.
  unfold extract_facts_with_llm. run_monad.
  destruct (get_prompt env context ts content) as [t | e].
  - exists (TextPrompt t), []. cbn zeta. rewrite app_nil_r.
    destruct w as [lg sl h]. cbn [logs sleeps history].
    destruct (_call_ollama_api env config (TextPrompt t) (MkWorld lg sl h))
      as [[a | e] w1]; reflexivity.
  - exists (TextPrompt (txt "Extract key facts from: " ++ content)),
           [(ERROR, FailedToLoadPrompt e)]. cbn zeta.
    match goal with
    | |- context [_call_ollama_api env config ?p ?w0] =>
        destruct (_call_ollama_api env config p w0) as [[a | e'] w1]
    end; reflexivity.
Qed.

Lemma extract_facts_with_llm_clean (env : Env) (config : Config)
    (context content : text) (ts : option datetime) (w : World) :
  exists facts w',
    extract_facts_with_llm env config context content ts w = (Ok facts, w')
    /\ Forall clean_fact facts
    /\ sleeps w' = sleeps w
    /\ (history w' = history w
        \/ exists x, history w' = record_post (history w) x).
Proof.
  destruct (extract_facts_with_llm_run env config context content ts w)
    as (p & lg & E).
  rewrite E. cbn zeta. clear E.
  set (w0 := MkWorld (logs w ++ lg) (sleeps w) (history w)).
  destruct (llm_configured config) eqn:Ec.
  - destruct (@call_ollama_api_run env config p w0 Ec) as (r & _ & Hrun).
    cbn zeta in Hrun. destruct Hrun as (Hh & Hs & _).
    destruct (_call_ollama_api env config p w0) as [[a | e] w1];
      cbn [fst snd] in *; eexists _, _; (split; [reflexivity|]);
      cbn [sleeps history]; rewrite Hh, Hs;
      (split; [|split; [reflexivity | right; eexists; reflexivity]]).
    + apply facts_of_response_clean.
    + constructor.
  - destruct (@call_ollama_api_unconfigured env config p w0 Ec) as (e & E & _).
    rewrite E. eexists _, _. split; [reflexivity|].
    split; [constructor|]. split; [reflexivity | left; reflexivity].
Qed.

(** X11.  [extract_facts_with_llm] never raises.  Each fact it returns
    is not empty, has no surrounding whitespace and holds no newline.
    It never sleeps, and it leaves the history as it was or adds one HTTP
    call to it. *)
Theorem extracted_facts_clean (env : Env) (config : Config)
    (context content : text) (ts : option datetime) (w : World) :
  exists facts w',
    extract_facts_with_llm env config context content ts w = (Ok facts, w')
    /\ Forall clean_fact facts
    /\ sleeps w' = sleeps w
    /\ (history w' = history w
        \/ exists x, history w' = record_post (history w) x).
Proof. apply extract_facts_with_llm_clean. Qed.

Lemma extract_facts_with_llm_none (env : Env) (config : Config)
    (context content : text) (ts : option datetime) (w : World) :
  llm_configured config = false \/ llm_unavailable env ->
  exists e lg w',
    extract_facts_with_llm env config context content ts w = (Ok [], w')
    /\ logs w' = lg ++ [(ERROR, ErrorExtractingFacts e)]
    /\ add_calls (history w') = add_calls (history w)
    /\ sleeps w' = sleeps w.
Proof.
  intros H.
  destruct (extract_facts_with_llm_run env config context content ts w)
    as (p & lg & E).
  rewrite E. cbn zeta. clear E.
  set (w0 := MkWorld (logs w ++ lg) (sleeps w) (history w)).
  destruct (@call_ollama_api_raises env config p w0 H) as (e & w1 & E & Hh & Hs).
  rewrite E. eexists e, (logs w1), _. split; [reflexivity|].
  split; [reflexivity|]. split; [exact Hh | exact Hs].
Qed.

(** X12.  When the configuration lacks the server or the model, or when
    no call to the server gives a usable answer (the request fails, the
    status is an HTTP error, or the body is no JSON),
    [extract_facts_with_llm] returns no fact, and the last thing it logs
    is the error. *)
Theorem no_facts_without_llm (env : Env) (config : Config)
    (context content : text) (ts : option datetime) (w : World) :
  llm_configured config = false \/ llm_unavailable env ->
  exists e lg w',
    extract_facts_with_llm env config context content ts w = (Ok [], w')
    /\ logs w' = lg ++ [(ERROR, ErrorExtractingFacts e)].
Proof.
  intros H.
  destruct (@extract_facts_with_llm_none env config context content ts w H)
    as (e & lg & w' & E & Hl & _).
  exists e, lg, w'. split; assumption.
Qed.

Lemma overloaded_unavailable : llm_unavailable env_overloaded.
Proof. intros h r. left. reflexivity. Qed.

Lemma no_facts_without_llm_witness :
  exists e lg w',
    extract_facts_with_llm env_overloaded sample_config (txt "Notes")
      (txt "I love pizza at Mario's") None empty_world = (Ok [], w')
    /\ logs w' = lg ++ [(ERROR, ErrorExtractingFacts e)].
Proof.
  apply (@no_facts_without_llm env_overloaded sample_config (txt "Notes")
           (txt "I love pizza at Mario's") None empty_world).
  right. exact overloaded_unavailable.
Defined.

End FactExtras.

(* ===================================================================== *)
(** * The books of the File Processor *)
(* ===================================================================== *)

Module ProcessExtras.
Import Re Datetime Runtime Notions MoreNotions TextFacts StripFacts.
Import AddFactFacts Frames MemoryManager MarkdownProcessor EntryFacts.
Import ProcessFacts OllamaExtras FactExtras Samples.

Lemma or_else_idem (u : option text) (d : text) :
  or_else (Some (or_else u d)) d = or_else u d.
Proof.
  destruct u as [[|a u]|]; cbn; try reflexivity; destruct d; reflexivity.
Qed.

Lemma answered_fst (env : Env) (c : add_call)
    (new : list (add_call * outcome pyresult)) :
  forall h, answered env c h new -> Forall (fun x => fst x = c) new.
Proof.
  induction new as [|x new IH]; intros h H; [constructor|].
  cbn in H. destruct H as [-> H]. constructor; [reflexivity|].
  eapply IH. exact H.
Qed.

Lemma count_created_le (l : list (add_call * outcome pyresult)) :
  count_created l <= List.length l.
Proof. unfold count_created. apply filter_length_le. Qed.

Section Process.
Variable env : Env.
Variable config : Config.

(** [add_fact] with its three attempts: one to three calls, all of the
    same fact for the same user. *)
Lemma add_fact_thrice (fact : text) (user_id : option text)
    (metadata : option (list (text * text))) (w : World) :
  exists r w' new,
    add_fact env config fact user_id metadata 3 w = (Ok r, w')
    /\ add_calls (history w') = add_calls (history w) ++ new
    /\ count_created new = (if has_results r then 1 else 0)
    /\ 1 <= List.length new <= 3
    /\ Forall (fun x => fst x
                        = AddCall fact (or_else user_id (self_user_id config))
                                  metadata) new.
Proof.
  unfold add_fact, range.
  destruct (@add_fact_loop_run env fact (or_else user_id (self_user_id config))
              metadata 3 (Z.to_nat 3) 0 w)
    as (r & w' & new & E & Hh & Hans & _ & Hcases).
  { cbn. lia. }
  exists r, w', new. split; [exact E|]. split; [rewrite Hh; reflexivity|].
  split; [|split; [|eapply answered_fst; exact Hans]].
  - destruct Hcases as [(fails & -> & Hf & _) | (_ & Hf & ->)].
    + rewrite count_created_app, (count_created_failed Hf).
      unfold count_created. cbn. destruct (has_results r); reflexivity.
    + rewrite (count_created_failed Hf). reflexivity.
  - change (Z.to_nat 3) with 3 in Hcases.
    destruct Hcases as [(fails & -> & _ & Hl) | (Hl & _)].
    + rewrite length_app. cbn. lia.
    + lia.
Qed.

Lemma add_facts_accounts (facts : list text) (ts : option datetime)
    (user_id : text) :
  Forall clean_fact facts ->
  forall (added : nat) (w : World), exists added' w' new,
    add_facts env config facts ts user_id added w = (Ok added', w')
    /\ add_calls (history w') = add_calls (history w) ++ new
    /\ added' = added + count_created new
    /\ count_created new <= List.length facts
    /\ List.length facts <= List.length new <= 3 * List.length facts
    /\ Forall (filed_for (or_else (Some user_id) (self_user_id config))) new.
Proof.
  induction 1 as [|fact rest Hfact _ IH]; intros added w.
  - exists added, w, []. cbn. rewrite app_nil_r. repeat split; auto.
  - cbn [add_facts]. unfold bind at 1.
    match goal with
    | |- context [add_fact env config fact ?u ?md 3 w] =>
        destruct (add_fact_thrice fact u md w)
          as (r & w1 & new1 & E & Hh & Hc & Hl & Hf)
    end.
    rewrite E.
    destruct (IH (if has_results r then added + 1 else added) w1)
      as (added' & w2 & new2 & E2 & Hh2 & Hc2 & Hle & Hl2 & Hf2).
    exists added', w2, (new1 ++ new2). split; [exact E2|].
    split; [rewrite Hh2, Hh, app_assoc; reflexivity|].
    rewrite count_created_app, length_app. cbn [List.length].
    split; [rewrite Hc2, Hc; destruct (has_results r); lia|].
    split; [rewrite Hc; destruct (has_results r); lia|].
    split; [lia|].
    apply Forall_app. split; [|exact Hf2].
    eapply Forall_impl; [|exact Hf]. intros x Hx. unfold filed_for.
    rewrite Hx. cbn [ac_user_id ac_fact ac_metadata].
    split; [reflexivity|]. split; [exact Hfact|].
    unfold stamped. destruct ts as [d|]; [right; exists d | left]; reflexivity.
Qed.

Lemma process_entries_accounts (entries : list entry)
    (section_header user_id : text) :
  forall counters,
  accounts (or_else (Some user_id) (self_user_id config))
           (process_entries env config entries section_header user_id counters)
           counters.
Proof.
  induction entries as [|e rest IH]; intros counters w.
  - exists counters, w, [], 0. cbn. rewrite app_nil_r. repeat split; auto.
  - cbn [process_entries].
    destruct (negb (nonempty (entry_content e))
              || (List.length (strip (entry_content e)) <? 10)); [apply IH|].
    unfold bind at 1.
    destruct (@extract_facts_with_llm_clean env config section_header
                (entry_content e) (timestamp e) w)
      as (facts & w1 & E1 & Hclean & _ & Hh1).
    assert (F1 : add_calls (history w1) = add_calls (history w))
      by (destruct Hh1 as [-> | (x & ->)]; reflexivity).
    rewrite E1. unfold bind at 1.
    destruct (add_facts_accounts (timestamp e) user_id Hclean (snd counters) w1)
      as (added & w2 & new1 & E2 & Hh2 & Hc2 & Hle2 & Hl2 & Hf2).
    rewrite E2. unfold bind at 1, sleep.
    match goal with
    | |- context [process_entries env config rest section_header user_id ?c ?w3] =>
        destruct (IH c w3)
          as (c' & w4 & new2 & k & E3 & Hh3 & Ht3 & Hc3 & Hle3 & Hl3 & Hf3)
    end.
    exists c', w4, (new1 ++ new2), (List.length facts + k).
    split; [exact E3|]. cbn [history fst snd] in *.
    split; [rewrite Hh3, Hh2, F1, app_assoc; reflexivity|].
    rewrite count_created_app, length_app.
    repeat split; try lia. apply Forall_app. split; assumption.
Qed.

Lemma process_sections_accounts (ss : list section) (user_id : text) :
  forall counters,
  accounts (or_else (Some user_id) (self_user_id config))
           (process_sections env config ss user_id counters) counters.
Proof.
  induction ss as [|s rest IH]; intros counters w.
  - exists counters, w, [], 0. cbn. rewrite app_nil_r. repeat split; auto.
  - cbn [process_sections]. unfold bind at 1, log at 1.
    unfold bind at 1.
    match goal with
    | |- context [extract_conversation_entries env (content s) ?w0] =>
        destruct (@extract_conversation_entries_quiet env (content s) w0)
          as (entries & w1 & E1 & F1)
    end.
    rewrite E1. unfold bind at 1, log at 1. unfold bind at 1.
    match goal with
    | |- context [process_entries env config entries (header s) user_id counters ?w2] =>
        destruct (@process_entries_accounts entries (header s) user_id counters w2)
          as (c1 & w3 & new1 & k1 & E2 & Hh2 & Ht2 & Hc2 & Hle2 & Hl2 & Hf2)
    end.
    rewrite E2.
    destruct (IH c1 w3)
      as (c2 & w4 & new2 & k2 & E3 & Hh3 & Ht3 & Hc3 & Hle3 & Hl3 & Hf3).
    exists c2, w4, (new1 ++ new2), (k1 + k2). split; [exact E3|].
    cbn [history fst snd] in *.
    split; [rewrite Hh3, Hh2, F1, app_assoc; reflexivity|].
    rewrite count_created_app, length_app.
    repeat split; try lia. apply Forall_app. split; assumption.
Qed.

Lemma process_file_accounts (file_path : text) (user_id : option text) :
  accounts (or_else user_id (self_user_id config))
           (process_file env config file_path user_id) (0, 0).
Proof.
  intros w. unfold process_file. unfold bind at 1, log at 1.
  unfold try_except, bind at 1, call_read_file.
  cbn [history logs sleeps].
  destruct (read_file env (history w) file_path) as [markdown_text | e].
  - unfold bind at 1, log at 1. unfold bind at 1.
    match goal with
    | |- context [process_sections env config ?ss ?u (0, 0) ?w1] =>
        destruct (@process_sections_accounts ss u (0, 0) w1)
          as (c & w2 & new & k & E & Hh & Ht & Hc & Hle & Hl & Hf)
    end.
    rewrite or_else_idem in Hf.
    rewrite E. run_monad.
    exists c, (MkWorld
                 (((logs w2 ++ [(INFO, CompletedFile file_path)])
                   ++ [(INFO, TotalFacts (fst c))])
                  ++ [(INFO, AddedFacts (snd c))])
                 (sleeps w2) (history w2)), new, k.
    split; [reflexivity|]. split; [exact Hh|]. split; [exact Ht|].
    split; [exact Hc|]. split; [exact Hle|]. split; [exact Hl | exact Hf].
  - run_monad. eexists (0, 0), _, [], 0. split; [reflexivity|].
    cbn. rewrite app_nil_r. repeat split; auto.
Qed.

(** With the LLM out of reach, the loop over the entries changes
    neither the counters nor the backend. *)
Lemma process_entries_idle (entries : list entry)
    (section_header user_id : text) :
  llm_configured config = false \/ llm_unavailable env ->
  forall counters w, exists w',
    process_entries env config entries section_header user_id counters w
    = (Ok counters, w')
    /\ add_calls (history w') = add_calls (history w).
Proof.
  intros H. induction entries as [|e rest IH]; intros counters w.
  - exists w. split; reflexivity.
  - cbn [process_entries].
    destruct (negb (nonempty (entry_content e))
              || (List.length (strip (entry_content e)) <? 10)); [apply IH|].
    unfold bind at 1.
    destruct (@extract_facts_with_llm_none env config section_header
                (entry_content e) (timestamp e) w H)
      as (e0 & lg & w1 & E1 & _ & F1 & _).
    rewrite E1. cbn [add_facts]. run_monad.
    cbn [List.length]. rewrite Nat.add_0_r, <- surjective_pairing.
    match goal with
    | |- context [process_entries env config rest section_header user_id counters ?w3] =>
        destruct (IH counters w3) as (w4 & E3 & F3)
    end.
    exists w4. split; [exact E3|]. rewrite F3. exact F1.
Qed.

Lemma process_sections_idle (ss : list section) (user_id : text) :
  llm_configured config = false \/ llm_unavailable env ->
  forall counters w, exists w',
    process_sections env config ss user_id counters w = (Ok counters, w')
    /\ add_calls (history w') = add_calls (history w).
Proof.
  intros H. induction ss as [|s rest IH]; intros counters w.
  - exists w. split; reflexivity.
  - cbn [process_sections]. unfold bind at 1, log at 1.
    unfold bind at 1.
    match goal with
    | |- context [extract_conversation_entries env (content s) ?w0] =>
        destruct (@extract_conversation_entries_quiet env (content s) w0)
          as (entries & w1 & E1 & F1)
    end.
    rewrite E1. unfold bind at 1, log at 1. unfold bind at 1.
    match goal with
    | |- context [process_entries env config entries (header s) user_id counters ?w2] =>
        destruct (@process_entries_idle entries (header s) user_id H counters w2)
          as (w3 & E2 & F2)
    end.
    rewrite E2.
    destruct (IH counters w3) as (w4 & E3 & F3).
    exists w4. split; [exact E3|]. cbn [history] in *. congruence.
Qed.

End Process.

Section Provenance.
Variable env : Env.
Variable config : Config.

(** What the Entry Extractor returns does not depend on the world. *)
Lemma entries_of_matches_fst (ms : list rmatch) :
  forall w1 w2,
  fst (entries_of_matches env ms w1) = fst (entries_of_matches env ms w2).
Proof.
  induction ms as [|m ms IH]; intros w1 w2; [reflexivity|].
  cbn [entries_of_matches]. unfold bind at 1 3, entry_of_match.
  unfold bind at 1 3.
  destruct (@parse_date_quiet env (strip (group m 1)) w1)
    as (f1 & w1' & E1 & _).
  destruct (@parse_date_quiet env (strip (group m 1)) w2)
    as (f2 & w2' & E2 & _).
  pose proof (parse_date_fst env (strip (group m 1)) w1 w2) as Hf.
  rewrite E1, E2 in Hf |- *. cbn [fst] in Hf. injection Hf as <-.
  assert (H : exists e, forall w,
            (match f1 with
             | Some ts =>
                 match split1 split_pattern (strip (group m 1)) with
                 | _ :: part1 :: _ => ret (MkEntry (Some ts) (strip part1))
                 | _ => ret (MkEntry (Some ts) (strip (group m 1)))
                 end
             | None => ret (MkEntry None (strip (group m 1)))
             end) w = (Ok e, w)).
  { destruct f1 as [ts|]; [|eexists; reflexivity].
    destruct (split1 split_pattern (strip (group m 1))) as [|p0 [|p1 ps]];
      eexists; reflexivity. }
  destruct H as (e & He). rewrite !He. unfold bind.
  specialize (IH w1' w2').
  destruct (entries_of_matches env ms w1') as [[es1 | x1] u1];
    destruct (entries_of_matches env ms w2') as [[es2 | x2] u2];
    unfold ret; cbn [fst] in IH |- *; congruence.
Qed.

Lemma extract_conversation_entries_fst (section_content : text)
    (w1 w2 : World) :
  fst (extract_conversation_entries env section_content w1)
  = fst (extract_conversation_entries env section_content w2).
Proof.
  unfold extract_conversation_entries. unfold bind at 1 3.
  pose proof (entries_of_matches_fst
                (finditer entry_pattern section_content) w1 w2) as H.
  destruct (entries_of_matches env (finditer entry_pattern section_content) w1)
    as [[es1 | x1] u1];
    destruct (entries_of_matches env (finditer entry_pattern section_content) w2)
      as [[es2 | x2] u2];
    cbn [fst] in H |- *; try discriminate; [|exact H].
  injection H as <-.
  destruct (negb (nonempty es1) && nonempty (strip section_content));
    reflexivity.
Qed.

Lemma entries_of_run (s : section) (w w' : World) (es : list entry) :
  extract_conversation_entries env (content s) w = (Ok es, w') ->
  entries_of env s = es.
Proof.
  intros E. unfold entries_of.
  rewrite (extract_conversation_entries_fst (content s) empty_world w), E.
  reflexivity.
Qed.

(** Every call for the facts of one entry carries one of these facts,
    the user id, and the metadata of the entry's timestamp. *)
Lemma add_facts_sourced (facts : list text) (ts : option datetime)
    (user_id : text) :
  forall (added : nat) (w : World), exists added' w' new,
    add_facts env config facts ts user_id added w = (Ok added', w')
    /\ add_calls (history w') = add_calls (history w) ++ new
    /\ Forall (fun x =>
                 ac_user_id (fst x) = or_else (Some user_id) (self_user_id config)
                 /\ In (ac_fact (fst x)) facts
                 /\ ac_metadata (fst x) = Some (metadata_of ts)) new.
Proof.
  induction facts as [|fact rest IH]; intros added w.
  - exists added, w, []. cbn. rewrite app_nil_r. repeat split. constructor.
  - cbn [add_facts]. unfold bind at 1.
    match goal with
    | |- context [add_fact env config fact ?u ?md 3 w] =>
        destruct (@add_fact_thrice env config fact u md w)
          as (r & w1 & new1 & E & Hh & _ & _ & Hf)
    end.
    rewrite E.
    destruct (IH (if has_results r then added + 1 else added) w1)
      as (added' & w2 & new2 & E2 & Hh2 & Hf2).
    exists added', w2, (new1 ++ new2). split; [exact E2|].
    split; [rewrite Hh2, Hh, app_assoc; reflexivity|].
    apply Forall_app. split.
    + eapply Forall_impl; [|exact Hf]. intros x Hx. rewrite Hx.
      cbn [ac_user_id ac_fact ac_metadata]. split; [reflexivity|].
      split; [left; reflexivity | reflexivity].
    + eapply Forall_impl; [|exact Hf2]. intros x (Hu & Hin & Hm).
      split; [exact Hu|]. split; [right; exact Hin | exact Hm].
Qed.

Lemma process_entries_sourced (entries : list entry)
    (section_header user_id : text) :
  forall counters w, exists c w' new,
    process_entries env config entries section_header user_id counters w
    = (Ok c, w')
    /\ add_calls (history w') = add_calls (history w) ++ new
    /\ Forall (fun x => exists e,
                 In e entries
                 /\ files_entry env config
                      (or_else (Some user_id) (self_user_id config))
                      section_header e (fst x)) new.
Proof.
  induction entries as [|e rest IH]; intros counters w.
  - exists counters, w, []. cbn. rewrite app_nil_r. repeat split. constructor.
  - cbn [process_entries].
    destruct (negb (nonempty (entry_content e))
              || (List.length (strip (entry_content e)) <? 10)) eqn:Eskip.
    + destruct (IH counters w) as (c & w' & new & E & Hh & Hf).
      exists c, w', new. split; [exact E|]. split; [exact Hh|].
      eapply Forall_impl; [|exact Hf]. intros x (e0 & Hin & H).
      exists e0. split; [right; exact Hin | exact H].
    + apply orb_false_iff in Eskip. destruct Eskip as [_ Hlong].
      apply Nat.ltb_ge in Hlong.
      unfold bind at 1.
      destruct (@extract_facts_with_llm_clean env config section_header
                  (entry_content e) (timestamp e) w)
        as (facts & w1 & E1 & Hclean & _ & Hh1).
      assert (F1 : add_calls (history w1) = add_calls (history w))
        by (destruct Hh1 as [-> | (x & ->)]; reflexivity).
      rewrite E1. unfold bind at 1.
      destruct (add_facts_sourced facts (timestamp e) user_id (snd counters) w1)
        as (added & w2 & new1 & E2 & Hh2 & Hf2).
      rewrite E2. unfold bind at 1, sleep.
      match goal with
      | |- context [process_entries env config rest section_header user_id
                      ?c ?w3] =>
          destruct (IH c w3) as (c' & w4 & new2 & E3 & Hh3 & Hf3)
      end.
      exists c', w4, (new1 ++ new2). split; [exact E3|].
      cbn [history] in *.
      split; [rewrite Hh3, Hh2, F1, app_assoc; reflexivity|].
      apply Forall_app. split.
      * eapply Forall_impl; [|exact Hf2]. intros x (Hu & Hin & Hm).
        exists e. split; [left; reflexivity|].
        split; [exact Hu|]. split; [exact Hm|].
        split; [unfold too_short; lia|].
        split; [rewrite Forall_forall in Hclean; apply Hclean; exact Hin|].
        exists w, facts, w1. split; [exact E1 | exact Hin].
      * eapply Forall_impl; [|exact Hf3]. intros x (e0 & Hin & H).
        exists e0. split; [right; exact Hin | exact H].
Qed.

Lemma process_sections_sourced (ss : list section) (user_id : text) :
  forall counters,
  sourced env config (or_else (Some user_id) (self_user_id config)) ss
          (process_sections env config ss user_id counters).
Proof.
  induction ss as [|s rest IH]; intros counters w.
  - exists counters, w, []. cbn. rewrite app_nil_r. repeat split. constructor.
  - cbn [process_sections]. unfold bind at 1, log at 1.
    unfold bind at 1.
    match goal with
    | |- context [extract_conversation_entries env (content s) ?w0] =>
        destruct (@extract_conversation_entries_quiet env (content s) w0)
          as (entries & w1 & E1 & F1);
        pose proof (entries_of_run s w0 E1) as Hentries
    end.
    rewrite E1. unfold bind at 1, log at 1. unfold bind at 1.
    match goal with
    | |- context [process_entries env config entries (header s) user_id
                    counters ?w2] =>
        destruct (@process_entries_sourced entries (header s) user_id
                    counters w2)
          as (c1 & w3 & new1 & E2 & Hh2 & Hf2)
    end.
    rewrite E2.
    destruct (IH c1 w3) as (c2 & w4 & new2 & E3 & Hh3 & Hf3).
    exists c2, w4, (new1 ++ new2). split; [exact E3|].
    cbn [history] in *.
    split; [rewrite Hh3, Hh2, F1, app_assoc; reflexivity|].
    apply Forall_app. split.
    + eapply Forall_impl; [|exact Hf2]. intros x (e & Hin & H).
      exists s, e. split; [left; reflexivity|].
      split; [rewrite Hentries; exact Hin | exact H].
    + eapply Forall_impl; [|exact Hf3]. intros x (s0 & e & Hs & Hin & H).
      exists s0, e. split; [right; exact Hs|]. split; assumption.
Qed.

End Provenance.

(** X13.  [process_file] never raises, and its two counters keep the
    books of the backend: the facts added are at most the facts
    extracted, and every extracted fact cost at least one and at most
    three calls of [memory.add]. *)
Theorem process_file_budget (env : Env) (config : Config) (file_path : text)
    (user_id : option text) (w : World) :
  exists total_facts added_facts w' new,
    process_file env config file_path user_id w
    = (Ok (total_facts, added_facts), w')
    /\ add_calls (history w') = add_calls (history w) ++ new
    /\ added_facts <= total_facts
    /\ total_facts <= List.length new <= 3 * total_facts.
Proof.
  destruct (@process_file_accounts env config file_path user_id w)
    as ([total added] & w' & new & k & E & Hh & Ht & Hc & Hle & Hl & _).
  cbn [fst snd] in *. exists total, added, w', new.
  split; [exact E|]. split; [exact Hh|]. lia.
Qed.

(** X14.  Every call of [memory.add] that [process_file] makes files a
    fact of an entry of the file it read: there is a section of the file
    and an entry of that section, long enough to be processed, such that
    the fact is one of those the Fact Extractor returned for this entry
    (so it is not empty, has no surrounding whitespace and holds no
    newline), the metadata is empty when this entry has no timestamp and
    else holds the ISO form of this entry's timestamp under the key
    [timestamp], and the user id is the one given, or the configured one
    when none or an empty one is given.  When the file cannot be read,
    no call is made. *)
Theorem process_file_calls_filed (env : Env) (config : Config)
    (file_path : text) (user_id : option text) (w : World) :
  exists counters w' new,
    process_file env config file_path user_id w = (Ok counters, w')
    /\ add_calls (history w') = add_calls (history w) ++ new
    /\ match read_file env (history w) file_path with
       | Ok markdown_text =>
           Forall (filed_from env config
                     (or_else user_id (self_user_id config))
                     (extract_sections markdown_text)) new
       | Raise _ => new = []
       end.
Proof.
  unfold process_file. unfold bind at 1, log at 1.
  unfold try_except, bind at 1, call_read_file.
  cbn [history logs sleeps].
  destruct (read_file env (history w) file_path) as [markdown_text | e].
  - unfold bind at 1, log at 1. unfold bind at 1.
    match goal with
    | |- context [process_sections env config ?ss ?u (0, 0) ?w1] =>
        destruct (@process_sections_sourced env config ss u (0, 0) w1)
          as (c & w2 & new & E & Hh & Hf)
    end.
    rewrite or_else_idem in Hf.
    rewrite E. run_monad. eexists c, _, new.
    split; [reflexivity|]. split; [exact Hh | exact Hf].
  - run_monad. eexists (0, 0), _, []. split; [reflexivity|].
    cbn. rewrite app_nil_r. split; reflexivity.
Qed.

(** A file with a slash-dated and an ISO-dated bullet: each of the two
    calls carries the timestamp of its own entry. *)
Example calls_carry_their_entry_timestamp :
  map (fun x => ac_metadata (fst x))
      (add_calls (history (snd
         (process_file
            (sample_env (flaky_add 0) (Ok None) (answer "User loves pizza")
                        (Ok two_dated_file))
            sample_config (txt "notes.md") None empty_world))))
  = [Some [(txt "timestamp", txt "2025-03-29T09:10:00")];
     Some [(txt "timestamp", txt "2025-04-01T18:30:00")]].
Proof. vm_compute. reflexivity. Qed.

(** X15.  A file that cannot be read gives [(0, 0)]: the error is
    logged, the read is the only call made, and nothing else happens. *)
Theorem process_file_unreadable (env : Env) (config : Config)
    (file_path : text) (user_id : option text) (w : World) (e : exn) :
  read_file env (history w) file_path = Raise e ->
  process_file env config file_path user_id w
  = (Ok (0, 0),
     MkWorld (logs w ++ [(INFO, ProcessingFile file_path);
                         (ERROR, ErrorProcessingFile file_path e)])
             (sleeps w)
             (record_read (history w) (file_path, Raise e))).
Proof.
  intros H. unfold process_file. run_monad. rewrite H.
  cbn [logs sleeps history]. rewrite <- app_assoc. reflexivity.
Qed.

Lemma process_file_unreadable_witness :
  process_file env_unreadable sample_config (txt "missing.md") None empty_world
  = (Ok (0, 0),
     MkWorld (logs empty_world
              ++ [(INFO, ProcessingFile (txt "missing.md"));
                  (ERROR, ErrorProcessingFile (txt "missing.md")
                            (error OSError "No such file or directory"))])
             (sleeps empty_world)
             (record_read (history empty_world)
                (txt "missing.md",
                 Raise (error OSError "No such file or directory")))).
Proof.
  apply (@process_file_unreadable env_unreadable sample_config
           (txt "missing.md") None empty_world
           (error OSError "No such file or directory")).
  reflexivity.
Defined.

(** X16.  With the LLM out of reach (the configuration lacks the server
    or the model, or no call gives a usable answer), [process_file]
    returns [(0, 0)] for every file and never calls [memory.add]. *)
Theorem process_file_without_llm (env : Env) (config : Config)
    (file_path : text) (user_id : option text) (w : World) :
  llm_configured config = false \/ llm_unavailable env ->
  exists w',
    process_file env config file_path user_id w = (Ok (0, 0), w')
    /\ add_calls (history w') = add_calls (history w).
Proof.
  intros H. unfold process_file. unfold bind at 1, log at 1.
  unfold try_except, bind at 1, call_read_file.
  cbn [history logs sleeps].
  destruct (read_file env (history w) file_path) as [markdown_text | e].
  - unfold bind at 1, log at 1. unfold bind at 1.
    match goal with
    | |- context [process_sections env config ?ss ?u (0, 0) ?w1] =>
        destruct (@process_sections_idle env config ss u H (0, 0) w1)
          as (w2 & E & Hh)
    end.
    rewrite E. run_monad. eexists. split; [reflexivity|]. exact Hh.
  - run_monad. eexists. split; reflexivity.
Qed.

Lemma process_file_without_llm_witness :
  fst (process_file (env_pizza (flaky_add 0)) sample_config (txt "notes.md")
                    None empty_world) = Ok (1, 1)
  /\ exists w',
       process_file env_overloaded sample_config (txt "notes.md") None
                    empty_world = (Ok (0, 0), w')
       /\ add_calls (history w') = add_calls (history empty_world).
Proof.
  split; [vm_compute; reflexivity|].
  apply (@process_file_without_llm env_overloaded sample_config
           (txt "notes.md") None empty_world).
  right. exact overloaded_unavailable.
Defined.

(** X17.  Entries whose content, trimmed, has fewer than ten characters
    are skipped by [process_file]'s loop: no prompt is loaded, no
    request is sent, nothing is added, logged or slept, and the counters
    stay. *)
Theorem short_entries_skipped (env : Env) (config : Config)
    (entries : list entry) (section_header user_id : text)
    (counters : nat * nat) (w : World) :
  Forall too_short entries ->
  process_entries env config entries section_header user_id counters w
  = (Ok counters, w).
Proof.
  induction 1 as [|e rest He _ IH]; [reflexivity|].
  cbn [process_entries]. unfold too_short in He.
  apply Nat.ltb_lt in He. rewrite He, orb_true_r. exact IH.
Qed.

Lemma short_entries_skipped_witness :
  process_entries (env_pizza (flaky_add 0)) sample_config short_entries
                  (txt "Notes") (txt "alice") (4, 2) empty_world
  = (Ok (4, 2), empty_world).
Proof.
  apply (@short_entries_skipped (env_pizza (flaky_add 0)) sample_config
           short_entries (txt "Notes") (txt "alice") (4, 2) empty_world).
  repeat constructor.
Defined.

End ProcessExtras.

(* ===================================================================== *)
(** * The pauses of the File Processor *)
(* ===================================================================== *)

Module TimingExtras.
Import Re Datetime Runtime Notions MoreNotions TextFacts StripFacts.
Import AddFactFacts Frames MemoryManager MarkdownProcessor EntryFacts.
Import ProcessFacts OllamaExtras FactExtras ProcessExtras Samples.

Section Timing.
Variable env : Env.
Variable config : Config.

(** Reading the entries of a section takes no time. *)
Lemma entries_of_matches_run (ms : list rmatch) :
  forall w, exists es w',
    entries_of_matches env ms w = (Ok es, w')
    /\ history w' = history w /\ sleeps w' = sleeps w.
Proof.
  induction ms as [|m ms IH]; intros w.
  - exists [], w. repeat split.
  - cbn [entries_of_matches]. unfold bind at 1, entry_of_match.
    unfold bind at 1, parse_date.
    destruct (parse_date_loop_returns env date_patterns (strip (group m 1)) w)
      as (r & w1 & E1 & Hh1 & Hs1).
    rewrite E1.
    assert (H : exists e,
              (match r with
               | Some ts =>
                   match split1 split_pattern (strip (group m 1)) with
                   | _ :: part1 :: _ => ret (MkEntry (Some ts) (strip part1))
                   | _ => ret (MkEntry (Some ts) (strip (group m 1)))
                   end
               | None => ret (MkEntry None (strip (group m 1)))
               end) w1 = (Ok e, w1)).
    { destruct r as [ts|]; [|eexists; reflexivity].
      destruct (split1 split_pattern (strip (group m 1))) as [|p0 [|p1 ps]];
        eexists; reflexivity. }
    destruct H as (e & He). rewrite He.
    unfold bind at 1.
    destruct (IH w1) as (es & w2 & E2 & Hh2 & Hs2). rewrite E2.
    exists (e :: es), w2. unfold ret. repeat split; congruence.
Qed.

Lemma extract_conversation_entries_run (section_content : text) (w : World) :
  exists es w',
    extract_conversation_entries env section_content w = (Ok es, w')
    /\ history w' = history w /\ sleeps w' = sleeps w.
Proof.
  unfold extract_conversation_entries. unfold bind at 1.
  destruct (entries_of_matches_run (finditer entry_pattern section_content) w)
    as (es & w1 & E & Hh & Hs).
  rewrite E.
  destruct (negb (nonempty es) && nonempty (strip section_content)).
  - run_monad. eexists _, _. split; [reflexivity|]. split; assumption.
  - exists es, w1. repeat split; assumption.
Qed.

(** The pauses of [add_fact]: one of two seconds after each call but
    the last. *)
Lemma add_fact_pauses (fact : text) (user_id : option text)
    (metadata : option (list (text * text))) (w : World) :
  exists r w' new,
    add_fact env config fact user_id metadata 3 w = (Ok r, w')
    /\ add_calls (history w') = add_calls (history w) ++ new
    /\ 1 <= List.length new
    /\ sleeps w' = sleeps w ++ repeat 2000 (List.length new - 1).
Proof.
  unfold add_fact, range.
  destruct (@add_fact_loop_run env fact (or_else user_id (self_user_id config))
              metadata 3 (Z.to_nat 3) 0 w)
    as (r & w' & new & E & Hh & _ & Hs & Hcases).
  { cbn. lia. }
  exists r, w', new. split; [exact E|]. split; [rewrite Hh; reflexivity|].
  split; [|exact Hs].
  change (Z.to_nat 3) with 3 in Hcases.
  destruct Hcases as [(fails & -> & _ & _) | (Hl & _)].
  - rewrite length_app. cbn. lia.
  - lia.
Qed.

Lemma add_facts_pauses (facts : list text) (ts : option datetime)
    (user_id : text) :
  forall (added : nat) (w : World), exists added' w' new,
    add_facts env config facts ts user_id added w = (Ok added', w')
    /\ add_calls (history w') = add_calls (history w) ++ new
    /\ List.length facts <= List.length new
    /\ sleeps w'
       = sleeps w ++ repeat 2000 (List.length new - List.length facts).
Proof.
  induction facts as [|fact rest IH]; intros added w.
  - exists added, w, []. cbn. rewrite !app_nil_r. repeat split; auto.
  - cbn [add_facts]. unfold bind at 1.
    match goal with
    | |- context [add_fact env config fact ?u ?md 3 w] =>
        destruct (add_fact_pauses fact u md w)
          as (r & w1 & new1 & E & Hh & Hl & Hs)
    end.
    rewrite E.
    destruct (IH (if has_results r then added + 1 else added) w1)
      as (added' & w2 & new2 & E2 & Hh2 & Hl2 & Hs2).
    exists added', w2, (new1 ++ new2). split; [exact E2|].
    split; [rewrite Hh2, Hh, app_assoc; reflexivity|].
    rewrite length_app. cbn [List.length]. split; [lia|].
    rewrite Hs2, Hs, <- app_assoc, <- repeat_app. do 2 f_equal. lia.
Qed.

Lemma process_entries_timed (entries : list entry)
    (section_header user_id : text) :
  forall counters,
  timed (process_entries env config entries section_header user_id counters)
        counters.
Proof.
  induction entries as [|e rest IH]; intros counters w.
  - exists counters, w, [], [], 0. cbn. rewrite !app_nil_r.
    repeat split; auto.
  - cbn [process_entries].
    destruct (negb (nonempty (entry_content e))
              || (List.length (strip (entry_content e)) <? 10)); [apply IH|].
    unfold bind at 1.
    destruct (@extract_facts_with_llm_clean env config section_header
                (entry_content e) (timestamp e) w)
      as (facts & w1 & E1 & _ & Hs1 & Hh1).
    assert (F1 : add_calls (history w1) = add_calls (history w))
      by (destruct Hh1 as [-> | (x & ->)]; reflexivity).
    rewrite E1. unfold bind at 1.
    destruct (add_facts_pauses facts (timestamp e) user_id (snd counters) w1)
      as (added & w2 & new1 & E2 & Hh2 & Hl2 & Hs2).
    rewrite E2. unfold bind at 1, sleep.
    match goal with
    | |- context [process_entries env config rest section_header user_id ?c ?w3] =>
        destruct (IH c w3)
          as (c' & w4 & new2 & sl & k & E3 & Hh3 & Ht3 & Hs3 & Hall & Hcount)
    end.
    cbn [history sleeps fst snd] in *.
    exists c', w4, (new1 ++ new2),
           (repeat 2000 (List.length new1 - List.length facts) ++ 500 :: sl),
           (List.length facts + k).
    split; [exact E3|].
    split; [rewrite Hh3, Hh2, F1, app_assoc; reflexivity|].
    split; [lia|].
    split; [rewrite Hs3, Hs2, Hs1, <- !app_assoc; reflexivity|].
    split.
    + apply Forall_app. split.
      * apply Forall_forall. intros x Hx. apply repeat_spec in Hx. right.
        exact Hx.
      * constructor; [left; reflexivity | exact Hall].
    + rewrite count_occ_app, count_occ_repeat_eq by reflexivity.
      rewrite count_occ_cons_neq by discriminate.
      rewrite length_app. lia.
Qed.

Lemma process_sections_timed (ss : list section) (user_id : text) :
  forall counters,
  timed (process_sections env config ss user_id counters) counters.
Proof.
  induction ss as [|s rest IH]; intros counters w.
  - exists counters, w, [], [], 0. cbn. rewrite !app_nil_r.
    repeat split; auto.
  - cbn [process_sections]. unfold bind at 1, log at 1.
    unfold bind at 1.
    match goal with
    | |- context [extract_conversation_entries env (content s) ?w0] =>
        destruct (extract_conversation_entries_run (content s) w0)
          as (entries & w1 & E1 & Hh1 & Hs1)
    end.
    rewrite E1. unfold bind at 1, log at 1. unfold bind at 1.
    match goal with
    | |- context [process_entries env config entries (header s) user_id counters ?w2] =>
        destruct (@process_entries_timed entries (header s) user_id counters w2)
          as (c1 & w3 & new1 & sl1 & k1 & E2 & Hh2 & Ht2 & Hs2 & Hall2 & Hc2)
    end.
    rewrite E2.
    destruct (IH c1 w3)
      as (c2 & w4 & new2 & sl2 & k2 & E3 & Hh3 & Ht3 & Hs3 & Hall3 & Hc3).
    exists c2, w4, (new1 ++ new2), (sl1 ++ sl2), (k1 + k2).
    split; [exact E3|]. cbn [history sleeps fst snd] in *.
    split; [rewrite Hh3, Hh2, Hh1, app_assoc; reflexivity|].
    split; [lia|].
    split; [rewrite Hs3, Hs2, Hs1, app_assoc; reflexivity|].
    split; [apply Forall_app; split; assumption|].
    rewrite count_occ_app, length_app. lia.
Qed.

Lemma process_file_timed (file_path : text) (user_id : option text) :
  timed (process_file env config file_path user_id) (0, 0).
Proof.
  intros w. unfold process_file. unfold bind at 1, log at 1.
  unfold try_except, bind at 1, call_read_file.
  cbn [history logs sleeps].
  destruct (read_file env (history w) file_path) as [markdown_text | e].
  - unfold bind at 1, log at 1. unfold bind at 1.
    match goal with
    | |- context [process_sections env config ?ss ?u (0, 0) ?w1] =>
        destruct (@process_sections_timed ss u (0, 0) w1)
          as (c & w2 & new & sl & k & E & Hh & Ht & Hs & Hall & Hc)
    end.
    rewrite E. run_monad.
    exists c, (MkWorld
                 (((logs w2 ++ [(INFO, CompletedFile file_path)])
                   ++ [(INFO, TotalFacts (fst c))])
                  ++ [(INFO, AddedFacts (snd c))])
                 (sleeps w2) (history w2)), new, sl, k.
    split; [reflexivity|]. split; [exact Hh|]. split; [exact Ht|].
    split; [exact Hs|]. split; [exact Hall | exact Hc].
  - run_monad. eexists (0, 0), _, [], [], 0. split; [reflexivity|].
    cbn. rewrite !app_nil_r. repeat split; auto.
Qed.

End Timing.

(** X29.  [process_file] pauses only for half a second (after an entry
    handed to the LLM) or for two seconds (before a retry of
    [memory.add]), and the pauses of two seconds are exactly the calls
    of [memory.add] beyond one per extracted fact. *)
Theorem process_file_pauses (env : Env) (config : Config) (file_path : text)
    (user_id : option text) (w : World) :
  exists total_facts added_facts w' new pauses,
    process_file env config file_path user_id w
    = (Ok (total_facts, added_facts), w')
    /\ add_calls (history w') = add_calls (history w) ++ new
    /\ sleeps w' = sleeps w ++ pauses
    /\ Forall (fun ms => ms = 500 \/ ms = 2000) pauses
    /\ count_occ Nat.eq_dec pauses 2000 + total_facts = List.length new.
Proof.
  destruct (@process_file_timed env config file_path user_id w)
    as ([total added] & w' & new & sl & k & E & Hh & Ht & Hs & Hall & Hc).
  cbn [fst] in Ht. exists total, added, w', new, sl.
  split; [exact E|]. split; [exact Hh|]. split; [exact Hs|].
  split; [exact Hall | lia].
Qed.

(** The file of the scenario with a backend that fails twice: three
    calls for the one fact, two pauses of two seconds and one of half a
    second. *)
Example pauses_with_a_flaky_backend :
  let ran := process_file (env_pizza (flaky_add 2)) sample_config
               (txt "notes.md") None empty_world in
  fst ran = Ok (1, 1)
  /\ sleeps (snd ran) = [2000; 2000; 500]
  /\ List.length (add_calls (history (snd ran))) = 3.
Proof. repeat split; vm_compute; reflexivity. Qed.

(** X30.  With [max_retries] of zero or less, [add_fact] makes no
    attempt: it returns [None] at once, without a call to the backend,
    a log line or a pause. *)
Theorem add_fact_without_attempts (env : Env) (config : Config) (fact : text)
    (user_id : option text) (metadata : option (list (text * text)))
    (max_retries : Z) (w : World) :
  (max_retries <= 0)%Z ->
  add_fact env config fact user_id metadata max_retries w = (Ok None, w).
Proof.
  intros H. unfold add_fact, range.
  destruct max_retries as [|p|p]; [reflexivity | lia | reflexivity].
Qed.

Lemma add_fact_without_attempts_witness :
  add_fact (env_pizza (flaky_add 0)) sample_config (txt "Bruce likes pizza")
           None None 0 empty_world
  = (Ok None, empty_world).
Proof.
  apply (@add_fact_without_attempts (env_pizza (flaky_add 0)) sample_config
           (txt "Bruce likes pizza") None None 0%Z empty_world).
  lia.
Defined.

End TimingExtras.

(* ===================================================================== *)
(** * Searching and chatting *)
(* ===================================================================== *)

Module ChatExtras.
Import Re Datetime Runtime Notions MoreNotions TextFacts StripFacts.
Import AddFactFacts Frames MemoryManager OllamaExtras ProcessExtras Samples.

Lemma search_memories_effects (env : Env) (config : Config) (query : text)
    (user_id : option text) (limit : Z) (w : World) :
  let sc := SearchCall query (or_else user_id (self_user_id config)) limit in
  let o := memory_search env (history w) sc in
  exists lv msg,
    search_memories env config query user_id limit w
    = (Ok (absorbed o),
       MkWorld (logs w ++ [(lv, msg)]) (sleeps w)
               (record_search (history w) (sc, o)))
    /\ (absorbed o = None <-> lv = ERROR)
    /\ (absorbed o = None <-> (o = Ok None \/ raises o = true)).
Proof.
  intros sc o. unfold search_memories. run_monad. fold sc. fold o.
  destruct o as [[d|] | e]; run_monad; cbn [absorbed raises].
  - exists DEBUG, (SearchReturned query
                     (List.length (match results d with
                                   | Some l => l | None => [] end))).
    split; [reflexivity|].
    split; split; try discriminate. intros [H | H]; discriminate.
  - eexists ERROR, _. split; [reflexivity|]. repeat split; auto.
  - eexists ERROR, _. split; [reflexivity|]. repeat split; auto.
Qed.

(** X18.  [search_memories] never raises and makes exactly one search,
    for the user id given or the configured one.  It logs exactly one
    line, and that line is an error exactly when it returns [None],
    which is exactly when the backend raised or itself returned
    [None]. *)
Theorem search_failure_logged (env : Env) (config : Config) (query : text)
    (user_id : option text) (limit : Z) (w : World) :
  let sc := SearchCall query (or_else user_id (self_user_id config)) limit in
  let o := memory_search env (history w) sc in
  exists r lv msg,
    search_memories env config query user_id limit w
    = (Ok r,
       MkWorld (logs w ++ [(lv, msg)]) (sleeps w)
               (record_search (history w) (sc, o)))
    /\ (r = None <-> lv = ERROR)
    /\ (r = None <-> (o = Ok None \/ raises o = true)).
Proof.
  intros sc o.
  destruct (search_memories_effects env config query user_id limit w)
    as (lv & msg & H).
  exists (absorbed o), lv, msg. exact H.
Qed.

(** [chat] is the one search followed by the call to Ollama, whose
    exception becomes the apology. *)
Lemma chat_run (env : Env) (config : Config) (query : text)
    (user_id : option text) (max_context_memories : option Z) (w : World) :
  let uid := or_else user_id (self_user_id config) in
  let limit :=
    or_else_int max_context_memories
      (match chat_max_context_memories config with
       | Some n => n | None => 5%Z end) in
  let sc := SearchCall query uid limit in
  let o := memory_search env (history w) sc in
  exists p w1,
    history w1 = record_search (history w) (sc, o)
    /\ sleeps w1 = sleeps w
    /\ chat env config query user_id max_context_memories w
       = (let (r, w2) := _call_ollama_api env config p w1 in
          match r with
          | Ok a => (Ok a, w2)
          | Raise e =>
              (Ok (sorry_prefix ++ exn_msg e),
               MkWorld (logs w2 ++ [(ERROR, ChatError e)]) (sleeps w2)
                       (history w2))
          end).
Proof.
  intros uid limit sc o. unfold chat. fold uid. fold limit.
  unfold try_except at 1, bind at 1, log at 1. unfold bind at 1.
  match goal with
  | |- context [search_memories env config query (Some uid) limit ?w0] =>
      destruct (search_memories_effects env config query (Some uid) limit w0)
        as (lv & msg & E & _)
  end.
  assert (Hu : or_else (Some uid) (self_user_id config) = uid)
    by apply or_else_idem.
  cbn [history logs sleeps] in E. rewrite !Hu in E. fold sc in E. fold o in E.
  rewrite E. unfold bind at 1.
  destruct (has_results (absorbed o)); cbn [negb]; run_monad;
    match goal with
    | |- context [_call_ollama_api env config ?pp ?ww] =>
        exists pp, ww; split; [reflexivity|]; split; [reflexivity|];
        destruct (_call_ollama_api env config pp ww) as [[a | e] w2];
        reflexivity
    end.
Qed.

(** X19.  [chat] never raises and never sleeps.  It makes exactly one
    search, whose limit is the argument when that is not zero, else the
    configured value, else 5, and after it at most one HTTP call; it
    never calls [memory.add] and reads no file. *)
Theorem chat_effects (env : Env) (config : Config) (query : text)
    (user_id : option text) (max_context_memories : option Z) (w : World) :
  let uid := or_else user_id (self_user_id config) in
  let limit :=
    match max_context_memories with
    | Some n => if (n =? 0)%Z then None else Some n
    | None => None
    end in
  let limit :=
    match limit, chat_max_context_memories config with
    | Some n, _ => n
    | None, Some n => n
    | None, None => 5%Z
    end in
  let sc := SearchCall query uid limit in
  let o := memory_search env (history w) sc in
  exists answer w',
    chat env config query user_id max_context_memories w = (Ok answer, w')
    /\ sleeps w' = sleeps w
    /\ (history w' = record_search (history w) (sc, o)
        \/ exists x,
             history w' = record_post (record_search (history w) (sc, o)) x).
Proof.
  intros uid limit0 limit sc o.
  assert (Hlimit : limit
                   = or_else_int max_context_memories
                       (match chat_max_context_memories config with
                        | Some n => n | None => 5%Z end)).
  { unfold limit, limit0, or_else_int.
    destruct max_context_memories as [n|]; [destruct (n =? 0)%Z|];
      destruct (chat_max_context_memories config); reflexivity. }
  destruct (chat_run env config query user_id max_context_memories w)
    as (p & w1 & Hh & Hs & E).
  fold uid in Hh. rewrite <- Hlimit in Hh. fold sc in Hh. fold o in Hh.
  rewrite E. clear E.
  destruct (llm_configured config) eqn:Ec.
  - destruct (@call_ollama_api_run env config p w1 Ec) as (r & _ & Hrun).
    cbn zeta in Hrun. destruct Hrun as (Hh2 & Hs2 & _).
    destruct (_call_ollama_api env config p w1) as [[a | e] w2];
      cbn [fst snd] in *; eexists _, _; (split; [reflexivity|]);
      cbn [sleeps history]; rewrite Hh2, Hs2, Hh, Hs;
      (split; [reflexivity | right; eexists; reflexivity]).
  - destruct (@call_ollama_api_unconfigured env config p w1 Ec) as (e & E & _).
    rewrite E. eexists _, _. split; [reflexivity|].
    cbn [sleeps history]. split; [exact Hs | left; exact Hh].
Qed.

(** X20.  What [chat] returns is either an answer free of surrounding
    whitespace, in which case the LLM was reached and no error was
    logged after the search, or the apology that ends in the message of
    an exception, in which case the last line logged is that chat
    error. *)
Theorem chat_answer_shape (env : Env) (config : Config) (query : text)
    (user_id : option text) (max_context_memories : option Z) (w : World) :
  exists answer w',
    chat env config query user_id max_context_memories w = (Ok answer, w')
    /\ ((trimmed answer
         /\ exists earlier r response,
              posts (history w') = earlier ++ [(r, Ok response)]
              /\ http_error (status_code response) = false)
        \/ exists e lg,
             answer = sorry_prefix ++ exn_msg e
             /\ logs w' = lg ++ [(ERROR, ChatError e)]).
Proof.
  destruct (chat_run env config query user_id max_context_memories w)
    as (p & w1 & Hh & Hs & E).
  rewrite E. clear E.
  destruct (llm_configured config) eqn:Ec.
  - destruct (@call_ollama_api_run env config p w1 Ec) as (r & _ & Hrun).
    cbn zeta in Hrun. destruct Hrun as (Hh2 & _ & Hm).
    destruct (_call_ollama_api env config p w1) as [[a | e] w2];
      cbn [fst snd] in *; eexists _, _; (split; [reflexivity|]).
    + left. destruct Hm as (Ht & _ & response & body & Ho & Hstatus & _).
      split; [exact Ht|]. exists (posts (history w1)), r, response.
      rewrite Hh2. cbn [record_post posts]. rewrite Ho.
      split; [reflexivity | exact Hstatus].
    + right. exists e, (logs w2). split; reflexivity.
  - destruct (@call_ollama_api_unconfigured env config p w1 Ec) as (e & E & _).
    rewrite E. eexists _, _. split; [reflexivity|].
    right. exists e, (logs w1). split; reflexivity.
Qed.

(** X21.  Without the server or the model in the configuration, [chat]
    still searches, sends no request, and returns the apology that names
    the missing key. *)
Theorem chat_unconfigured (env : Env) (config : Config) (query : text)
    (user_id : option text) (max_context_memories : option Z) (w : World) :
  llm_configured config = false ->
  exists e w',
    chat env config query user_id max_context_memories w
    = (Ok (sorry_prefix ++ exn_msg e), w')
    /\ exn_cls e = KeyError
    /\ posts (history w') = posts (history w)
    /\ List.length (search_calls (history w'))
       = S (List.length (search_calls (history w))).
Proof.
  intros Ec.
  destruct (chat_run env config query user_id max_context_memories w)
    as (p & w1 & Hh & Hs & E).
  rewrite E. clear E.
  destruct (@call_ollama_api_unconfigured env config p w1 Ec) as (e & E & Hk).
  rewrite E. exists e. eexists. split; [reflexivity|].
  split; [exact Hk|]. cbn [history]. rewrite Hh. cbn [record_search posts search_calls].
  split; [reflexivity|]. rewrite length_app. cbn. lia.
Qed.

Lemma chat_unconfigured_witness :
  fst (chat env_search_down bare_config (txt "Where do I live?") None None
            empty_world)
  = Ok (txt "Sorry, I encountered an error: 'memory_config'")
  /\ exists e w',
       chat env_search_down bare_config (txt "Where do I live?") None None
            empty_world
       = (Ok (sorry_prefix ++ exn_msg e), w')
       /\ exn_cls e = KeyError
       /\ posts (history w') = posts (history empty_world)
       /\ List.length (search_calls (history w'))
          = S (List.length (search_calls (history empty_world))).
Proof.
  split; [vm_compute; reflexivity|].
  apply (@chat_unconfigured env_search_down bare_config
           (txt "Where do I live?") None None empty_world).
  reflexivity.
Defined.

End ChatExtras.

(* ===================================================================== *)
(** * Listing and resetting the memories *)
(* ===================================================================== *)

Module AdminExtras.
Import Runtime Notions MoreNotions MemoryManager State Admin ProcessExtras.

Ltac run_state :=
  unfold st_try, st_bind, st_ret, st_raise, st_lift, admin_log,
         call_get_all, call_delete;
  cbn [fst snd calls admin_logs listings deletions].

Section Reset.
Variable backend : Backend.
Variable config : Config.

Lemma get_all_memories_run (user_id : option text) (s : Store) :
  let uid := or_else user_id (self_user_id config) in
  let o := memory_get_all backend (calls s) uid in
  exists lv msg,
    get_all_memories backend config user_id s
    = (Ok (absorbed o),
       MkStore (MkCalls (listings (calls s) ++ [(uid, o)])
                        (deletions (calls s)))
               (admin_logs s ++ [(lv, msg)]))
    /\ (absorbed o = None <-> lv = ERROR)
    /\ is_delete_failure (lv, msg) = false
    /\ forall e, msg <> ErrorDuringReset e.
Proof.
  intros uid o. unfold get_all_memories. run_state. fold uid. fold o.
  destruct o as [[d|] | e]; cbn [absorbed].
  - eexists DEBUG, _. split; [reflexivity|].
    repeat split; try discriminate.
  - eexists ERROR, _. split; [reflexivity|].
    repeat split; try discriminate.
  - eexists ERROR, _. split; [reflexivity|].
    repeat split; try discriminate.
Qed.

(** The loop tries every record once, in order, whatever the earlier
    deletions did. *)
Lemma delete_loop_run (memories : list memory_record) :
  forall (deleted_count : nat) (s : Store),
  exists s' new lg,
    delete_loop backend memories deleted_count s
    = (Ok (deleted_count + List.length (filter (@returned _ _) new)), s')
    /\ listings (calls s') = listings (calls s)
    /\ deletions (calls s') = deletions (calls s) ++ new
    /\ map fst new = map rec_id memories
    /\ deleted_by backend (calls s) new
    /\ admin_logs s' = admin_logs s ++ lg
    /\ forallb is_delete_failure lg = true
    /\ List.length (filter (@returned _ _) new) + List.length lg
       = List.length memories.
Proof.
  induction memories as [|memory rest IH]; intros n s.
  - exists s, [], []. cbn. rewrite !app_nil_r, Nat.add_0_r. repeat split.
  - cbn [delete_loop]. unfold st_bind at 1. run_state.
    destruct (memory_delete backend (calls s) (rec_id memory)) as [u | e] eqn:Ed;
      [destruct u|].
    + match goal with
      | |- context [delete_loop backend rest (n + 1) ?s1] =>
          destruct (IH (n + 1) s1)
            as (s' & new & lg & E & Hl & Hd & Hids & Hby & Hlg & Hf & Hn)
      end.
      cbn [calls listings deletions admin_logs] in *.
      exists s', ((rec_id memory, Ok tt) :: new), lg.
      cbn [filter returned raises snd negb List.length map fst deleted_by].
      split; [rewrite E; f_equal; f_equal; lia|].
      split; [exact Hl|]. split; [rewrite Hd, <- app_assoc; reflexivity|].
      split; [f_equal; exact Hids|].
      split; [split; [symmetry; exact Ed|]; destruct (calls s); exact Hby|].
      split; [exact Hlg|]. split; [exact Hf | lia].
    + match goal with
      | |- context [delete_loop backend rest n ?s1] =>
          destruct (IH n s1)
            as (s' & new & lg & E & Hl & Hd & Hids & Hby & Hlg & Hf & Hn)
      end.
      cbn [calls listings deletions admin_logs] in *.
      exists s', ((rec_id memory, Raise e) :: new),
             ((ERROR, FailedToDelete (rec_id memory) e) :: lg).
      cbn [filter returned raises snd negb List.length map fst deleted_by
           forallb is_delete_failure].
      split; [exact E|].
      split; [exact Hl|]. split; [rewrite Hd, <- app_assoc; reflexivity|].
      split; [f_equal; exact Hids|].
      split; [split; [symmetry; exact Ed|]; destruct (calls s); exact Hby|].
      split; [rewrite Hlg, <- app_assoc; reflexivity|].
      split; [exact Hf | lia].
Qed.

Lemma no_results_nil (r : pyresult) : has_results r = false -> results_of r = [].
Proof. destruct r as [[[[|x l]|]]|]; cbn; congruence. Qed.

(** What a reset does, in one statement. *)
Lemma reset_memories_run (user_id : option text) (s : Store) :
  let uid := or_else user_id (self_user_id config) in
  let o := memory_get_all backend (calls s) uid in
  let listed := MkCalls (listings (calls s) ++ [(uid, o)]) (deletions (calls s)) in
  exists s' new lg,
    reset_memories backend config user_id s
    = (Ok (List.length (filter (@returned _ _) new)), s')
    /\ listings (calls s') = listings listed
    /\ deletions (calls s') = deletions (calls s) ++ new
    /\ map fst new = map rec_id (results_of (absorbed o))
    /\ deleted_by backend listed new
    /\ admin_logs s' = admin_logs s ++ lg
    /\ List.length (filter (@returned _ _) new)
       + List.length (filter is_delete_failure lg)
       = List.length (results_of (absorbed o))
    /\ Forall (fun l => forall e, snd l <> ErrorDuringReset e) lg.
Proof.
  intros uid o listed. unfold reset_memories. fold uid.
  unfold st_try at 1, st_bind at 1, admin_log at 1. unfold st_bind at 1.
  match goal with
  | |- context [get_all_memories backend config (Some uid) ?s0] =>
      destruct (get_all_memories_run (Some uid) s0)
        as (lv & msg & E & _ & Hlv & Hmsg)
  end.
  assert (Hu : or_else (Some uid) (self_user_id config) = uid)
    by apply or_else_idem.
  cbn [calls admin_logs] in E. rewrite !Hu in E. fold o in E. fold listed in E.
  rewrite E. clear E.
  destruct (has_results (absorbed o)) eqn:Hres; cbn [negb].
  - unfold st_bind at 1.
    match goal with
    | |- context [delete_loop backend ?ms 0 ?s1] =>
        destruct (delete_loop_run ms 0 s1)
          as (s' & new & lg & E & Hl & Hd & Hids & Hby & Hlg & Hf & Hn)
    end.
    cbn [calls listings deletions admin_logs] in *.
    rewrite E. run_state. cbn [Nat.add].
    eexists _, new, _. split; [reflexivity|]. cbn [calls admin_logs].
    split; [exact Hl|]. split; [exact Hd|]. split; [exact Hids|].
    split; [exact Hby|].
    split; [rewrite Hlg, <- !app_assoc; reflexivity|].
    assert (Hall : filter is_delete_failure lg = lg).
    { clear - Hf. induction lg as [|x lg IH]; [reflexivity|].
      cbn in *. apply andb_prop in Hf. destruct Hf as [-> Hf].
      rewrite IH by exact Hf. reflexivity. }
    split.
    + cbn [app filter].
      change (is_delete_failure (INFO, Resetting uid)) with false.
      cbv iota. rewrite Hlv, filter_app, length_app, Hall. cbn. lia.
    + constructor; [discriminate|]. constructor; [exact Hmsg|].
      apply Forall_app. split.
      * apply Forall_forall. intros x Hx e0.
        assert (Hx' : is_delete_failure x = true).
        { rewrite forallb_forall in Hf. apply Hf. exact Hx. }
        unfold is_delete_failure in Hx'. intros Heq. rewrite Heq in Hx'.
        discriminate.
      * constructor; [discriminate | constructor].
  - run_state. rewrite (no_results_nil _ Hres).
    eexists _, [], _. split; [reflexivity|]. cbn [calls admin_logs].
    split; [reflexivity|]. split; [rewrite app_nil_r; reflexivity|].
    split; [reflexivity|]. split; [exact I|].
    split; [rewrite <- !app_assoc; reflexivity|].
    split.
    + cbn [app filter].
      change (is_delete_failure (INFO, Resetting uid)) with false.
      cbv iota. rewrite Hlv. reflexivity.
    + constructor; [discriminate|]. constructor; [exact Hmsg|].
      constructor; [discriminate | constructor].
Qed.

End Reset.

(** X22.  [get_all_memories] never raises and lists the backend exactly
    once, for the user id given or the configured one.  It logs exactly
    one line, and that line is an error exactly when it returns
    [None]. *)
Theorem get_all_failure_logged (backend : Backend) (config : Config)
    (user_id : option text) (s : Store) :
  let uid := or_else user_id (self_user_id config) in
  let o := memory_get_all backend (calls s) uid in
  exists r lv msg,
    get_all_memories backend config user_id s
    = (Ok r,
       MkStore (MkCalls (listings (calls s) ++ [(uid, o)])
                        (deletions (calls s)))
               (admin_logs s ++ [(lv, msg)]))
    /\ (r = None <-> lv = ERROR).
Proof.
  intros uid o.
  destruct (get_all_memories_run backend config user_id s)
    as (lv & msg & E & H & _).
  exists (absorbed o), lv, msg. split; [exact E | exact H].
Qed.

(** X23.  [reset_memories] never raises.  It lists the backend once and
    then tries to delete every listed memory exactly once, in the order
    listed, going on after a deletion that fails; what it returns is the
    number of deletions that succeeded.  When the listing fails or is
    empty it deletes nothing and returns 0. *)
Theorem reset_deletes_every_listed_memory (backend : Backend)
    (config : Config) (user_id : option text) (s : Store) :
  let uid := or_else user_id (self_user_id config) in
  let o := memory_get_all backend (calls s) uid in
  let listed := MkCalls (listings (calls s) ++ [(uid, o)]) (deletions (calls s)) in
  exists deleted s' new,
    reset_memories backend config user_id s = (Ok deleted, s')
    /\ listings (calls s') = listings listed
    /\ deletions (calls s') = deletions (calls s) ++ new
    /\ map fst new = map rec_id (results_of (absorbed o))
    /\ deleted_by backend listed new
    /\ deleted = List.length (filter (@returned _ _) new)
    /\ deleted <= List.length (results_of (absorbed o)).
Proof.
  intros uid o listed.
  destruct (reset_memories_run backend config user_id s)
    as (s' & new & lg & E & Hl & Hd & Hids & Hby & _ & Hn & _).
  fold uid in Hl, Hids, Hby, Hn. fold o in Hl, Hids, Hby, Hn.
  fold listed in Hl, Hby.
  exists (List.length (filter (@returned _ _) new)), s', new.
  split; [exact E|]. split; [exact Hl|]. split; [exact Hd|].
  split; [exact Hids|]. split; [exact Hby|]. split; [reflexivity | lia].
Qed.

(** X24.  The books of a reset: the memories deleted and the deletion
    failures logged add up to the memories listed, and the line
    [Error during reset] is never logged. *)
Theorem reset_logs_every_failure (backend : Backend) (config : Config)
    (user_id : option text) (s : Store) :
  let uid := or_else user_id (self_user_id config) in
  let o := memory_get_all backend (calls s) uid in
  exists deleted s' lg,
    reset_memories backend config user_id s = (Ok deleted, s')
    /\ admin_logs s' = admin_logs s ++ lg
    /\ deleted + List.length (filter is_delete_failure lg)
       = List.length (results_of (absorbed o))
    /\ Forall (fun l => forall e, snd l <> ErrorDuringReset e) lg.
Proof.
  intros uid o.
  destruct (reset_memories_run backend config user_id s)
    as (s' & new & lg & E & _ & _ & _ & _ & Hlg & Hn & Hnever).
  exists (List.length (filter (@returned _ _) new)), s', lg.
  split; [exact E|]. split; [exact Hlg|]. split; [exact Hn | exact Hnever].
Qed.

(** Three memories of which the second cannot be deleted: all three
    deletions are tried, two are counted, one failure is logged. *)
Example reset_with_a_stubborn_memory :
  let ran := reset_memories stubborn_backend Samples.sample_config None
               empty_store in
  fst ran = Ok 2
  /\ map fst (deletions (calls (snd ran)))
     = [txt "id-1"; txt "id-2"; txt "id-3"]
  /\ filter is_delete_failure (admin_logs (snd ran))
     = [(ERROR, FailedToDelete (txt "id-2")
                  (Exn OtherException (txt "point not found")))].
Proof. repeat split; vm_compute; reflexivity. Qed.

End AdminExtras.

(* ===================================================================== *)
(** * Computations that read no file *)
(* ===================================================================== *)

Module ReadFrames.
Import Re Datetime Runtime Notions MoreNotions TextFacts AddFactFacts Frames.
Import MemoryManager MarkdownProcessor EntryFacts.

Lemma read_free_ret (A : Type) (a : A) : read_free (ret a).
Proof. intros w. reflexivity. Qed.

Lemma read_free_raise (A : Type) (e : exn) : read_free (@raise A e).
Proof. intros w. reflexivity. Qed.

Lemma read_free_lift (A : Type) (o : outcome A) : read_free (lift o).
Proof. intros w. reflexivity. Qed.

Lemma read_free_log (lv : log_level) (msg : log_msg) : read_free (log lv msg).
Proof. intros w. reflexivity. Qed.

Lemma read_free_sleep (ms : nat) : read_free (sleep ms).
Proof. intros w. reflexivity. Qed.

Lemma read_free_bind (A B : Type) (m : M A) (f : A -> M B) :
  read_free m -> (forall a, read_free (f a)) -> read_free (bind m f).
Proof.
  intros Hm Hf w. unfold bind. specialize (Hm w).
  destruct (m w) as [[a | e] w1]; cbn in *.
  - rewrite Hf. exact Hm.
  - exact Hm.
Qed.

Lemma read_free_try_except (A : Type) (m : M A) (h : exn -> M A) :
  read_free m -> (forall e, read_free (h e)) -> read_free (try_except m h).
Proof.
  intros Hm Hh w. unfold try_except. specialize (Hm w).
  destruct (m w) as [[a | e] w1]; cbn in *.
  - exact Hm.
  - rewrite Hh. exact Hm.
Qed.

Lemma read_free_try_except_cls (A : Type) (cls : exn_class) (m : M A)
    (h : exn -> M A) :
  read_free m -> (forall e, read_free (h e)) ->
  read_free (try_except_cls cls m h).
Proof.
  intros Hm Hh. unfold try_except_cls. apply read_free_try_except; [exact Hm|].
  intros e. destruct (exn_class_eqb (exn_cls e) cls);
    [apply Hh | apply read_free_raise].
Qed.

Create HintDb read_free.

#[local] Hint Resolve read_free_ret read_free_raise read_free_lift
  read_free_log read_free_sleep : read_free.

Ltac read_free_step :=
  first [ apply read_free_bind; [|intros ?]
        | apply read_free_try_except; [|intros ?]
        | apply read_free_try_except_cls; [|intros ?]
        | solve [auto with read_free] ].

Section Chain.
Variable env : Env.
Variable config : Config.

Lemma read_free_add (c : add_call) : read_free (call_memory_add env c).
Proof. intros w. reflexivity. Qed.

Lemma read_free_post (r : http_request) : read_free (call_requests_post env r).
Proof. intros w. reflexivity. Qed.

Lemma parse_date_read_free (date_str : text) :
  read_free (parse_date env date_str).
Proof.
  intros w. destruct (parse_date_loop_returns env date_patterns date_str w)
    as (r & w' & E & Hh & _).
  unfold parse_date. rewrite E. cbn. rewrite Hh. reflexivity.
Qed.

Lemma entries_of_matches_read_free (ms : list rmatch) :
  read_free (entries_of_matches env ms).
Proof.
  induction ms as [|m ms IH]; [apply read_free_ret|].
  cbn [entries_of_matches]. apply read_free_bind.
  - unfold entry_of_match. apply read_free_bind;
      [apply parse_date_read_free|].
    intros [ts|]; [|apply read_free_ret].
    destruct (split1 split_pattern (strip (group m 1))) as [|p0 [|p1 ps]];
      apply read_free_ret.
  - intros e. apply read_free_bind; [exact IH|]. intros es.
    apply read_free_ret.
Qed.

Lemma extract_conversation_entries_read_free (section_content : text) :
  read_free (extract_conversation_entries env section_content).
Proof.
  unfold extract_conversation_entries.
  apply read_free_bind; [apply entries_of_matches_read_free|].
  intros entries.
  destruct (negb (nonempty entries) && nonempty (strip section_content));
    repeat read_free_step.
Qed.

Lemma call_ollama_api_read_free (p : prompt) :
  read_free (_call_ollama_api env config p).
Proof.
  unfold _call_ollama_api.
  destruct (memory_llm_config config) as [mc|]; [|apply read_free_raise].
  destruct (ollama_base_url mc); [|apply read_free_raise].
  destruct (model mc); [|apply read_free_raise].
  apply read_free_try_except_cls.
  - apply read_free_bind; [apply read_free_post|]. intros response.
    apply read_free_bind.
    + unfold raise_for_status.
      destruct ((400 <=? status_code response) && (status_code response <? 600));
        auto with read_free.
    + intros _. apply read_free_bind; [apply read_free_lift|]. intros result.
      destruct (response_field result); apply read_free_ret.
  - intros e. repeat read_free_step.
Qed.

Lemma extract_facts_with_llm_read_free (context content : text)
    (ts : option datetime) :
  read_free (extract_facts_with_llm env config context content ts).
Proof.
  unfold extract_facts_with_llm. apply read_free_bind.
  - repeat read_free_step.
  - intros p. apply read_free_try_except.
    + apply read_free_bind; [apply call_ollama_api_read_free|].
      intros r. apply read_free_ret.
    + intros e. repeat read_free_step.
Qed.

Lemma add_fact_read_free (fact : text) (user_id : option text)
    (metadata : option (list (text * text))) (max_retries : Z) :
  read_free (add_fact env config fact user_id metadata max_retries).
Proof.
  unfold add_fact. generalize (range max_retries) as attempts.
  induction attempts as [|attempt rest IH]; [apply read_free_ret|].
  cbn [add_fact_loop]. apply read_free_bind.
  - unfold add_attempt. apply read_free_try_except.
    + apply read_free_bind; [apply read_free_log|]. intros _.
      apply read_free_bind; [apply read_free_add|]. intros result.
      destruct (has_results result); repeat read_free_step.
    + intros e. apply read_free_bind; [apply read_free_log|]. intros _.
      destruct (Z.of_nat attempt <? max_retries - 1)%Z; repeat read_free_step.
  - intros [v|]; [apply read_free_ret | exact IH].
Qed.

Lemma add_facts_read_free (facts : list text) (ts : option datetime)
    (user_id : text) :
  forall added, read_free (add_facts env config facts ts user_id added).
Proof.
  induction facts as [|fact rest IH]; intros added; [apply read_free_ret|].
  cbn [add_facts]. apply read_free_bind; [apply add_fact_read_free|].
  intros result. apply IH.
Qed.

Lemma process_entries_read_free (entries : list entry)
    (section_header user_id : text) :
  forall counters,
  read_free (process_entries env config entries section_header user_id counters).
Proof.
  induction entries as [|e rest IH]; intros counters; [apply read_free_ret|].
  cbn [process_entries].
  destruct (negb (nonempty (entry_content e))
            || (List.length (strip (entry_content e)) <? 10)); [apply IH|].
  apply read_free_bind; [apply extract_facts_with_llm_read_free|].
  intros facts. apply read_free_bind; [apply add_facts_read_free|].
  intros added. apply read_free_bind; [apply read_free_sleep|].
  intros _. apply IH.
Qed.

Lemma process_sections_read_free (ss : list section) (user_id : text) :
  forall counters,
  read_free (process_sections env config ss user_id counters).
Proof.
  induction ss as [|s rest IH]; intros counters; [apply read_free_ret|].
  cbn [process_sections]. apply read_free_bind; [apply read_free_log|].
  intros _. apply read_free_bind;
    [apply extract_conversation_entries_read_free|].
  intros entries. apply read_free_bind; [apply read_free_log|].
  intros _. apply read_free_bind; [apply process_entries_read_free|].
  intros c. apply IH.
Qed.

(** [process_file] reads its file once and no other. *)
Lemma process_file_reads (file_path : text) (user_id : option text)
    (w : World) :
  reads (history (snd (process_file env config file_path user_id w)))
  = reads (history w) ++ [(file_path, read_file env (history w) file_path)].
Proof.
  unfold process_file. unfold bind at 1, log at 1.
  unfold try_except, bind at 1, call_read_file.
  cbn [history logs sleeps].
  destruct (read_file env (history w) file_path) as [markdown_text | e].
  - match goal with
    | |- context [bind ?m ?f ?w1] =>
        assert (H : read_free (bind m f))
          by (repeat read_free_step; apply process_sections_read_free);
        specialize (H w1); destruct (bind m f w1) as [[c | e] w2]
    end; cbn [snd history reads] in H; run_monad; exact H.
  - reflexivity.
Qed.

End Chain.

End ReadFrames.

(* ===================================================================== *)
(** * The walk over the directories *)
(* ===================================================================== *)

Module DirectoryExtras.
Import Re Datetime Runtime Notions MoreNotions TextFacts AddFactFacts Frames.
Import MemoryManager MarkdownProcessor ProcessExtras ReadFrames State.
Import Directories Samples.

Ltac run_dirs :=
  unfold st_try, st_bind, st_ret, st_raise, st_lift, dir_log, in_world;
  cbn [fst snd world dir_logs].

(** After [n] files, [n / size] batches were full. *)
Lemma full_batches_count (size : Z) (n : nat) :
  (0 < size)%Z ->
  Z.of_nat (List.length (full_batches size 1 n)) = (Z.of_nat n / size)%Z.
Proof.
  intros Hb. unfold full_batches. induction n as [|n IH].
  - reflexivity.
  - rewrite seq_S, filter_app, length_app, Nat2Z.inj_add, IH.
    cbn [Nat.add filter].
    assert (Hs : Z.of_nat (S n) = (Z.of_nat n + 1)%Z) by lia.
    rewrite Hs.
    destruct ((Z.of_nat n + 1) mod size =? 0)%Z eqn:E; cbn [List.length].
    + apply Z.eqb_eq in E. Z.div_mod_to_equations. nia.
    + apply Z.eqb_neq in E. Z.div_mod_to_equations. nia.
Qed.

Section Walk.
Variable env : Env.
Variable fs : FileSystem.
Variable config : Config.
Variable options : DirOptions.

(** Collecting the files leaves the world of the file processor
    alone, and logs no end of a batch. *)
Lemma glob_extensions_frame (directory : text) (rec : bool)
    (exts : list text) :
  forall all_files dw o dw',
  glob_extensions fs directory rec exts all_files dw = (o, dw') ->
  world dw' = world dw
  /\ exists lg, dir_logs dw' = dir_logs dw ++ lg
                /\ filter is_batch_line lg = [].
Proof.
  induction exts as [|ext rest IH]; intros all_files dw o dw' E.
  - cbn in E. injection E as <- <-. split; [reflexivity|].
    exists []. rewrite app_nil_r. split; reflexivity.
  - cbn [glob_extensions] in E. unfold st_bind at 1, st_lift at 1 in E.
    destruct (path_glob fs directory (glob_pattern rec ext)) as [files | e].
    + unfold st_bind at 1, dir_log at 1 in E.
      destruct (IH _ _ _ _ E) as (Hw & lg & Hlg & Hb).
      cbn [world dir_logs] in Hw, Hlg. split; [exact Hw|].
      eexists (_ :: lg). rewrite Hlg, <- app_assoc.
      split; [reflexivity | exact Hb].
    + injection E as <- <-. split; [reflexivity|].
      exists []. rewrite app_nil_r. split; reflexivity.
Qed.

Lemma collect_files_frame (directories : list text) (rec : bool)
    (exts : list text) :
  forall all_files dw o dw',
  collect_files fs directories rec exts all_files dw = (o, dw') ->
  world dw' = world dw
  /\ exists lg, dir_logs dw' = dir_logs dw ++ lg
                /\ filter is_batch_line lg = [].
Proof.
  assert (Hnil : forall dw : DWorld,
            world dw = world dw
            /\ exists lg, dir_logs dw = dir_logs dw ++ lg
                          /\ filter is_batch_line lg = []).
  { intros dw. split; [reflexivity|]. exists []. rewrite app_nil_r.
    split; reflexivity. }
  assert (Hlog : forall (dw dw' : DWorld) lv msg,
            is_batch_line (lv, msg) = false ->
            (world dw' = world dw
             /\ exists lg, dir_logs dw' = (dir_logs dw ++ [(lv, msg)]) ++ lg
                           /\ filter is_batch_line lg = []) ->
            world dw' = world dw
            /\ exists lg, dir_logs dw' = dir_logs dw ++ lg
                          /\ filter is_batch_line lg = []).
  { intros dw dw' lv msg Hm (Hw & lg & Hlg & Hb). split; [exact Hw|].
    exists ((lv, msg) :: lg). rewrite Hlg, <- app_assoc.
    split; [reflexivity|]. cbn [filter]. rewrite Hm. exact Hb. }
  induction directories as [|d rest IH]; intros all_files dw o dw' E.
  - cbn in E. injection E as <- <-. apply Hnil.
  - cbn [collect_files] in E. unfold st_bind at 1, st_lift at 1 in E.
    destruct (path_exists fs d) as [[|] | e]; cbn [negb] in E.
    + unfold st_bind at 1, st_lift at 1 in E.
      destruct (path_is_dir fs d) as [[|] | e]; cbn [negb] in E.
      * unfold st_bind at 1 in E.
        destruct (glob_extensions fs d rec exts all_files dw)
          as [[l | e] dw1] eqn:Eg;
          destruct (glob_extensions_frame _ _ _ _ _ Eg)
            as (Hw & lg & Hlg & Hb).
        -- destruct (IH _ _ _ _ E) as (Hw2 & lg2 & Hlg2 & Hb2).
           split; [congruence|]. exists (lg ++ lg2).
           rewrite Hlg2, Hlg, filter_app, Hb, Hb2, app_assoc.
           split; reflexivity.
        -- injection E as <- <-. split; [exact Hw|]. exists lg.
           split; [exact Hlg | exact Hb].
      * unfold st_bind at 1, dir_log at 1 in E.
        apply (@Hlog dw dw' WARNING (NotADirectory d) eq_refl).
        apply (IH _ _ _ _ E).
      * injection E as <- <-. apply Hnil.
    + unfold st_bind at 1, dir_log at 1 in E.
      apply (@Hlog dw dw' WARNING (DirectoryMissing d) eq_refl).
      apply (IH _ _ _ _ E).
    + injection E as <- <-. apply Hnil.
Qed.

Lemma glob_extensions_barren (directory : text) (rec : bool)
    (exts : list text) :
  (forall ext, In ext exts ->
     path_glob fs directory (glob_pattern rec ext) = Ok []) ->
  forall all_files dw, exists dw',
    glob_extensions fs directory rec exts all_files dw = (Ok all_files, dw').
Proof.
  induction exts as [|ext rest IH]; intros H all_files dw.
  - exists dw. reflexivity.
  - cbn [glob_extensions]. run_dirs. rewrite (H ext (in_eq _ _)).
    cbn [List.length]. rewrite app_nil_r. apply IH.
    intros e He. apply H. right. exact He.
Qed.

Lemma collect_files_barren (directories : list text) (rec : bool)
    (exts : list text) :
  Forall (barren fs rec exts) directories ->
  forall all_files dw, exists dw',
    collect_files fs directories rec exts all_files dw = (Ok all_files, dw').
Proof.
  induction 1 as [|d rest Hd _ IH]; intros all_files dw.
  - exists dw. reflexivity.
  - cbn [collect_files]. unfold st_bind at 1, st_lift at 1.
    destruct Hd as [He | [(He & Hi) | (He & Hi & Hg)]]; rewrite He; cbn [negb].
    + unfold st_bind at 1, dir_log at 1. apply IH.
    + unfold st_bind at 1, st_lift at 1. rewrite Hi. cbn [negb].
      unfold st_bind at 1, dir_log at 1. apply IH.
    + unfold st_bind at 1, st_lift at 1. rewrite Hi. cbn [negb].
      unfold st_bind at 1.
      destruct (@glob_extensions_barren d rec exts Hg all_files dw)
        as (dw1 & E).
      rewrite E. apply IH.
Qed.

(** The loop over the files, for a batch size other than zero. *)
Lemma process_files_run (total_files : nat) (user_id : text)
    (files : list text) :
  batch_size_of options <> 0%Z ->
  forall (i : nat) (counters : nat * nat) (dw : DWorld),
  exists c dw' new_adds new_reads lg k,
    process_files env config options files i total_files user_id counters dw
    = (Ok c, dw')
    /\ add_calls (history (world dw'))
       = add_calls (history (world dw)) ++ new_adds
    /\ reads (history (world dw')) = reads (history (world dw)) ++ new_reads
    /\ map fst new_reads = files
    /\ fst c = fst counters + k
    /\ snd c = snd counters + count_created new_adds
    /\ count_created new_adds <= k
    /\ k <= List.length new_adds <= 3 * k
    /\ Forall (filed_for (or_else (Some user_id) (self_user_id config)))
              new_adds
    /\ dir_logs dw' = dir_logs dw ++ lg
    /\ List.length (filter is_batch_line lg)
       = List.length (full_batches (batch_size_of options) i
                        (List.length files)).
Proof.
  intros Hsize. unfold batch_size_of in Hsize.
  induction files as [|file_path rest IH]; intros i counters dw.
  - exists counters, dw, [], [], [], 0. cbn. rewrite !app_nil_r.
    repeat split; auto.
  - cbn [process_files]. unfold st_bind at 1, dir_log at 1.
    unfold st_bind at 1, in_world at 1. cbn [world dir_logs].
    destruct (@process_file_accounts env config file_path (Some user_id)
                (world dw))
      as (c1 & w1 & new1 & k1 & E1 & Hh1 & Ht1 & Hc1 & Hle1 & Hl1 & Hf1).
    pose proof (process_file_reads env config file_path (Some user_id)
                  (world dw)) as Hr1.
    rewrite E1 in Hr1 |- *. cbn [snd fst] in Hr1, Ht1, Hc1.
    unfold st_bind at 1, batch_full at 1.
    apply Z.eqb_neq in Hsize as Hz. rewrite Hz. unfold st_ret at 1.
    unfold full_batches, batch_size_of.
    cbn [List.length seq filter].
    destruct (Z.of_nat i mod match batch_size options with
                             | Some n => n | None => 10%Z end =? 0)%Z.
    + unfold st_bind at 1. unfold st_bind at 1, dir_log at 1.
      unfold in_world at 1, sleep at 1. cbn [world dir_logs].
      match goal with
      | |- context [process_files env config options rest (S i) total_files
                      user_id ?c ?dw1] =>
          destruct (IH (S i) c dw1)
            as (c2 & dw2 & new2 & reads2 & lg2 & k2 & E2 & Hh2 & Hr2 & Hm2
                & Ht2 & Hc2 & Hle2 & Hl2 & Hf2 & Hlg2 & Hb2)
      end.
      cbn [world dir_logs history fst snd] in *.
      eexists c2, dw2, (new1 ++ new2), (_ :: reads2), (_ :: _ :: lg2), (k1 + k2).
      split; [exact E2|].
      split; [rewrite Hh2, Hh1, app_assoc; reflexivity|].
      split; [rewrite Hr2, Hr1, <- app_assoc; reflexivity|].
      split; [cbn [map fst]; f_equal; exact Hm2|].
      rewrite count_created_app, length_app.
      split; [lia|]. split; [lia|]. split; [lia|]. split; [lia|].
      split; [apply Forall_app; split; assumption|].
      split; [rewrite Hlg2, <- !app_assoc; reflexivity|].
      cbn [filter is_batch_line snd List.length].
      unfold full_batches, batch_size_of in Hb2. rewrite Hb2. reflexivity.
    + unfold st_bind at 1, st_ret at 1.
      match goal with
      | |- context [process_files env config options rest (S i) total_files
                      user_id ?c ?dw1] =>
          destruct (IH (S i) c dw1)
            as (c2 & dw2 & new2 & reads2 & lg2 & k2 & E2 & Hh2 & Hr2 & Hm2
                & Ht2 & Hc2 & Hle2 & Hl2 & Hf2 & Hlg2 & Hb2)
      end.
      cbn [world dir_logs history fst snd] in *.
      eexists c2, dw2, (new1 ++ new2), (_ :: reads2), (_ :: lg2), (k1 + k2).
      split; [exact E2|].
      split; [rewrite Hh2, Hh1, app_assoc; reflexivity|].
      split; [rewrite Hr2, Hr1, <- app_assoc; reflexivity|].
      split; [cbn [map fst]; f_equal; exact Hm2|].
      rewrite count_created_app, length_app.
      split; [lia|]. split; [lia|]. split; [lia|]. split; [lia|].
      split; [apply Forall_app; split; assumption|].
      split; [rewrite Hlg2, <- !app_assoc; reflexivity|].
      cbn [filter is_batch_line snd List.length].
      unfold full_batches, batch_size_of in Hb2. rewrite Hb2. reflexivity.
Qed.

(** With a batch size of zero the first file is processed and the
    batch test raises. *)
Lemma process_files_zero (total_files : nat) (user_id : text)
    (file_path : text) (rest : list text) (i : nat) (counters : nat * nat)
    (dw : DWorld) :
  batch_size_of options = 0%Z ->
  exists dw',
    process_files env config options (file_path :: rest) i total_files
                  user_id counters dw
    = (Raise zero_division, dw')
    /\ reads (history (world dw'))
       = reads (history (world dw))
         ++ [(file_path, read_file env (history (world dw)) file_path)].
Proof.
  unfold batch_size_of. intros Hsize.
  cbn [process_files]. unfold st_bind at 1, dir_log at 1.
  unfold st_bind at 1, in_world at 1. cbn [world dir_logs].
  destruct (@process_file_accounts env config file_path (Some user_id)
              (world dw))
    as (c1 & w1 & new1 & k1 & E1 & _).
  pose proof (process_file_reads env config file_path (Some user_id)
                (world dw)) as Hr1.
  rewrite E1 in Hr1 |- *. cbn [snd] in Hr1.
  unfold st_bind at 1, batch_full at 1. rewrite Hsize. cbn [Z.eqb].
  unfold st_raise. eexists. split; [reflexivity|]. exact Hr1.
Qed.

(** The three ways a walk ends. *)
Lemma process_directories_run (user_id : option text) (dw : DWorld) :
  let uid := or_else user_id (self_user_id config) in
  let ran := process_directories env fs config options user_id dw in
  (exists e, fst ran = Raise e
             /\ List.length (reads (history (world (snd ran))))
                <= S (List.length (reads (history (world dw))))
             /\ (batch_size_of options <> 0%Z -> world (snd ran) = world dw))
  \/ (fst ran = Ok (0, 0, 0) /\ world (snd ran) = world dw
      /\ exists lg, dir_logs (snd ran)
                    = dir_logs dw ++ lg ++ [(WARNING, NoMarkdownFiles)]
                    /\ filter is_batch_line lg = [])
  \/ (batch_size_of options <> 0%Z
      /\ exists total_facts added_facts new_adds new_reads lg,
           fst ran = Ok (List.length new_reads, total_facts, added_facts)
           /\ new_reads <> []
           /\ add_calls (history (world (snd ran)))
              = add_calls (history (world dw)) ++ new_adds
           /\ reads (history (world (snd ran)))
              = reads (history (world dw)) ++ new_reads
           /\ added_facts = count_created new_adds
           /\ added_facts <= total_facts
           /\ total_facts <= List.length new_adds <= 3 * total_facts
           /\ Forall (filed_for uid) new_adds
           /\ dir_logs (snd ran) = dir_logs dw ++ lg
           /\ List.length (filter is_batch_line lg)
              = List.length (full_batches (batch_size_of options) 1
                               (List.length new_reads))).
Proof.
  intros uid ran.
  assert (Hran : ran = process_directories env fs config options user_id dw)
    by reflexivity.
  clearbody ran. unfold process_directories in Hran. fold uid in Hran.
  unfold st_bind at 1, dir_log at 1 in Hran. unfold st_bind at 1 in Hran.
  match type of Hran with
  | context [collect_files fs ?ds ?rec ?exts [] ?dw0] =>
      destruct (collect_files fs ds rec exts [] dw0)
        as [[all_files | e] dw1] eqn:Ec;
      destruct (collect_files_frame _ _ _ _ _ Ec) as (Hw & lg0 & Hlg0 & Hb0)
  end; cbn [snd world dir_logs] in Hw, Hlg0.
  - destruct all_files as [|f rest]; cbn [nonempty negb] in Hran.
    + right. left. unfold st_bind, dir_log, st_ret in Hran. subst ran.
      cbn [fst snd world dir_logs].
      split; [reflexivity|]. split; [exact Hw|].
      exists ((INFO, ProcessingDirectories
                       (List.length
                          match markdown_directories options with
                          | Some l => l | None => [] end)) :: lg0).
      rewrite Hlg0, <- !app_assoc. split; [reflexivity | exact Hb0].
    + unfold st_bind at 1, dir_log at 1 in Hran. unfold st_bind at 1 in Hran.
      destruct (Z.eq_dec (batch_size_of options) 0) as [Hz | Hnz].
      * left.
        match type of Hran with
        | context [process_files env config options (f :: rest) 1 ?n uid
                     ?c ?dw2] =>
            destruct (@process_files_zero n uid f rest 1 c dw2 Hz)
              as (dw3 & E & Hr)
        end.
        rewrite E in Hran. subst ran. cbn [fst snd]. exists zero_division.
        split; [reflexivity|]. cbn [world] in Hr. rewrite Hw in Hr.
        split; [rewrite Hr, length_app; cbn; lia | congruence].
      * right. right. split; [exact Hnz|].
        match type of Hran with
        | context [process_files env config options (f :: rest) 1 ?n uid
                     ?c ?dw2] =>
            destruct (@process_files_run n uid (f :: rest) Hnz 1 c dw2)
              as (c2 & dw3 & new_adds & new_reads & lg & k & E & Hh & Hr & Hm
                  & Ht & Hc & Hle & Hl & Hf & Hlg & Hb)
        end.
        rewrite E in Hran. unfold st_bind, dir_log, st_ret in Hran.
        cbn [world dir_logs] in Hran. subst ran.
        cbn [world dir_logs fst snd] in *.
        assert (Hlen : List.length new_reads = List.length (f :: rest))
          by (rewrite <- Hm, length_map; reflexivity).
        exists (fst c2), (snd c2), new_adds, new_reads.
        eexists ((INFO, ProcessingDirectories _) :: lg0
                 ++ (INFO, ProcessingTotal _) :: lg
                 ++ [(INFO, Rule); (INFO, ProcessingComplete);
                     (INFO, FilesProcessed _); (INFO, TotalFactsExtracted _);
                     (INFO, SuccessfullyAdded _)]).
        rewrite Hlen.
        split; [reflexivity|].
        split; [intros ->; discriminate|].
        split; [rewrite Hh, Hw; reflexivity|].
        split; [rewrite Hr, Hw; reflexivity|].
        split; [lia|]. split; [lia|]. split; [lia|].
        split; [unfold uid in Hf |- *; rewrite or_else_idem in Hf; exact Hf|].
        split; [rewrite Hlg, Hlg0, <- !app_assoc; reflexivity|].
        cbn [filter is_batch_line snd].
        rewrite filter_app, Hb0. cbn [app filter is_batch_line snd].
        rewrite filter_app, length_app, Hb.
        cbn [filter is_batch_line snd List.length]. lia.
  - left. subst ran. cbn [fst snd]. exists e. split; [reflexivity|].
    rewrite Hw. split; [lia | reflexivity].
Qed.

End Walk.

(** X25.  When every configured directory is missing, is no directory,
    or holds no file of the configured extensions,
    [process_directories] returns [(0, 0, 0)] after a warning and leaves
    the world of the file processor untouched: no file is read, no
    request sent, nothing added. *)
Theorem barren_directories_nothing_done (env : Env) (fs : FileSystem)
    (config : Config) (options : DirOptions) (user_id : option text)
    (dw : DWorld) :
  Forall (barren fs (recursive_of options) (extensions_of options))
         (directories_of options) ->
  exists lg,
    process_directories env fs config options user_id dw
    = (Ok (0, 0, 0),
       MkDWorld (world dw)
                (dir_logs dw ++ lg ++ [(WARNING, NoMarkdownFiles)])).
Proof.
  unfold recursive_of, extensions_of, directories_of. intros H.
  unfold process_directories.
  unfold st_bind at 1, dir_log at 1. unfold st_bind at 1.
  match goal with
  | |- context [collect_files fs ?ds ?rec ?exts [] ?dw0] =>
      destruct (@collect_files_barren fs ds rec exts H [] dw0) as (dw1 & E);
      destruct (@collect_files_frame fs _ _ _ _ _ _ _ E) as (Hw & lg & Hlg & _)
  end.
  rewrite E. cbn [nonempty negb]. run_dirs. cbn [world dir_logs] in Hw, Hlg.
  eexists (_ :: lg). rewrite Hw, Hlg, <- !app_assoc. reflexivity.
Qed.

Lemma barren_directories_nothing_done_witness :
  exists lg,
    process_directories (env_pizza (flaky_add 0)) sample_fs sample_config
      barren_options None empty_dworld
    = (Ok (0, 0, 0),
       MkDWorld (world empty_dworld)
                (dir_logs empty_dworld ++ lg ++ [(WARNING, NoMarkdownFiles)])).
Proof.
  apply (@barren_directories_nothing_done (env_pizza (flaky_add 0)) sample_fs
           sample_config barren_options None empty_dworld).
  constructor; [left; reflexivity|].
  constructor; [right; left; split; reflexivity | constructor].
Defined.

(** X26.  When [process_directories] returns, the files it counts are
    the files it read, and its two other counters keep the books of the
    backend over the whole walk: the facts added are the calls of
    [memory.add] that created a record, at most the facts extracted, and
    every extracted fact cost one to three calls, each filed for the
    user. *)
Theorem process_directories_budget (env : Env) (fs : FileSystem)
    (config : Config) (options : DirOptions) (user_id : option text)
    (dw dw' : DWorld) (files_processed total_facts added_facts : nat) :
  process_directories env fs config options user_id dw
  = (Ok (files_processed, total_facts, added_facts), dw') ->
  exists new_adds new_reads,
    add_calls (history (world dw'))
    = add_calls (history (world dw)) ++ new_adds
    /\ reads (history (world dw')) = reads (history (world dw)) ++ new_reads
    /\ files_processed = List.length new_reads
    /\ added_facts = count_created new_adds
    /\ added_facts <= total_facts
    /\ total_facts <= List.length new_adds <= 3 * total_facts
    /\ Forall (filed_for (or_else user_id (self_user_id config))) new_adds.
Proof.
  intros E.
  destruct (process_directories_run env fs config options user_id dw)
    as [(e & He & _) | [(Hz & Hw & _) | (_ & H)]]; rewrite E in *;
    cbn [fst snd] in *.
  - discriminate.
  - injection Hz as -> -> ->. exists [], [].
    rewrite Hw, !app_nil_r. repeat split; auto.
  - destruct H as (total & added & new_adds & new_reads & lg & Hr & _ & Hh
                   & Hrd & Ha & Hle & Hl & Hf & _).
    injection Hr as -> -> ->. exists new_adds, new_reads.
    repeat split; try assumption; lia.
Qed.

Lemma process_directories_budget_witness :
  let ran := process_directories (env_pizza (flaky_add 0)) sample_fs
               sample_config (sample_options (Some 2%Z)) None empty_dworld in
  fst ran = Ok (3, 3, 3)
  /\ exists new_adds new_reads,
       add_calls (history (world (snd ran)))
       = add_calls (history (world empty_dworld)) ++ new_adds
       /\ reads (history (world (snd ran)))
          = reads (history (world empty_dworld)) ++ new_reads
       /\ 3 = List.length new_reads
       /\ 3 = count_created new_adds
       /\ 3 <= 3
       /\ 3 <= List.length new_adds <= 3 * 3
       /\ Forall (filed_for (or_else None (self_user_id sample_config)))
                 new_adds.
Proof.
  intros ran. split; [vm_compute; reflexivity|].
  apply (@process_directories_budget (env_pizza (flaky_add 0)) sample_fs
           sample_config (sample_options (Some 2%Z)) None empty_dworld
           (snd ran) 3 3 3).
  vm_compute. reflexivity.
Defined.

(** X27.  With a configured batch size of zero [process_directories]
    never gets past its first file: either it finds no file and returns
    [(0, 0, 0)] with the world of the file processor untouched, or it
    raises, having read at most one file. *)
Theorem zero_batch_size_stops_walk (env : Env) (fs : FileSystem)
    (config : Config) (options : DirOptions) (user_id : option text)
    (dw : DWorld) :
  batch_size options = Some 0%Z ->
  let ran := process_directories env fs config options user_id dw in
  (fst ran = Ok (0, 0, 0) /\ world (snd ran) = world dw)
  \/ (exists e,
        fst ran = Raise e
        /\ List.length (reads (history (world (snd ran))))
           <= S (List.length (reads (history (world dw))))).
Proof.
  intros Hz ran.
  destruct (process_directories_run env fs config options user_id dw)
    as [(e & He & Hr & _) | [(H0 & Hw & _) | (Hnz & _)]].
  - right. exists e. split; assumption.
  - left. split; assumption.
  - exfalso. apply Hnz. unfold batch_size_of. rewrite Hz. reflexivity.
Qed.

Lemma zero_batch_size_stops_walk_witness :
  let ran := process_directories (env_pizza (flaky_add 0)) sample_fs
               sample_config (sample_options (Some 0%Z)) None empty_dworld in
  (fst ran = Raise zero_division
   /\ map fst (reads (history (world (snd ran)))) = [txt "notes/a.md"])
  /\ ((fst ran = Ok (0, 0, 0) /\ world (snd ran) = world empty_dworld)
      \/ (exists e,
            fst ran = Raise e
            /\ List.length (reads (history (world (snd ran))))
               <= S (List.length (reads (history (world empty_dworld)))))).
Proof.
  intros ran. split; [split; vm_compute; reflexivity|].
  apply (@zero_batch_size_stops_walk (env_pizza (flaky_add 0)) sample_fs
           sample_config (sample_options (Some 0%Z)) None empty_dworld).
  reflexivity.
Defined.

(** X28.  With a positive batch size [b], a walk that returns after [n]
    files has logged the end of a batch exactly [n / b] times (integer
    division). *)
Theorem batches_counted (env : Env) (fs : FileSystem) (config : Config)
    (options : DirOptions) (user_id : option text) (dw dw' : DWorld)
    (files_processed total_facts added_facts : nat) :
  (0 < batch_size_of options)%Z ->
  process_directories env fs config options user_id dw
  = (Ok (files_processed, total_facts, added_facts), dw') ->
  exists lg,
    dir_logs dw' = dir_logs dw ++ lg
    /\ Z.of_nat (List.length (filter is_batch_line lg))
       = (Z.of_nat files_processed / batch_size_of options)%Z.
Proof.
  intros Hb E.
  destruct (process_directories_run env fs config options user_id dw)
    as [(e & He & _) | [(Hz & _ & lg & Hlg & Hnone) | (_ & H)]];
    rewrite E in *; cbn [fst snd] in *.
  - discriminate.
  - injection Hz as -> -> ->.
    exists (lg ++ [(WARNING, NoMarkdownFiles)]). split; [exact Hlg|].
    rewrite filter_app, Hnone. reflexivity.
  - destruct H as (total & added & new_adds & new_reads & lg & Hr & _ & _
                   & _ & _ & _ & _ & _ & Hlg & Hcount).
    injection Hr as -> -> ->. exists lg. split; [exact Hlg|].
    rewrite Hcount. apply full_batches_count. exact Hb.
Qed.

Lemma batches_counted_witness :
  let ran := process_directories (env_pizza (flaky_add 0)) sample_fs
               sample_config (sample_options (Some 2%Z)) None empty_dworld in
  exists lg,
    dir_logs (snd ran) = dir_logs empty_dworld ++ lg
    /\ Z.of_nat (List.length (filter is_batch_line lg))
       = (Z.of_nat 3 / batch_size_of (sample_options (Some 2%Z)))%Z.
Proof.
  intros ran.
  apply (@batches_counted (env_pizza (flaky_add 0)) sample_fs sample_config
           (sample_options (Some 2%Z)) None empty_dworld (snd ran) 3 3 3).
  - reflexivity.
  - vm_compute. reflexivity.
Defined.

End DirectoryExtras.
